(** * Hireonova job scraper: a shallow embedding of [main.py]

    Definitions
    - [Str], [Re]: the string operations of Python that the scraper
      uses (slicing, [startswith], [in], [lower], [strip]) and the
      regular expressions it searches with;
    - [pyval], [result]: Python values as they come out of [json.loads],
      and calls that either return or raise;
    - [Collaborators]: the libraries and services the scraper calls
      (urllib, bs4, datetime, json, pydantic, requests, selenium, the
      model service and the ingestion endpoint), kept abstract;
    - the functions of [main.py], under their own names, in a state
      monad over the fields of [EnhancedJobScraper], the outside world
      and the log of the calls made to the outside;
    - [UrlErrors] and the functions named [..._x]: the functions that
      call [urljoin] and [urlparse], with these calls allowed to raise
      and the exception leaving the crawl where the source does not
      catch it;
    - what is observed of a run: the log read by kind of event, the
      rules of the link classifier, the invariants of a domain pass;
    - [Sample]: one scripted set of collaborators, to run the functions
      on explicit pages.

    Properties
    - of the date parser and of the link classifier;
    - of each operation on the state;
    - of the crawl loop: termination within the page budget, the page
      count, the frontier without duplicates, the records emitted;
    - runs on the sample collaborators;
    - of the loop that an exception can leave, and the crawl that a
      malformed link ends. *)

From Stdlib Require Import ZArith String Ascii List Bool Lia.
From stdpp Require Import base tactics option list gmap strings.

Local Set Warnings "-register-all,-abstract-large-number,-clear-no-such-hyp".

Local Open Scope string_scope.
Local Open Scope list_scope.
Local Open Scope stdpp_scope.

(** ** Strings

    A Python [str] is modelled by [string]: a sequence of characters,
    [len] being the number of characters.  The characters are the code
    points 0 to 255, and the character classes ([isspace] and [\s],
    [\d], [lower]) are those of Python on these code points. *)

Module Str.

(** [s[:n]] *)
Fixpoint take (n : nat) (s : string) : string :=
  match n, s with
  | S n', String c s' => String c (take n' s')
  | _, _ => EmptyString
  end.

(** [s[n:]] *)
Fixpoint drop (n : nat) (s : string) : string :=
  match n, s with
  | S n', String _ s' => drop n' s'
  | _, _ => s
  end.

(** [s[a:-b]] for non-negative [a] and [b]. *)
Definition slice (a b : nat) (s : string) : string :=
  take (String.length s - b - a) (drop a s).

(** [s.startswith(p)] *)
Definition startswith (p s : string) : bool := String.prefix p s.

(** [s.endswith(p)] *)
Definition endswith (p s : string) : bool :=
  (String.length p <=? String.length s)%nat
  && String.eqb (drop (String.length s - String.length p) s) p.

(** Does some suffix of [s], leftmost first, satisfy [P]? *)
Fixpoint find_suffix (P : string -> bool) (s : string) : bool :=
  P s || match s with
         | EmptyString => false
         | String _ s' => find_suffix P s'
         end.

(** [needle in hay] *)
Definition contains (needle hay : string) : bool :=
  find_suffix (String.prefix needle) hay.

Definition lower_ascii (c : ascii) : ascii :=
  let n := nat_of_ascii c in
  if ((65 <=? n)%nat && (n <=? 90)%nat)
     || ((192 <=? n)%nat && (n <=? 222)%nat && negb (n =? 215)%nat)
  then ascii_of_nat (n + 32) else c.

(** [s.lower()] *)
Fixpoint lower (s : string) : string :=
  match s with
  | EmptyString => EmptyString
  | String c s' => String (lower_ascii c) (lower s')
  end.

(** [c.isspace()], which is also the class [\s]. *)
Definition is_space (c : ascii) : bool :=
  let n := nat_of_ascii c in
  ((9 <=? n)%nat && (n <=? 13)%nat)
  || ((28 <=? n)%nat && (n <=? 32)%nat)
  || (n =? 133)%nat || (n =? 160)%nat.

(** The class [\d]. *)
Definition is_digit (c : ascii) : bool :=
  let n := nat_of_ascii c in (48 <=? n)%nat && (n <=? 57)%nat.

(** Longest prefix of characters in a class, and what follows it. *)
Fixpoint span (P : ascii -> bool) (s : string) : string * string :=
  match s with
  | EmptyString => (EmptyString, EmptyString)
  | String c s' =>
      if P c then let '(a, b) := span P s' in (String c a, b)
      else (EmptyString, s)
  end.

Fixpoint lstrip (s : string) : string :=
  match s with
  | String c s' => if is_space c then lstrip s' else s
  | EmptyString => EmptyString
  end.

Fixpoint rev_app (s acc : string) : string :=
  match s with
  | EmptyString => acc
  | String c s' => rev_app s' (String c acc)
  end.

Definition rev (s : string) : string := rev_app s EmptyString.

(** [s.strip()] *)
Definition strip (s : string) : string := rev (lstrip (rev (lstrip s))).

(** [int(s)] for a run of decimal digits. *)
Fixpoint int_of_digits (acc : Z) (s : string) : Z :=
  match s with
  | EmptyString => acc
  | String c s' =>
      int_of_digits (10 * acc + Z.of_nat (nat_of_ascii c - 48)) s'
  end.

End Str.

(** ** Regular expressions of the source *)

Module Re.

(** [re.search(r'/job|/jobs|/careers|/apply|/view|/listing|/posting|/opportunities',
    path, re.IGNORECASE)] *)
Definition job_path_alternatives : list string :=
  ["/job"; "/jobs"; "/careers"; "/apply"; "/view"; "/listing";
   "/posting"; "/opportunities"].

Definition search_job_path (path : string) : bool :=
  existsb (fun alt => Str.contains alt (Str.lower path)) job_path_alternatives.

(** One alternative [kw=\d+]: the keyword, an equals sign, a digit. *)
Definition kw_digits_at (kw s : string) : bool :=
  String.prefix kw s &&
  match Str.drop (String.length kw) s with
  | String c _ => Str.is_digit c
  | EmptyString => false
  end.

(** [re.search(r'page=\d+|start=\d+|offset=\d+|p=\d+', query, re.IGNORECASE)] *)
Definition pagination_alternatives : list string :=
  ["page="; "start="; "offset="; "p="].

Definition search_pagination (query : string) : bool :=
  existsb (fun kw => Str.find_suffix (kw_digits_at kw) (Str.lower query))
          pagination_alternatives.

(** [\s+ago] at the start of [s]. *)
Definition spaces_ago_at (s : string) : bool :=
  let '(ws, r) := Str.span Str.is_space s in
  negb (String.eqb ws "") && String.prefix "ago" (Str.lower r).

Definition time_units : list string := ["day"; "hour"; "week"; "month"; "year"].

(** [(day|hour|week|month|year)] at the start of [s], whatever the
    case: the text matched and what follows it. *)
Fixpoint unit_at (units : list string) (s : string) : option (string * string) :=
  match units with
  | [] => None
  | u :: us =>
      if String.prefix u (Str.lower s)
      then Some (Str.take (String.length u) s, Str.drop (String.length u) s)
      else unit_at us s
  end.

(** [(\d+)\s+(day|hour|week|month|year)s?\s+ago] anchored at the start
    of [s]; the groups are the digits and the unit. *)
Definition time_ago_at (s : string) : option (string * string) :=
  let '(ds, r1) := Str.span Str.is_digit s in
  if String.eqb ds "" then None else
  let '(ws, r2) := Str.span Str.is_space r1 in
  if String.eqb ws "" then None else
  match unit_at time_units r2 with
  | None => None
  | Some (u, r3) =>
      let plural :=
        match r3 with
        | String c r4 =>
            Ascii.eqb (Str.lower_ascii c) "s"%char && spaces_ago_at r4
        | EmptyString => false
        end in
      if plural || spaces_ago_at r3 then Some (ds, u) else None
  end.

(** [re.search(r'(\d+)\s+(day|hour|week|month|year)s?\s+ago', s, re.IGNORECASE)]:
    the leftmost match. *)
Fixpoint search_time_ago (s : string) : option (string * string) :=
  match time_ago_at s with
  | Some m => Some m
  | None =>
      match s with
      | EmptyString => None
      | String _ s' => search_time_ago s'
      end
  end.

End Re.

(** ** Python values, exceptions *)

(** The exceptions the source tells apart, and [OtherError] for every
    other subclass of [Exception]. *)
Inductive exn : Type :=
| ValueError | TypeError | AttributeError | KeyError | OverflowError
| RequestException | ValidationError | OtherError.

(** A call that returns a value or raises. *)
Inductive result (A : Type) : Type :=
| Ok (a : A)
| Raise (e : exn).
Arguments Ok {A} a.
Arguments Raise {A} e.

Definition rbind {A B : Type} (r : result A) (k : A -> result B) : result B :=
  match r with
  | Ok a => k a
  | Raise e => Raise e
  end.

Notation "'try!' x := r 'in' k" := (rbind r (fun x => k))
  (at level 10, x name, r at level 100, k at level 200).

(** [try: body except Exception: handler] *)
Definition except_Exception {A : Type} (body : result A) (handler : exn -> result A)
  : result A :=
  match body with
  | Ok a => Ok a
  | Raise e => handler e
  end.

(** [datetime]: microseconds since 0001-01-01T00:00:00, below the end of
    year 9999. *)
Definition datetime : Type := Z.

Definition us_per_hour : Z := 3600000000%Z.
Definition us_per_day : Z := (24 * us_per_hour)%Z.
Definition datetime_end : Z := (3652059 * us_per_day)%Z.
Definition timedelta_max_days : Z := 999999999%Z.

(** [timedelta(days=d, hours=h, weeks=w)], in microseconds. *)
Definition timedelta (d h w : Z) : result Z :=
  let us := ((d + 7 * w) * us_per_day + h * us_per_hour)%Z in
  if (Z.abs (us / us_per_day) <=? timedelta_max_days)%Z then Ok us
  else Raise OverflowError.

(** [t - delta] on a datetime. *)
Definition datetime_sub (t : datetime) (delta : Z) : result datetime :=
  let t' := (t - delta)%Z in
  if (0 <=? t')%Z && (t' <? datetime_end)%Z then Ok t' else Raise OverflowError.

(** What [json.loads] returns, and a datetime; JSON numbers are taken to
    be integers. *)
Inductive pyval : Type :=
| PNone
| PBool (b : bool)
| PInt (z : Z)
| PStr (s : string)
| PList (l : list pyval)
| PDict (d : list (string * pyval))
| PDatetime (t : datetime).

(** Truth value of a Python object, as [if x:] and [all([...])] test it. *)
Definition truthy (v : pyval) : bool :=
  match v with
  | PNone => false
  | PBool b => b
  | PInt z => negb (z =? 0)%Z
  | PStr s => negb (String.eqb s "")
  | PList l => match l with [] => false | _ => true end
  | PDict d => match d with [] => false | _ => true end
  | PDatetime _ => true
  end.

(** [len(v)] of a string value; other values of the model have no use
    of it. *)
Definition py_len (v : pyval) : nat :=
  match v with
  | PStr s => String.length s
  | PList l => length l
  | PDict d => length d
  | _ => 0
  end.

(** A dict with string keys, in insertion order. *)
Fixpoint dict_lookup (k : string) (d : list (string * pyval)) : option pyval :=
  match d with
  | [] => None
  | (k', v) :: d' => if String.eqb k k' then Some v else dict_lookup k d'
  end.

(** [d.get(k)] *)
Definition dict_get (k : string) (d : list (string * pyval)) : pyval :=
  match dict_lookup k d with
  | Some v => v
  | None => PNone
  end.

(** [d[k] = v] *)
Fixpoint dict_set (k : string) (v : pyval) (d : list (string * pyval))
  : list (string * pyval) :=
  match d with
  | [] => [(k, v)]
  | (k', v') :: d' =>
      if String.eqb k k' then (k, v) :: d' else (k', v') :: dict_set k v d'
  end.

(** [k in v] for a string [k]. *)
Definition py_in (k : string) (v : pyval) : result bool :=
  match v with
  | PDict d => Ok (bool_decide (is_Some (dict_lookup k d)))
  | PList l =>
      Ok (existsb (fun x => match x with
                            | PStr s => String.eqb s k
                            | _ => false
                            end) l)
  | PStr s => Ok (Str.contains k s)
  | _ => Raise TypeError
  end.

(** [v[k]] for a string [k]. *)
Definition py_getitem (v : pyval) (k : string) : result pyval :=
  match v with
  | PDict d =>
      match dict_lookup k d with
      | Some x => Ok x
      | None => Raise KeyError
      end
  | _ => Raise TypeError
  end.

(** [v.get] exists on dicts only. *)
Definition py_as_dict (v : pyval) : result (list (string * pyval)) :=
  match v with
  | PDict d => Ok d
  | _ => Raise AttributeError
  end.

(** [v.startswith], [v.endswith], [v.strip] exist on strings only. *)
Definition py_as_str (v : pyval) : result string :=
  match v with
  | PStr s => Ok s
  | _ => Raise AttributeError
  end.

(** ** The parsed page, as the scraper observes it *)

(** A bs4 [Tag]: its two renderings as text and its attributes. *)
Record Tag : Type := mkTag {
  get_text_strip : string;            (* get_text(strip=True) *)
  get_text_lines : string;            (* get_text(separator='\n', strip=True) *)
  tag_attrs : list (string * string)
}.

(** [tag.get(name)] *)
Fixpoint tag_get (name : string) (attrs : list (string * string)) : option string :=
  match attrs with
  | [] => None
  | (k, v) :: rest => if String.eqb name k then Some v else tag_get name rest
  end.

(** The CSS selectors of the source. *)
Inductive Selector : Type :=
| SelTag (tag : string)                     (* h1 *)
| SelClass (cls : string)                   (* .job-title *)
| SelAttr (tag attr value : string)         (* tag[attr*=value], the tag possibly empty *)
| SelInside (cls tag : string).             (* .cls tag *)

(** A [BeautifulSoup] object: the first element a CSS selector matches,
    and the [href] of every anchor that has one, in document order. *)
Record Soup : Type := mkSoup {
  select_one : Selector -> option Tag;
  find_all_a_href : list string       (* a_tag['href'] for a_tag in find_all('a', href=True) *)
}.

(** [urlparse(url)]: the components the scraper reads. *)
Record ParseResult : Type := mkParseResult {
  netloc : string;
  path : string;
  query : string
}.

(** ** Records *)

(** The dict [extracted_data] of [_parse_job_page], key by key. *)
Record JobData : Type := mkJobData {
  job_title : pyval;
  job_description : pyval;
  job_location : pyval;
  apply_url : pyval;
  company_image : pyval;
  date_posted : pyval
}.

(** The validated model [JobPostingAPI]. *)
Record JobPostingAPI : Type := mkJobPostingAPI {
  api_job_title : string;
  api_job_description : string;
  api_apply_url : string;
  api_company_image : option string;
  api_date_posted : option datetime
}.

(** ** Collaborators

    Everything [main.py] imports and calls.  [W] is the state of the
    outside world (the sites, the model service, the ingestion endpoint,
    the clock); a call that talks to the outside returns the new world. *)
Class Collaborators (W : Type) : Type := {
  (* urllib.parse *)
  urljoin : string -> string -> string;
  urlparse : string -> ParseResult;
  (* bs4 *)
  BeautifulSoup : string -> Soup;
  (* datetime *)
  strptime : string -> string -> result datetime;
  now : W -> datetime;
  (* json, builtins, pydantic *)
  json_loads : string -> result pyval;
  repr : pyval -> string;
  JobPostingAPI_init :
    pyval -> pyval -> string -> pyval -> pyval -> result JobPostingAPI;
  (* requests: the static tier; None stands for a RequestException *)
  session_get : string -> W -> option string * W;
  (* undetected_chromedriver: does the browser start, and does the
     script run on it afterwards go through? *)
  uc_Chrome : W -> bool * W;
  driver_execute_script : W -> bool * W;
  (* selenium: driver.get, the wait, the scroll, page_source; None
     stands for an exception *)
  driver_page_source : string -> W -> option string * W;
  (* the model service: the decoded body of the chat response *)
  ollama_chat : string -> string -> W -> result pyval * W;
  (* the ingestion endpoint: post and raise_for_status *)
  api_post : JobPostingAPI -> W -> result unit * W
}.

(** [str(v)] *)
Definition py_str `{Collaborators W} (v : pyval) : string :=
  match v with
  | PStr s => s
  | _ => repr v
  end.

(** ** State and effects *)

(** The calls the scraper makes, as an outside observer sees them. *)
Inductive Event : Type :=
| EvFetch (url : string)          (* _fetch_page(url) *)
| EvStatic (url : string)         (* the static tier is tried *)
| EvRendered (url : string)       (* the rendered tier is tried *)
| EvOracle (url : string)         (* the model service is asked *)
| EvPush (job : JobData)          (* push_job_to_api(job) *)
| EvPost (payload : JobPostingAPI). (* requests.post to the endpoint *)

(** The fields of [EnhancedJobScraper] that the crawl reads and writes,
    the outside world, and the log of events, latest first.  Sleeps,
    logging and the rotation of request headers change none of these
    and are left out. *)
Record State (W : Type) : Type := mkState {
  use_selenium : bool;
  driver : bool;                    (* self.driver is not None *)
  scraped_jobs : list JobData;
  visited_urls : gset string;
  queue : list string;
  world : W;
  log : list Event
}.
Arguments mkState {W}.
Arguments use_selenium {W}.
Arguments driver {W}.
Arguments scraped_jobs {W}.
Arguments visited_urls {W}.
Arguments queue {W}.
Arguments world {W}.
Arguments log {W}.

(** [EnhancedJobScraper.__init__] *)
Definition init {W : Type} (use_sel : bool) (w : W) : State W :=
  mkState use_sel false [] ∅ [] w [].

Definition max_pages_per_domain : nat := 30.

Section Monad.
Context {W : Type}.

Definition M (A : Type) : Type := State W -> A * State W.

Definition ret {A : Type} (a : A) : M A := fun st => (a, st).

Definition bind {A B : Type} (m : M A) (k : A -> M B) : M B :=
  fun st => let '(a, st') := m st in k a st'.

Definition get {A : Type} (f : State W -> A) : M A := fun st => (f st, st).

(** A call to the outside: the world moves on. *)
Definition call {A : Type} (c : W -> A * W) : M A :=
  fun st =>
    let '(a, w') := c (world st) in
    (a, mkState (use_selenium st) (driver st) (scraped_jobs st)
                (visited_urls st) (queue st) w' (log st)).

Definition emit (e : Event) : M unit :=
  fun st =>
    (tt, mkState (use_selenium st) (driver st) (scraped_jobs st)
                 (visited_urls st) (queue st) (world st) (e :: log st)).

Definition set_use_selenium (b : bool) : M unit :=
  fun st =>
    (tt, mkState b (driver st) (scraped_jobs st)
                 (visited_urls st) (queue st) (world st) (log st)).

Definition set_driver (b : bool) : M unit :=
  fun st =>
    (tt, mkState (use_selenium st) b (scraped_jobs st)
                 (visited_urls st) (queue st) (world st) (log st)).

(** [self.scraped_jobs.append(job)] *)
Definition scraped_jobs_append (job : JobData) : M unit :=
  fun st =>
    (tt, mkState (use_selenium st) (driver st) (scraped_jobs st ++ [job])
                 (visited_urls st) (queue st) (world st) (log st)).

(** [self.visited_urls.add(url)] *)
Definition visited_add (url : string) : M unit :=
  fun st =>
    (tt, mkState (use_selenium st) (driver st) (scraped_jobs st)
                 ({[url]} ∪ visited_urls st) (queue st) (world st) (log st)).

(** [self.queue.append(url)] *)
Definition queue_append (url : string) : M unit :=
  fun st =>
    (tt, mkState (use_selenium st) (driver st) (scraped_jobs st)
                 (visited_urls st) (queue st ++ [url]) (world st) (log st)).

Definition set_queue (q : list string) (st : State W) : State W :=
  mkState (use_selenium st) (driver st) (scraped_jobs st)
          (visited_urls st) q (world st) (log st).

Definition set_visited (v : gset string) (st : State W) : State W :=
  mkState (use_selenium st) (driver st) (scraped_jobs st)
          v (queue st) (world st) (log st).

End Monad.
Arguments M : clear implicits.

Notation "'let*' x := m 'in' k" := (bind m (fun x => k))
  (at level 10, x name, m at level 100, k at level 200).
Notation "m ;; k" := (bind m (fun _ => k))
  (at level 100, k at level 200, right associativity).

(** A Python string or [None], as [if html_content:] tests it. *)
Definition nonempty (o : option string) : bool :=
  match o with
  | Some s => negb (String.eqb s "")
  | None => false
  end.

Section Scraper.
Context {W : Type} `{Collab : Collaborators W}.

(** *** [parse_date_string] *)

Definition date_formats : list string :=
  ["%Y-%m-%d"; "%B %d, %Y"; "%d %B %Y"; "%m/%d/%Y"; "%d/%m/%Y"].

(** [datetime.strptime(date_str, fmt)] *)
Definition py_strptime (date_str : pyval) (fmt : string) : result datetime :=
  match date_str with
  | PStr s => strptime s fmt
  | _ => Raise TypeError
  end.

(** The loop over the formats: [Ok (Some t)] when a format returns,
    [Ok None] when the loop runs out, [Raise e] when [strptime] raises
    something other than [ValueError]. *)
Fixpoint try_formats (fmts : list string) (date_str : pyval)
  : result (option datetime) :=
  match fmts with
  | [] => Ok None
  | fmt :: rest =>
      match py_strptime date_str fmt with
      | Ok t => Ok (Some t)
      | Raise ValueError => try_formats rest date_str
      | Raise e => Raise e
      end
  end.

(** [re.search(pattern, date_str, re.IGNORECASE)] *)
Definition py_search_time_ago (date_str : pyval) : result (option (string * string)) :=
  match date_str with
  | PStr s => Ok (Re.search_time_ago s)
  | _ => Raise TypeError
  end.

(** The branches on [unit]. *)
Definition time_ago (w : W) (num : Z) (unit : string) : result (option datetime) :=
  if String.eqb unit "day" then
    try! d := timedelta num 0 0 in try! t := datetime_sub (now w) d in Ok (Some t)
  else if String.eqb unit "hour" then
    try! d := timedelta 0 num 0 in try! t := datetime_sub (now w) d in Ok (Some t)
  else if String.eqb unit "week" then
    try! d := timedelta 0 0 num in try! t := datetime_sub (now w) d in Ok (Some t)
  else if String.eqb unit "month" then
    try! d := timedelta (num * 30) 0 0 in try! t := datetime_sub (now w) d in Ok (Some t)
  else if String.eqb unit "year" then
    try! d := timedelta (num * 365) 0 0 in try! t := datetime_sub (now w) d in Ok (Some t)
  else Ok None.

(** The body of the outer [try]. *)
Definition parse_date_body (w : W) (date_str : pyval) : result (option datetime) :=
  try! r := try_formats date_formats date_str in
  match r with
  | Some t => Ok (Some t)
  | None =>
      try! time_ago_match := py_search_time_ago date_str in
      match time_ago_match with
      | Some (group1, group2) =>
          time_ago w (Str.int_of_digits 0 group1) (Str.lower group2)
      | None => Ok None
      end
  end.

Definition parse_date_string (w : W) (date_str : pyval) : result (option datetime) :=
  if negb (truthy date_str) then Ok None
  else except_Exception (parse_date_body w date_str) (fun _ => Ok None).

(** *** [get_job_details_with_ollama] *)

(** The clean-up of markdown fences around the model's answer. *)
Definition strip_fences (content_str : string) : string :=
  if Str.startswith "```json" content_str && Str.endswith "```" content_str
  then Str.strip (Str.slice 7 3 content_str)
  else if Str.startswith "```" content_str && Str.endswith "```" content_str
  then Str.strip (Str.slice 3 3 content_str)
  else content_str.

(** [# Make apply_url absolute] *)
Definition absolutize_apply_url (url : string) (parsed_data : list (string * pyval))
  : result (list (string * pyval)) :=
  let a := dict_get "apply_url" parsed_data in
  if truthy a then
    try! s := py_as_str a in
    if negb (Str.startswith "http://" s || Str.startswith "https://" s)
    then Ok (dict_set "apply_url" (PStr (urljoin url s)) parsed_data)
    else Ok parsed_data
  else Ok parsed_data.

Definition pyval_of_date (d : option datetime) : pyval :=
  match d with
  | Some t => PDatetime t
  | None => PNone
  end.

(** [# Parse date if provided] *)
Definition parse_date_posted (w : W) (parsed_data : list (string * pyval))
  : result (list (string * pyval)) :=
  let d := dict_get "date_posted" parsed_data in
  if truthy d then
    try! t := parse_date_string w d in
    Ok (dict_set "date_posted" (pyval_of_date t) parsed_data)
  else Ok parsed_data.

(** The body of the [try], from the decoded response on. *)
Definition ollama_decode (w : W) (url : string) (response_data : pyval)
  : result (list (string * pyval)) :=
  try! has_message := py_in "message" response_data in
  try! has_content :=
    (if has_message : bool
     then try! message := py_getitem response_data "message" in
          py_in "content" message
     else Ok false) in
  if has_content : bool then
    try! message := py_getitem response_data "message" in
    try! content := py_getitem message "content" in
    try! content_str := py_as_str content in
    try! parsed := json_loads (strip_fences content_str) in
    try! parsed_data := py_as_dict parsed in
    try! parsed_data := absolutize_apply_url url parsed_data in
    try! parsed_data := parse_date_posted w parsed_data in
    Ok parsed_data
  else Ok [].

Definition get_job_details_with_ollama (html_content url : string)
  : M W (list (string * pyval)) :=
  let truncated_html := Str.take 8000 html_content in
  emit (EvOracle url);;
  let* response := call (ollama_chat url truncated_html) in
  let* w := get world in
  match try! response_data := response in ollama_decode w url response_data with
  | Ok parsed_data => ret parsed_data
  | Raise _ => ret []
  end.

(** *** [push_job_to_api] *)

Definition push_job_to_api (job_data : JobData) : M W bool :=
  emit (EvPush job_data);;
  match JobPostingAPI_init (job_title job_data) (job_description job_data)
                           (py_str (apply_url job_data))
                           (company_image job_data) (date_posted job_data) with
  | Raise _ => ret false
  | Ok api_job =>
      emit (EvPost api_job);;
      let* response := call (api_post api_job) in
      match response with
      | Ok _ => ret true
      | Raise _ => ret false
      end
  end.

(** *** The two retrieval tiers *)

Definition _get_selenium_driver : M W bool :=
  let* d := get driver in
  (if d : bool then ret tt
   else
     let* started := call uc_Chrome in
     if started : bool then
       set_driver true;;
       let* patched := call driver_execute_script in
       if patched : bool then ret tt else set_use_selenium false
     else set_use_selenium false);;
  get driver.

Definition _fetch_page_requests (url : string) : M W (option string) :=
  emit (EvStatic url);;
  call (session_get url).

Definition _fetch_page_selenium (url : string) : M W (option string) :=
  emit (EvRendered url);;
  let* d := _get_selenium_driver in
  if negb d then ret None
  else call (driver_page_source url).

Definition olen (o : option string) : nat :=
  match o with
  | Some s => String.length s
  | None => 0
  end.

(** [len(html_content) < 1000 or 'loading' in html_content.lower()] *)
Definition seems_js_heavy (html_content : string) : bool :=
  (String.length html_content <? 1000)%nat
  || Str.contains "loading" (Str.lower html_content).

Definition _fetch_page (url : string) : M W (option string) :=
  emit (EvFetch url);;
  let* html_content := _fetch_page_requests url in
  let* use_sel := get use_selenium in
  let* html_content :=
    (if negb (nonempty html_content) && use_sel
     then _fetch_page_selenium url
     else ret html_content) in
  let* use_sel := get use_selenium in
  match html_content with
  | Some html =>
      if nonempty html_content && use_sel && seems_js_heavy html then
        let* selenium_content := _fetch_page_selenium url in
        if nonempty selenium_content
           && (String.length html <? olen selenium_content)%nat
        then ret selenium_content
        else ret html_content
      else ret html_content
  | None => ret html_content
  end.

(** *** [_extract_links] *)

Definition general_keywords : list string :=
  ["job"; "career"; "hiring"; "work"; "position"].

(** One turn of the loop over the anchors. *)
Definition extract_links_step (visited : gset string) (base_url base_domain : string)
    (links : list string) (href : string) : list string :=
  let full_url := urljoin base_url href in
  let parsed_url := urlparse full_url in
  if String.eqb (netloc parsed_url) base_domain
     && negb (bool_decide (full_url ∈ visited)) then
    if Re.search_job_path (path parsed_url) then links ++ [full_url]
    else if Re.search_pagination (query parsed_url) then links ++ [full_url]
    else if existsb (fun keyword => Str.contains keyword (Str.lower full_url))
                    general_keywords
    then links ++ [full_url]
    else links
  else links.

Definition _extract_links (html_content base_url : string) : M W (list string) :=
  let soup := BeautifulSoup html_content in
  let base_domain := netloc (urlparse base_url) in
  let* visited := get visited_urls in
  let links :=
    fold_left (extract_links_step visited base_url base_domain)
              (find_all_a_href soup) [] in
  ret (firstn 20 links).

(** *** [_parse_job_page] *)

Definition title_selectors : list Selector :=
  [SelAttr "h1" "class" "title"; SelAttr "h1" "class" "job";
   SelAttr "h1" "class" "position";
   SelAttr "h2" "class" "title"; SelAttr "h2" "class" "job";
   SelAttr "h2" "class" "position";
   SelClass "job-title"; SelClass "position-title"; SelClass "title";
   SelTag "h1"; SelTag "h2"].

Definition desc_selectors : list Selector :=
  [SelAttr "" "class" "description"; SelAttr "" "class" "job-description";
   SelAttr "" "class" "content"; SelAttr "" "class" "details";
   SelAttr "" "class" "requirements";
   SelClass "description"; SelClass "job-content"].

Definition location_selectors : list Selector :=
  [SelAttr "" "class" "location"; SelAttr "" "class" "address";
   SelAttr "" "class" "remote";
   SelClass "location"; SelClass "job-location"; SelClass "address"].

Definition apply_selectors : list Selector :=
  [SelAttr "a" "href" "apply"; SelAttr "a" "class" "apply";
   SelAttr "a" "class" "button";
   SelClass "apply-btn"; SelClass "apply-link"; SelClass "job-apply"].

Definition img_selectors : list Selector :=
  [SelAttr "img" "src" "logo"; SelAttr "img" "class" "logo";
   SelAttr "img" "class" "company";
   SelInside "company-logo" "img"; SelInside "logo" "img"].

(** The loops over [title_selectors] and [location_selectors]: the
    text of the first selected element that has some. *)
Fixpoint first_text (soup : Soup) (selectors : list Selector) : pyval :=
  match selectors with
  | [] => PNone
  | selector :: rest =>
      match select_one soup selector with
      | Some elem =>
          if negb (String.eqb (get_text_strip elem) "")
          then PStr (get_text_strip elem)
          else first_text soup rest
      | None => first_text soup rest
      end
  end.

(** The loop over [desc_selectors]. *)
Fixpoint first_description (soup : Soup) (selectors : list Selector) : pyval :=
  match selectors with
  | [] => PNone
  | selector :: rest =>
      match select_one soup selector with
      | Some desc_elem =>
          let desc_text := get_text_lines desc_elem in
          if (100 <? String.length desc_text)%nat
          then PStr (Str.take 2000 desc_text)
          else first_description soup rest
      | None => first_description soup rest
      end
  end.

(** The loops over [apply_selectors] (attribute [href]) and
    [img_selectors] (attribute [src]). *)
Fixpoint first_link (soup : Soup) (url attr : string) (selectors : list Selector)
  : pyval :=
  match selectors with
  | [] => PNone
  | selector :: rest =>
      match select_one soup selector with
      | Some elem =>
          match tag_get attr (tag_attrs elem) with
          | Some v =>
              if negb (String.eqb v "") then PStr (urljoin url v)
              else first_link soup url attr rest
          | None => first_link soup url attr rest
          end
      | None => first_link soup url attr rest
      end
  end.

(** The structural pass, up to and including the default of
    [apply_url]. *)
Definition structural_pass (html_content url : string) : JobData :=
  let soup := BeautifulSoup html_content in
  let apply := first_link soup url "href" apply_selectors in
  mkJobData
    (first_text soup title_selectors)
    (first_description soup desc_selectors)
    (first_text soup location_selectors)
    (if negb (truthy apply) then PStr url else apply)
    (first_link soup url "src" img_selectors)
    PNone.

(** [if not extracted_data[key] and ollama_data.get(key):
       extracted_data[key] = ollama_data[key]] *)
Definition fill (key : string) (extracted : pyval) (ollama_data : list (string * pyval))
  : pyval :=
  if negb (truthy extracted) && truthy (dict_get key ollama_data)
  then dict_get key ollama_data
  else extracted.

(** The loop [for key in extracted_data]. *)
Definition merge (extracted_data : JobData) (ollama_data : list (string * pyval))
  : JobData :=
  mkJobData
    (fill "job_title" (job_title extracted_data) ollama_data)
    (fill "job_description" (job_description extracted_data) ollama_data)
    (fill "job_location" (job_location extracted_data) ollama_data)
    (fill "apply_url" (apply_url extracted_data) ollama_data)
    (fill "company_image" (company_image extracted_data) ollama_data)
    (fill "date_posted" (date_posted extracted_data) ollama_data).

Definition mandatory_missing (extracted_data : JobData) : bool :=
  negb (truthy (job_title extracted_data)
        && truthy (job_description extracted_data)
        && truthy (job_location extracted_data)).

(** The structural pass, then the oracle pass when a mandatory field
    is missing. *)
Definition extraction_passes (html_content url : string) : M W JobData :=
  let extracted_data := structural_pass html_content url in
  if mandatory_missing extracted_data then
    let* ollama_data := get_job_details_with_ollama html_content url in
    ret (merge extracted_data ollama_data)
  else ret extracted_data.

(** [all([job_title, job_description])] *)
Definition complete (job_data : JobData) : bool :=
  truthy (job_title job_data) && truthy (job_description job_data).

Definition _parse_job_page (html_content url : string) : M W (option JobData) :=
  let* extracted_data := extraction_passes html_content url in
  if negb (complete extracted_data)
  then ret None
  else ret (Some extracted_data).

(** *** [crawl] *)

(** The loop over [new_links]. *)
Fixpoint enqueue_links (new_links : list string) : M W unit :=
  match new_links with
  | [] => ret tt
  | link :: rest =>
      let* visited := get visited_urls in
      let* q := get queue in
      (if negb (bool_decide (link ∈ visited)) && (length q <? 50)%nat
       then visited_add link;; queue_append link
       else ret tt);;
      enqueue_links rest
  end.

(** The block under [if job_data:]. *)
Definition deliver (job_data : JobData) (successful_jobs : nat) : M W nat :=
  let* pushed := push_job_to_api job_data in
  if pushed : bool then
    scraped_jobs_append job_data;;
    ret (successful_jobs + 1)
  else ret successful_jobs.

(** The body of the [while] loop, after [current_url] has been popped. *)
Definition crawl_body (current_url : string) (pages_crawled successful_jobs : nat)
  : M W (nat * nat) :=
  let* html_content := _fetch_page current_url in
  let* successful_jobs :=
    (match html_content with
     | Some html =>
         if nonempty html_content then
           let* job_data := _parse_job_page html current_url in
           let* successful_jobs :=
             (match job_data with
              | Some job => deliver job successful_jobs
              | None => ret successful_jobs
              end) in
           let* new_links := _extract_links html current_url in
           enqueue_links new_links;;
           ret successful_jobs
         else ret successful_jobs
     | None => ret successful_jobs
     end) in
  ret (pages_crawled + 1, successful_jobs).

(** [while self.queue and pages_crawled < self.max_pages_per_domain].
    [fuel] bounds the number of turns; [None] when it runs out. *)
Fixpoint crawl_while (fuel : nat) (pages_crawled successful_jobs : nat) (st : State W)
  : option (nat * nat * State W) :=
  match queue st with
  | current_url :: rest =>
      if (pages_crawled <? max_pages_per_domain)%nat then
        match fuel with
        | 0 => None
        | S fuel' =>
            let '((pages_crawled', successful_jobs'), st') :=
              crawl_body current_url pages_crawled successful_jobs
                         (set_queue rest st) in
            crawl_while fuel' pages_crawled' successful_jobs' st'
        end
      else Some (pages_crawled, successful_jobs, st)
  | [] => Some (pages_crawled, successful_jobs, st)
  end.

(** One turn of [for start_url in start_urls], up to the loop. *)
Definition start_domain (start_url : string) (st : State W) : State W :=
  set_visited {[start_url]} (set_queue [start_url] st).

(** One domain pass: the pages crawled, the jobs pushed, the state. *)
Definition crawl_domain (fuel : nat) (start_url : string) (st : State W)
  : option (nat * nat * State W) :=
  crawl_while fuel 0 0 (start_domain start_url st).

(** [crawl], given what [_load_start_urls] returned. *)
Fixpoint crawl (fuel : nat) (start_urls : list string) (st : State W)
  : option (State W) :=
  match start_urls with
  | [] => Some st
  | start_url :: rest =>
      match crawl_domain fuel start_url st with
      | Some (_, _, st') => crawl fuel rest st'
      | None => None
      end
  end.

(** [turns n c c']: from the loop variables and state [c], the loop takes
    [n] turns and reaches [c']; a turn is taken only while the frontier
    is non-empty and the page count below the budget. *)
Inductive turns : nat -> nat * nat * State W -> nat * nat * State W -> Prop :=
| turns_O c : turns 0 c c
| turns_S n pages_crawled successful_jobs st current_url rest c' c'' :
    queue st = current_url :: rest ->
    pages_crawled < max_pages_per_domain ->
    crawl_body current_url pages_crawled successful_jobs (set_queue rest st) = c' ->
    turns n c' c'' ->
    turns (S n) (pages_crawled, successful_jobs, st) c''.

(** The loop condition is false. *)
Definition stopped (c : nat * nat * State W) : Prop :=
  queue (snd c) = [] \/ fst (fst c) >= max_pages_per_domain.

End Scraper.

(** ** Calls of urllib that raise

    [urljoin] and [urlparse] raise [ValueError] on some malformed URLs.
    Inside [get_job_details_with_ollama] the [try] catches it; in
    [_parse_job_page], [_extract_links] and [crawl] nothing does, and
    the exception leaves the crawl.  The functions of this section are
    the ones above with these calls allowed to raise; [urljoin] and
    [urlparse] give the value of a call that returns. *)
Class UrlErrors : Type := {
  urljoin_raises : string -> string -> option exn;
  urlparse_raises : string -> option exn
}.

(** No call of urllib raises. *)
Definition no_url_errors : UrlErrors := {|
  urljoin_raises := fun _ _ => None;
  urlparse_raises := fun _ => None
|}.

Section Raising.
Context {W : Type} `{Collab : Collaborators W} `{Errors : UrlErrors}.

(** [urljoin(base, url)] *)
Definition py_urljoin (base url : string) : result string :=
  match urljoin_raises base url with
  | Some e => Raise e
  | None => Ok (urljoin base url)
  end.

(** [urlparse(url)] *)
Definition py_urlparse (url : string) : result ParseResult :=
  match urlparse_raises url with
  | Some e => Raise e
  | None => Ok (urlparse url)
  end.

(** *** [get_job_details_with_ollama] *)

(** [# Make apply_url absolute] *)
Definition absolutize_apply_url_x (url : string) (parsed_data : list (string * pyval))
  : result (list (string * pyval)) :=
  let a := dict_get "apply_url" parsed_data in
  if truthy a then
    try! s := py_as_str a in
    if negb (Str.startswith "http://" s || Str.startswith "https://" s)
    then try! absolute := py_urljoin url s in
         Ok (dict_set "apply_url" (PStr absolute) parsed_data)
    else Ok parsed_data
  else Ok parsed_data.

(** The body of the [try], from the decoded response on. *)
Definition ollama_decode_x (w : W) (url : string) (response_data : pyval)
  : result (list (string * pyval)) :=
  try! has_message := py_in "message" response_data in
  try! has_content :=
    (if has_message : bool
     then try! message := py_getitem response_data "message" in
          py_in "content" message
     else Ok false) in
  if has_content : bool then
    try! message := py_getitem response_data "message" in
    try! content := py_getitem message "content" in
    try! content_str := py_as_str content in
    try! parsed := json_loads (strip_fences content_str) in
    try! parsed_data := py_as_dict parsed in
    try! parsed_data := absolutize_apply_url_x url parsed_data in
    try! parsed_data := parse_date_posted w parsed_data in
    Ok parsed_data
  else Ok [].

Definition get_job_details_with_ollama_x (html_content url : string)
  : M W (list (string * pyval)) :=
  let truncated_html := Str.take 8000 html_content in
  emit (EvOracle url);;
  let* response := call (ollama_chat url truncated_html) in
  let* w := get world in
  match try! response_data := response in ollama_decode_x w url response_data with
  | Ok parsed_data => ret parsed_data
  | Raise _ => ret []
  end.

(** *** [_parse_job_page] *)

(** The loops over [apply_selectors] and [img_selectors]. *)
Fixpoint first_link_x (soup : Soup) (url attr : string) (selectors : list Selector)
  : result pyval :=
  match selectors with
  | [] => Ok PNone
  | selector :: rest =>
      match select_one soup selector with
      | Some elem =>
          match tag_get attr (tag_attrs elem) with
          | Some v =>
              if negb (String.eqb v "")
              then try! absolute := py_urljoin url v in Ok (PStr absolute)
              else first_link_x soup url attr rest
          | None => first_link_x soup url attr rest
          end
      | None => first_link_x soup url attr rest
      end
  end.

(** The structural pass, in the order of the source: title,
    description, location, apply URL and its default, company image. *)
Definition structural_pass_x (html_content url : string) : result JobData :=
  let soup := BeautifulSoup html_content in
  let title := first_text soup title_selectors in
  let description := first_description soup desc_selectors in
  let location := first_text soup location_selectors in
  try! apply := first_link_x soup url "href" apply_selectors in
  let apply := if negb (truthy apply) then PStr url else apply in
  try! image := first_link_x soup url "src" img_selectors in
  Ok (mkJobData title description location apply image PNone).

Definition extraction_passes_x (html_content url : string) : M W (result JobData) :=
  match structural_pass_x html_content url with
  | Raise e => ret (Raise e)
  | Ok extracted_data =>
      if mandatory_missing extracted_data then
        let* ollama_data := get_job_details_with_ollama_x html_content url in
        ret (Ok (merge extracted_data ollama_data))
      else ret (Ok extracted_data)
  end.

Definition _parse_job_page_x (html_content url : string)
  : M W (result (option JobData)) :=
  let* extracted := extraction_passes_x html_content url in
  match extracted with
  | Raise e => ret (Raise e)
  | Ok extracted_data =>
      if negb (complete extracted_data)
      then ret (Ok None)
      else ret (Ok (Some extracted_data))
  end.

(** *** [_extract_links] *)

(** One turn of the loop over the anchors. *)
Definition extract_links_step_x (visited : gset string) (base_url base_domain : string)
    (links : list string) (href : string) : result (list string) :=
  try! full_url := py_urljoin base_url href in
  try! parsed_url := py_urlparse full_url in
  Ok (if String.eqb (netloc parsed_url) base_domain
         && negb (bool_decide (full_url ∈ visited)) then
        if Re.search_job_path (path parsed_url) then links ++ [full_url]
        else if Re.search_pagination (query parsed_url) then links ++ [full_url]
        else if existsb (fun keyword => Str.contains keyword (Str.lower full_url))
                        general_keywords
        then links ++ [full_url]
        else links
      else links).

Fixpoint extract_links_loop_x (visited : gset string) (base_url base_domain : string)
    (hrefs : list string) (links : list string) : result (list string) :=
  match hrefs with
  | [] => Ok links
  | href :: rest =>
      try! links := extract_links_step_x visited base_url base_domain links href in
      extract_links_loop_x visited base_url base_domain rest links
  end.

Definition _extract_links_x (html_content base_url : string)
  : M W (result (list string)) :=
  let soup := BeautifulSoup html_content in
  match py_urlparse base_url with
  | Raise e => ret (Raise e)
  | Ok parsed_base =>
      let base_domain := netloc parsed_base in
      let* visited := get visited_urls in
      ret (try! links :=
             extract_links_loop_x visited base_url base_domain
                                  (find_all_a_href soup) [] in
           Ok (firstn 20 links))
  end.

(** *** [crawl] *)

(** The body of the [while] loop, after [current_url] has been popped:
    the exception that left it, if any, and the values of
    [pages_crawled] and [successful_jobs] at that point. *)
Definition crawl_body_x (current_url : string) (pages_crawled successful_jobs : nat)
  : M W (option exn * nat * nat) :=
  let* html_content := _fetch_page current_url in
  match html_content with
  | Some html =>
      if nonempty html_content then
        let* job_data := _parse_job_page_x html current_url in
        match job_data with
        | Raise e => ret (Some e, pages_crawled, successful_jobs)
        | Ok job_data =>
            let* successful_jobs :=
              (match job_data with
               | Some job => deliver job successful_jobs
               | None => ret successful_jobs
               end) in
            let* new_links := _extract_links_x html current_url in
            match new_links with
            | Raise e => ret (Some e, pages_crawled, successful_jobs)
            | Ok new_links =>
                enqueue_links new_links;;
                ret (None, pages_crawled + 1, successful_jobs)
            end
        end
      else ret (None, pages_crawled + 1, successful_jobs)
  | None => ret (None, pages_crawled + 1, successful_jobs)
  end.

(** [while self.queue and pages_crawled < self.max_pages_per_domain]:
    how the loop was left, the two counters and the state.  [fuel]
    bounds the number of turns; [None] when it runs out. *)
Fixpoint crawl_while_x (fuel : nat) (pages_crawled successful_jobs : nat) (st : State W)
  : option (option exn * nat * nat * State W) :=
  match queue st with
  | current_url :: rest =>
      if (pages_crawled <? max_pages_per_domain)%nat then
        match fuel with
        | 0 => None
        | S fuel' =>
            let '((raised, pages_crawled', successful_jobs'), st') :=
              crawl_body_x current_url pages_crawled successful_jobs
                           (set_queue rest st) in
            match raised with
            | Some e => Some (Some e, pages_crawled', successful_jobs', st')
            | None => crawl_while_x fuel' pages_crawled' successful_jobs' st'
            end
        end
      else Some (None, pages_crawled, successful_jobs, st)
  | [] => Some (None, pages_crawled, successful_jobs, st)
  end.

(** One domain pass; [urlparse(start_url)] comes first. *)
Definition crawl_domain_x (fuel : nat) (start_url : string) (st : State W)
  : option (option exn * nat * nat * State W) :=
  match py_urlparse start_url with
  | Raise e => Some (Some e, 0, 0, st)
  | Ok _ => crawl_while_x fuel 0 0 (start_domain start_url st)
  end.

(** [crawl], given what [_load_start_urls] returned: an exception
    leaves the loop over the seeds. *)
Fixpoint crawl_x (fuel : nat) (start_urls : list string) (st : State W)
  : option (option exn * State W) :=
  match start_urls with
  | [] => Some (None, st)
  | start_url :: rest =>
      match crawl_domain_x fuel start_url st with
      | Some (Some e, _, _, st') => Some (Some e, st')
      | Some (None, _, _, st') => crawl_x fuel rest st'
      | None => None
      end
  end.

End Raising.

(** ** What a run is observed to do

    The definitions the properties below are stated with. *)

(** The pages fetched, the tiers tried, the records pushed and the
    payloads posted, read off a log; latest first. *)
Fixpoint fetched (l : list Event) : list string :=
  match l with
  | [] => []
  | EvFetch url :: l' => url :: fetched l'
  | _ :: l' => fetched l'
  end.

Fixpoint statics (l : list Event) : list string :=
  match l with
  | [] => []
  | EvStatic url :: l' => url :: statics l'
  | _ :: l' => statics l'
  end.

Fixpoint rendered (l : list Event) : list string :=
  match l with
  | [] => []
  | EvRendered url :: l' => url :: rendered l'
  | _ :: l' => rendered l'
  end.

Fixpoint pushed (l : list Event) : list JobData :=
  match l with
  | [] => []
  | EvPush job :: l' => job :: pushed l'
  | _ :: l' => pushed l'
  end.

Fixpoint posted (l : list Event) : list JobPostingAPI :=
  match l with
  | [] => []
  | EvPost payload :: l' => payload :: posted l'
  | _ :: l' => posted l'
  end.

(** The length of a unit of "<N> <unit> ago", in microseconds: a month
    counts 30 days and a year 365. *)
Definition unit_microseconds (unit : string) : Z :=
  if String.eqb unit "day" then us_per_day
  else if String.eqb unit "hour" then us_per_hour
  else if String.eqb unit "week" then (7 * us_per_day)%Z
  else if String.eqb unit "month" then (30 * us_per_day)%Z
  else if String.eqb unit "year" then (365 * us_per_day)%Z
  else 0%Z.

(** The element that [selector] finds carries the non-empty attribute
    [attr] with value [v]. *)
Definition links_to (soup : Soup) (attr : string) (selector : Selector) (v : string)
  : Prop :=
  exists elem,
    select_one soup selector = Some elem
    /\ tag_get attr (tag_attrs elem) = Some v
    /\ v <> "".

(** [selector] is the first of [selectors] that finds such an element. *)
Definition first_linking (soup : Soup) (attr : string) (selectors : list Selector)
    (selector : Selector) (v : string) : Prop :=
  exists tried later,
    selectors = tried ++ selector :: later
    /\ (forall t v', In t tried -> ~ links_to soup attr t v')
    /\ links_to soup attr selector v.

Section Observations.
Context {W : Type} `{Collab : Collaborators W}.

(** The rules of the link classifier, as the specification lists them:
    same host, not visited, then one of the three patterns. *)
Definition link_accepted (visited : gset string) (base_url full_url : string) : bool :=
  let parsed_url := urlparse full_url in
  String.eqb (netloc parsed_url) (netloc (urlparse base_url))
  && negb (bool_decide (full_url ∈ visited))
  && (Re.search_job_path (path parsed_url)
      || Re.search_pagination (query parsed_url)
      || existsb (fun keyword => Str.contains keyword (Str.lower full_url))
                 general_keywords).

(** The crawl state that only the crawl loop itself writes. *)
Definition same_crawl_state (st st' : State W) : Prop :=
  scraped_jobs st' = scraped_jobs st
  /\ visited_urls st' = visited_urls st
  /\ queue st' = queue st.

(** What the loop over [new_links] adds to the frontier: links that
    were not visited, each once. *)
Definition enqueued (st st' : State W) (added : list string) : Prop :=
  queue st' = queue st ++ added
  /\ visited_urls st' = list_to_set added ∪ visited_urls st
  /\ NoDup added
  /\ (forall u, u ∈ added -> u ∉ visited_urls st).

(** One turn of the crawl loop. *)
Definition turn (url : string) (pc sj : nat) (st : State W)
    (pc' sj' : nat) (st' : State W) : Prop :=
  pc' = pc + 1
  /\ fetched (log st') = url :: fetched (log st)
  /\ (exists added, enqueued st st' added)
  /\ (exists jobs, pushed (log st') = jobs ++ pushed (log st)
                   /\ Forall (fun job => complete job = true) jobs
                   /\ exists kept, scraped_jobs st' = scraped_jobs st ++ kept
                                   /\ kept ⊆ jobs).

(** The invariant of one domain pass, [F0] being the pages fetched
    before the pass: the pages fetched in the pass are as many as the
    counter says; no URL occurs twice among these and the frontier; all
    of them are in the visited set. *)
Definition pass_inv (F0 : list string) (c : nat * nat * State W) : Prop :=
  let '(pc, _, st) := c in
  exists us,
    fetched (log st) = us ++ F0
    /\ length us = pc
    /\ NoDup (us ++ queue st)
    /\ (forall u, u ∈ us ++ queue st -> u ∈ visited_urls st).

(** Every record pushed or accumulated so far is complete. *)
Definition records_inv (st : State W) : Prop :=
  Forall (fun job => complete job = true) (pushed (log st))
  /\ Forall (fun job => complete job = true) (scraped_jobs st).

(** The rendered tier is off, the driver is [d], and the rendered tier
    has been tried on the pages [R] so far. *)
Definition browser_off (d : bool) (R : list string) (st : State W) : Prop :=
  use_selenium st = false /\ driver st = d /\ rendered (log st) = R.

End Observations.

(** ** A concrete set of collaborators

    A scripted outside world, to run the scraper on explicit pages: the
    sites, the parsed pages, the model's answers and the endpoint are
    given by tables.  URL resolution covers absolute references,
    references that start at the root or in the directory of the base,
    and references that are a query. *)

Module Sample.

(** The part of [s] before the first occurrence of [sep], and the part
    after it. *)
Fixpoint split_at (sep s : string) : option (string * string) :=
  if String.prefix sep s then Some (EmptyString, Str.drop (String.length sep) s)
  else match s with
       | EmptyString => None
       | String c s' =>
           match split_at sep s' with
           | Some (a, b) => Some (String c a, b)
           | None => None
           end
       end.

(** The part of [s] up to and including the last [/]. *)
Fixpoint dirname (s : string) : string :=
  match s with
  | EmptyString => EmptyString
  | String c s' =>
      if Str.contains "/" s' then String c (dirname s')
      else if Ascii.eqb c "/"%char then String c EmptyString
      else EmptyString
  end.

Definition scheme_and_rest (url : string) : string * string :=
  match split_at "://" url with
  | Some (scheme, rest) => (scheme, rest)
  | None => (EmptyString, url)
  end.

Definition sample_urlparse (url : string) : ParseResult :=
  let '(scheme, rest) := scheme_and_rest url in
  let rest := match split_at "#" rest with Some (a, _) => a | None => rest end in
  let '(hier, q) :=
    match split_at "?" rest with Some (a, b) => (a, b) | None => (rest, EmptyString) end in
  if String.eqb scheme "" then mkParseResult EmptyString hier q
  else match split_at "/" hier with
       | Some (host, p) => mkParseResult host (String "/"%char p) q
       | None => mkParseResult hier EmptyString q
       end.

Definition sample_urljoin (base ref : string) : string :=
  if String.eqb ref "" then base
  else if Str.startswith "http://" ref || Str.startswith "https://" ref then ref
  else
    let '(scheme, rest) := scheme_and_rest base in
    let origin := (scheme ++ "://" ++ netloc (sample_urlparse base))%string in
    if Str.startswith "/" ref then (origin ++ ref)%string
    else if Str.startswith "?" ref
    then (origin ++ path (sample_urlparse base) ++ ref)%string
    else
      let dir := dirname (path (sample_urlparse base)) in
      (origin ++ (if String.eqb dir "" then "/" else dir) ++ ref)%string.

(** What the outside answers. *)
Record Script : Type := mkScript {
  static_site : string -> option string;
  rendered_site : string -> option string;
  chrome_starts : bool;
  script_runs : bool;
  soup_of : string -> Soup;
  chat_reply : string -> string -> result pyval;
  decoded : string -> result pyval;
  known_dates : string -> string -> result datetime;
  api_up : bool
}.

Definition sample_repr (v : pyval) : string :=
  match v with
  | PNone => "None"
  | PBool true => "True"
  | PBool false => "False"
  | _ => "<object>"
  end.

(** The fields are validated as pydantic does for values of the right
    type, and refused otherwise. *)
Definition sample_JobPostingAPI_init (title desc : pyval) (apply : string)
    (image date : pyval) : result JobPostingAPI :=
  match title, desc with
  | PStr t, PStr d =>
      match image, date with
      | PNone, PNone => Ok (mkJobPostingAPI t d apply None None)
      | PStr i, PNone => Ok (mkJobPostingAPI t d apply (Some i) None)
      | PNone, PDatetime dt => Ok (mkJobPostingAPI t d apply None (Some dt))
      | PStr i, PDatetime dt => Ok (mkJobPostingAPI t d apply (Some i) (Some dt))
      | _, _ => Raise ValidationError
      end
  | _, _ => Raise ValidationError
  end.

(** The world is the clock, which stands still. *)
Definition collaborators (sc : Script) : Collaborators Z := {|
  urljoin := sample_urljoin;
  urlparse := sample_urlparse;
  BeautifulSoup := soup_of sc;
  strptime := known_dates sc;
  now := fun w => w;
  json_loads := decoded sc;
  repr := sample_repr;
  JobPostingAPI_init := sample_JobPostingAPI_init;
  session_get := fun url w => (static_site sc url, w);
  uc_Chrome := fun w => (chrome_starts sc, w);
  driver_execute_script := fun w => (script_runs sc, w);
  driver_page_source := fun url w => (rendered_site sc url, w);
  ollama_chat := fun url html w => (chat_reply sc url html, w);
  api_post := fun _ w => (if api_up sc then Ok tt else Raise RequestException, w)
|}.

Definition no_tag : Selector -> option Tag := fun _ => None.

Definition empty_soup : Soup := mkSoup no_tag [].

(** A quiet script: every site is down, the model does not answer. *)
Definition quiet : Script :=
  mkScript (fun _ => None) (fun _ => None) true true (fun _ => empty_soup)
           (fun _ _ => Raise RequestException) (fun _ => Raise ValueError)
           (fun _ _ => Raise ValueError) true.

(** *** Scripted pages *)

Definition selector_eqb (a b : Selector) : bool :=
  match a, b with
  | SelTag t, SelTag t' => String.eqb t t'
  | SelClass c, SelClass c' => String.eqb c c'
  | SelAttr t a v, SelAttr t' a' v' =>
      String.eqb t t' && String.eqb a a' && String.eqb v v'
  | SelInside c t, SelInside c' t' => String.eqb c c' && String.eqb t t'
  | _, _ => false
  end.

(** A parsed page given by the element each selector finds. *)
Fixpoint select_in (table : list (Selector * Tag)) (sel : Selector) : option Tag :=
  match table with
  | [] => None
  | (s, t) :: rest => if selector_eqb s sel then Some t else select_in rest sel
  end.

Definition text_tag (text : string) : Tag := mkTag text text [].

Fixpoint repeat_char (n : nat) (c : ascii) : string :=
  match n with
  | 0 => EmptyString
  | S n' => String c (repeat_char n' c)
  end.

Definition job_url : string := "https://example.com/jobs/9".

Definition duties : string :=
  "Design, build and run the services behind our hiring platform; review code; mentor two junior engineers; be on call one week in six.".

(** The model's answer: a chat response whose content is [content]. *)
Definition chat_response (content : string) : pyval :=
  PDict [("message", PDict [("role", PStr "assistant"); ("content", PStr content)])].

(** A posting with a heading and a description block, without location
    and without apply link; the model is asked and guesses a relative
    apply URL. *)
Definition posting_soup : Soup :=
  mkSoup (select_in [(SelTag "h1", text_tag "Platform Engineer");
                     (SelAttr "" "class" "description", text_tag duties)])
         [].

Definition apply_guess : pyval := PDict [("apply_url", PStr "/apply/42")].

Definition posting_script : Script :=
  mkScript (fun _ => Some "<posting>") (fun _ => None) true true
           (fun _ => posting_soup)
           (fun _ _ => Ok (chat_response "guess"))
           (fun _ => Ok apply_guess)
           (fun _ _ => Raise ValueError) true.

(** A posting with a heading only; the model supplies a description of
    2001 characters. *)
Definition heading_soup : Soup :=
  mkSoup (select_in [(SelTag "h1", text_tag "Platform Engineer")]) [].

Definition long_description : string := repeat_char 2001 "x"%char.

Definition description_guess : pyval :=
  PDict [("job_description", PStr long_description)].

Definition heading_script : Script :=
  mkScript (fun _ => Some "<heading>") (fun _ => None) true true
           (fun _ => heading_soup)
           (fun _ _ => Ok (chat_response "guess"))
           (fun _ => Ok description_guess)
           (fun _ _ => Raise ValueError) true.

(** A site whose static tier is down and whose rendered page is a short
    placeholder. *)
Definition spinner_script : Script :=
  mkScript (fun _ => None) (fun _ => Some "<html>spinner</html>") true true
           (fun _ => empty_soup)
           (fun _ _ => Raise RequestException) (fun _ => Raise ValueError)
           (fun _ _ => Raise ValueError) true.

(** A complete posting, served statically, while the ingestion endpoint
    is down. *)
Definition full_soup : Soup :=
  mkSoup (select_in [(SelTag "h1", text_tag "Platform Engineer");
                     (SelAttr "" "class" "description", text_tag duties);
                     (SelAttr "" "class" "location", text_tag "Remote")])
         [].

Definition full_job : JobData :=
  mkJobData (PStr "Platform Engineer") (PStr duties) (PStr "Remote")
            (PStr job_url) PNone PNone.

Definition endpoint_down_script : Script :=
  mkScript (fun _ => Some "<posting>") (fun _ => None) true true
           (fun _ => full_soup)
           (fun _ _ => Raise RequestException) (fun _ => Raise ValueError)
           (fun _ _ => Raise ValueError) false.

(** A listing page with six anchors: a posting, a posting on another
    host, a page about the company, the next page of the listing, the
    listing itself, and a page whose URL only mentions hiring. *)
Definition listing_url : string := "https://example.com/careers".

Definition listing_soup : Soup :=
  mkSoup no_tag
         ["/jobs/1"; "https://other.org/jobs/2"; "/about"; "?page=2";
          "https://example.com/careers"; "/team/we-are-hiring"].

Definition listing_script : Script :=
  mkScript (fun _ => Some "<listing>") (fun _ => None) true true
           (fun _ => listing_soup)
           (fun _ _ => Raise RequestException) (fun _ => Raise ValueError)
           (fun _ _ => Raise ValueError) true.

(** A calendar that knows one date, 2024-01-15, in ISO form. *)
Definition jan_15_2024 : datetime := (738899 * us_per_day)%Z.

Definition dated_script : Script :=
  mkScript (fun _ => None) (fun _ => None) true true (fun _ => empty_soup)
           (fun _ _ => Raise RequestException) (fun _ => Raise ValueError)
           (fun s fmt => if String.eqb s "2024-01-15" && String.eqb fmt "%Y-%m-%d"
                         then Ok jan_15_2024 else Raise ValueError)
           true.

(** A site without end: the page at a URL consists of that URL, and
    links to the same URL followed by [/jobs]. *)
Definition endless_script : Script :=
  mkScript (fun url => Some url) (fun _ => None) true true
           (fun html => mkSoup no_tag [(html ++ "/jobs")%string])
           (fun _ _ => Raise RequestException) (fun _ => Raise ValueError)
           (fun _ _ => Raise ValueError) true.

End Sample.

(** ** More scripted pages *)

Module Fixtures.

(** A static page of 1000 characters. *)
Definition substantial_page : string := Sample.repeat_char 1000 "x"%char.

Definition substantial_script : Sample.Script :=
  Sample.mkScript (fun _ => Some substantial_page) (fun _ => None) true true
                  (fun _ => Sample.empty_soup)
                  (fun _ _ => Raise RequestException) (fun _ => Raise ValueError)
                  (fun _ _ => Raise ValueError) true.

(** A static placeholder that the rendered page supersedes. *)
Definition placeholder_script : Sample.Script :=
  Sample.mkScript (fun _ => Some "<html>loading</html>")
                  (fun _ => Some "<html><h1>Platform Engineer</h1></html>") true true
                  (fun _ => Sample.empty_soup)
                  (fun _ _ => Raise RequestException) (fun _ => Raise ValueError)
                  (fun _ _ => Raise ValueError) true.

(** A browser that does not start. *)
Definition no_browser_script : Sample.Script :=
  Sample.mkScript (fun _ => None) (fun _ => Some "<html>never seen</html>") false true
                  (fun _ => Sample.empty_soup)
                  (fun _ _ => Raise RequestException) (fun _ => Raise ValueError)
                  (fun _ _ => Raise ValueError) true.

(** The model guesses a title and a date in ISO form. *)
Definition dated_guess : list (string * pyval) :=
  [("job_title", PStr "Platform Engineer"); ("date_posted", PStr "2024-01-15")].

Definition dated_guess_script : Sample.Script :=
  Sample.mkScript (fun _ => Some "<empty>") (fun _ => None) true true
                  (fun _ => Sample.empty_soup)
                  (fun _ _ => Ok (Sample.chat_response "guess"))
                  (fun _ => Ok (PDict dated_guess))
                  (fun s fmt => if String.eqb s "2024-01-15" && String.eqb fmt "%Y-%m-%d"
                                then Ok Sample.jan_15_2024 else Raise ValueError)
                  true.

(** The model guesses a title and, for the apply URL, a number. *)
Definition numbered_guess : list (string * pyval) :=
  [("job_title", PStr "Platform Engineer"); ("apply_url", PInt 5)].

Definition numbered_guess_script : Sample.Script :=
  Sample.mkScript (fun _ => Some "<empty>") (fun _ => None) true true
                  (fun _ => Sample.empty_soup)
                  (fun _ _ => Ok (Sample.chat_response "guess"))
                  (fun _ => Ok (PDict numbered_guess))
                  (fun _ _ => Raise ValueError) true.

(** A calendar on which 01/02/2024 parses month first and day first. *)
Definition jan_2_2024 : datetime := (738886 * us_per_day)%Z.
Definition feb_1_2024 : datetime := (738916 * us_per_day)%Z.

Definition ambiguous_script : Sample.Script :=
  Sample.mkScript (fun _ => None) (fun _ => None) true true
                  (fun _ => Sample.empty_soup)
                  (fun _ _ => Raise RequestException) (fun _ => Raise ValueError)
                  (fun s fmt =>
                     if String.eqb s "01/02/2024" && String.eqb fmt "%m/%d/%Y"
                     then Ok jan_2_2024
                     else if String.eqb s "01/02/2024" && String.eqb fmt "%d/%m/%Y"
                     then Ok feb_1_2024
                     else Raise ValueError)
                  true.

(** A record whose title is a number: validation refuses it. *)
Definition numbered_job : JobData :=
  mkJobData (PInt 7) (PStr Sample.duties) PNone (PStr Sample.job_url) PNone PNone.

(** A complete posting with two apply links: one found by the second
    apply selector, one by the fourth. *)
Definition linked_soup : Soup :=
  mkSoup (Sample.select_in
            [(SelTag "h1", Sample.text_tag "Platform Engineer");
             (SelAttr "" "class" "description", Sample.text_tag Sample.duties);
             (SelAttr "" "class" "location", Sample.text_tag "Remote");
             (SelAttr "a" "class" "apply",
              mkTag "Apply" "Apply" [("class", "apply-now"); ("href", "/apply/42")]);
             (SelClass "apply-btn",
              mkTag "Apply here" "Apply here" [("href", "/apply/43")])])
         [].

Definition linked_script : Sample.Script :=
  Sample.mkScript (fun _ => Some "<linked>") (fun _ => None) true true
                  (fun _ => linked_soup)
                  (fun _ _ => Raise RequestException) (fun _ => Raise ValueError)
                  (fun _ _ => Raise ValueError) true.

End Fixtures.

(** ** A site with a malformed link *)

Module Malformed.

(** A bracket that opens and does not close, which urllib reads as a
    broken IPv6 address. *)
Definition unbalanced (url : string) : bool :=
  Str.contains "[" url && negb (Str.contains "]" url).

(** The sample calls of urllib raise on such a URL. *)
Definition url_errors : UrlErrors := {|
  urljoin_raises := fun base url =>
    if unbalanced base || unbalanced url then Some ValueError else None;
  urlparse_raises := fun url =>
    if unbalanced url then Some ValueError else None
|}.

Definition board_url : string := "https://example.com/jobs".
Definition first_url : string := "https://example.com/jobs/1".
Definition second_url : string := "https://example.com/jobs/2".

(** The board links to two postings; the first posting carries a good
    link and a malformed one; the other pages have no anchors. *)
Definition site (url : string) : option string :=
  if String.eqb url board_url then Some "<board>"
  else if String.eqb url first_url then Some "<broken>"
  else Some "<plain>".

Definition soup_of (html : string) : Soup :=
  if String.eqb html "<board>" then mkSoup Sample.no_tag ["/jobs/1"; "/jobs/2"]
  else if String.eqb html "<broken>" then mkSoup Sample.no_tag ["/jobs/3"; "http://[bad"]
  else Sample.empty_soup.

Definition script : Sample.Script :=
  Sample.mkScript site (fun _ => None) true true soup_of
                  (fun _ _ => Raise RequestException) (fun _ => Raise ValueError)
                  (fun _ _ => Raise ValueError) true.

(** The model guesses a title and a relative apply URL with a broken
    bracket. *)
Definition bracket_guess : list (string * pyval) :=
  [("job_title", PStr "Platform Engineer"); ("apply_url", PStr "//[bad/apply")].

Definition bracket_guess_script : Sample.Script :=
  Sample.mkScript (fun _ => Some "<empty>") (fun _ => None) true true
                  (fun _ => Sample.empty_soup)
                  (fun _ _ => Ok (Sample.chat_response "guess"))
                  (fun _ => Ok (PDict bracket_guess))
                  (fun _ _ => Raise ValueError) true.

(** The pass over the board, from a fresh scraper. *)
Definition pass : option (option exn * nat * nat * State Z) :=
  @crawl_domain_x Z (Sample.collaborators script) url_errors
                  max_pages_per_domain board_url (init true 0%Z).

(** The crawl of the board and of a second seed. *)
Definition other_seed : string := "https://example.org/careers".

Definition run : option (option exn * State Z) :=
  @crawl_x Z (Sample.collaborators script) url_errors
           max_pages_per_domain [board_url; other_seed] (init true 0%Z).

End Malformed.

(** * Properties *)

(** Symbolic execution of a monadic term: unfold the primitives, split
    on every test and on every answer of the outside. *)
Ltac exec_prims :=
  unfold bind, ret, get, call, emit, set_use_selenium, set_driver,
    scraped_jobs_append, visited_add, queue_append in *;
  cbn [fst snd use_selenium driver scraped_jobs visited_urls queue world log] in *.

Ltac exec :=
  exec_prims;
  repeat (case_match; simplify_eq;
          cbn [fst snd use_selenium driver scraped_jobs visited_urls queue world log
               fetched statics rendered pushed posted] in *).

(** ** Strings and sample URLs *)

Lemma str_length_take n s : (String.length (Str.take n s) <= n)%nat.
Proof.
  revert s; induction n as [|n IH]; intros [|c s]; simpl; try lia.
  specialize (IH s); lia.
Qed.

Lemma str_take_all n s : (String.length s <= n)%nat -> Str.take n s = s.
Proof.
  revert s; induction n as [|n IH]; intros [|c s]; simpl; intros H;
    try reflexivity; try lia.
  rewrite IH; [reflexivity | lia].
Qed.

Example slice_fence : Str.slice 7 3 "```json{}```" = "{}".
Proof. reflexivity. Qed.

Example strip_ex : Str.strip "  a b
 " = "a b".
Proof. reflexivity. Qed.

Example search_time_ago_ex :
  Re.search_time_ago "Posted 3 Days ago" = Some ("3", "Day").
Proof. reflexivity. Qed.

Example search_time_ago_none : Re.search_time_ago "not a date" = None.
Proof. reflexivity. Qed.

Example search_pagination_ex :
  Re.search_pagination "q=dev&Page=12" = true /\ Re.search_pagination "page=x" = false.
Proof. split; reflexivity. Qed.

Example sample_urljoin_root :
  Sample.sample_urljoin "https://example.com/jobs/9" "/apply/42"
  = "https://example.com/apply/42".
Proof. reflexivity. Qed.

Example sample_urljoin_relative :
  Sample.sample_urljoin "https://example.com/jobs/9" "10"
  = "https://example.com/jobs/10".
Proof. reflexivity. Qed.

Example sample_urlparse_ex :
  Sample.sample_urlparse "https://example.com/jobs/list?page=2#top"
  = mkParseResult "example.com" "/jobs/list" "page=2".
Proof. reflexivity. Qed.

(** ** Properties of the normalizer and of the link classifier *)

Section Pure.
Context {W : Type} `{Collab : Collaborators W}.

(** When no format parses, the loop over the formats runs out or lets
    an exception other than [ValueError] through. *)
Lemma try_formats_all_fail (fmts : list string) (s : string) :
  (forall fmt, In fmt fmts -> exists e, strptime s fmt = Raise e) ->
  try_formats fmts (PStr s) = Ok None
  \/ exists e, try_formats fmts (PStr s) = Raise e.
Proof.
  induction fmts as [|fmt rest IH]; intros Hall; cbn [try_formats py_strptime];
    [left; reflexivity|].
  destruct (Hall fmt) as [e He]; [left; reflexivity|].
  rewrite He.
  destruct e; try (right; eexists; reflexivity).
  apply IH. intros f Hf. apply Hall. right; exact Hf.
Qed.

(** Whatever [strptime] does, and whatever value it is handed,
    [parse_date_string] returns. *)
Lemma parse_date_string_never_raises (w : W) (date_str : pyval) :
  exists r, parse_date_string w date_str = Ok r.
Proof.
  unfold parse_date_string.
  destruct (negb (truthy date_str)); [eexists; reflexivity|].
  destruct (parse_date_body w date_str); simpl; eexists; reflexivity.
Qed.

(** C8: a string that none of the five formats parses and in which the
    pattern "<N> <unit> ago" is not found makes [parse_date_string]
    return [None]; it returns, it does not raise. *)
Theorem parse_date_string_unparseable (w : W) (s : string) :
  (forall fmt, In fmt date_formats -> exists e, strptime s fmt = Raise e) ->
  Re.search_time_ago s = None ->
  parse_date_string w (PStr s) = Ok None.
Proof.
  intros Hfmt Hre. unfold parse_date_string.
  destruct (negb (truthy (PStr s))); [reflexivity|].
  unfold parse_date_body.
  destruct (try_formats_all_fail _ _ Hfmt) as [Hnone|[e He]].
  - rewrite Hnone. cbn [rbind py_search_time_ago].
    rewrite Hre. reflexivity.
  - rewrite He. reflexivity.
Qed.

Lemma extract_links_step_spec visited base_url links href :
  extract_links_step visited base_url (netloc (urlparse base_url)) links href
  = links ++ List.filter (link_accepted visited base_url) [urljoin base_url href].
Proof.
  unfold extract_links_step, link_accepted. cbn zeta. cbn [List.filter].
  destruct (String.eqb _ _), (bool_decide _), (Re.search_job_path _),
    (Re.search_pagination _), (existsb _ general_keywords);
    cbn [andb orb negb List.filter]; rewrite ?app_nil_r; reflexivity.
Qed.

Lemma extract_links_fold visited base_url hrefs links :
  fold_left (extract_links_step visited base_url (netloc (urlparse base_url)))
            hrefs links
  = links ++ List.filter (link_accepted visited base_url)
                         (map (urljoin base_url) hrefs).
Proof.
  revert links; induction hrefs as [|href rest IH]; intros links.
  - symmetry; apply app_nil_r.
  - cbn [fold_left map]. rewrite IH, extract_links_step_spec.
    rewrite <- app_assoc. f_equal.
    cbn [List.filter]. destruct (link_accepted _ _ _); reflexivity.
Qed.

(** C7: the links returned for a page are the first 20 accepted links
    of the page in document order; each has the host of the base URL;
    the state is left as it was. *)
Theorem extract_links_same_host_capped (html_content base_url : string) (st : State W) :
  let links := fst (_extract_links html_content base_url st) in
  links = firstn 20
            (List.filter (link_accepted (visited_urls st) base_url)
                         (map (urljoin base_url)
                              (find_all_a_href (BeautifulSoup html_content))))
  /\ Forall (fun u => netloc (urlparse u) = netloc (urlparse base_url)) links
  /\ length links <= 20
  /\ snd (_extract_links html_content base_url st) = st.
Proof.
  unfold _extract_links, bind, get, ret; cbn [fst snd].
  rewrite extract_links_fold; cbn [app].
  split; [reflexivity|].
  split; [|split; [rewrite length_take; lia | reflexivity]].
  apply Forall_take. apply List.Forall_forall. intros u Hu.
  apply List.filter_In in Hu. destruct Hu as [_ Hacc].
  unfold link_accepted in Hacc.
  apply andb_true_iff in Hacc. destruct Hacc as [Hacc _].
  apply andb_true_iff in Hacc. destruct Hacc as [Hhost _].
  apply String.eqb_eq in Hhost. exact Hhost.
Qed.

End Pure.

(** C8 at the string "not a date", on the sample collaborators. *)
Lemma parse_date_string_unparseable_witness :
  @parse_date_string Z (Sample.collaborators Sample.quiet) 0%Z (PStr "not a date")
  = Ok None.
Proof.
  apply (@parse_date_string_unparseable Z (Sample.collaborators Sample.quiet)).
  - intros fmt _. exists ValueError. reflexivity.
  - reflexivity.
Defined.

(** ** What each operation does to the state *)

Section Effects.
Context {W : Type} `{Collab : Collaborators W}.

(** [_extract_links] reads the visited set and writes nothing. *)
Lemma extract_links_reads_only html base_url (st : State W) :
  snd (_extract_links html base_url st) = st.
Proof. reflexivity. Qed.

Lemma fetch_page_selenium_effect url (st : State W) :
  let st' := snd (_fetch_page_selenium url st) in
  same_crawl_state st st'
  /\ fetched (log st') = fetched (log st)
  /\ statics (log st') = statics (log st)
  /\ rendered (log st') = url :: rendered (log st)
  /\ pushed (log st') = pushed (log st)
  /\ posted (log st') = posted (log st).
Proof.
  unfold same_crawl_state, _fetch_page_selenium, _get_selenium_driver.
  exec; repeat split; reflexivity.
Qed.

Lemma fetch_page_effect url (st : State W) :
  let st' := snd (_fetch_page url st) in
  same_crawl_state st st'
  /\ fetched (log st') = url :: fetched (log st)
  /\ statics (log st') = url :: statics (log st)
  /\ length (rendered (log st')) <= 2 + length (rendered (log st))
  /\ pushed (log st') = pushed (log st)
  /\ posted (log st') = posted (log st).
Proof.
  unfold same_crawl_state, _fetch_page, _fetch_page_requests,
    _fetch_page_selenium, _get_selenium_driver.
  exec; repeat split; try reflexivity; cbn [length]; lia.
Qed.

Lemma ollama_effect html url (st : State W) :
  let st' := snd (get_job_details_with_ollama html url st) in
  same_crawl_state st st'
  /\ fetched (log st') = fetched (log st)
  /\ pushed (log st') = pushed (log st)
  /\ posted (log st') = posted (log st).
Proof.
  unfold same_crawl_state, get_job_details_with_ollama.
  exec; repeat split; reflexivity.
Qed.

Lemma extraction_passes_effect html url (st : State W) :
  let st' := snd (extraction_passes html url st) in
  same_crawl_state st st'
  /\ fetched (log st') = fetched (log st)
  /\ pushed (log st') = pushed (log st)
  /\ posted (log st') = posted (log st).
Proof.
  unfold extraction_passes.
  destruct (mandatory_missing _).
  - unfold bind.
    pose proof (ollama_effect html url st) as H.
    destruct (get_job_details_with_ollama html url st) as [d st1].
    exact H.
  - unfold same_crawl_state, ret; cbn [snd]. repeat split; reflexivity.
Qed.

Lemma parse_job_page_effect html url (st : State W) :
  let st' := snd (_parse_job_page html url st) in
  same_crawl_state st st'
  /\ fetched (log st') = fetched (log st)
  /\ pushed (log st') = pushed (log st)
  /\ posted (log st') = posted (log st).
Proof.
  unfold _parse_job_page, bind.
  pose proof (extraction_passes_effect html url st) as H.
  destruct (extraction_passes html url st) as [d st1].
  destruct (negb _); exact H.
Qed.

(** A record that [_parse_job_page] returns has a title and a
    description. *)
Lemma parse_job_page_complete html url st job :
  fst (_parse_job_page html url st) = Some job -> complete job = true.
Proof.
  unfold _parse_job_page, bind.
  destruct (extraction_passes html url st) as [d st1].
  destruct (complete d) eqn:Hc; cbn [negb ret fst]; intros H.
  - injection H as <-. exact Hc.
  - discriminate H.
Qed.

Lemma push_job_effect job (st : State W) :
  let st' := snd (push_job_to_api job st) in
  same_crawl_state st st'
  /\ fetched (log st') = fetched (log st)
  /\ pushed (log st') = job :: pushed (log st)
  /\ length (posted (log st')) <= 1 + length (posted (log st)).
Proof.
  unfold same_crawl_state, push_job_to_api.
  exec; repeat split; try reflexivity; cbn [length]; lia.
Qed.

Lemma deliver_effect job n (st : State W) :
  let '(n', st') := deliver job n st in
  visited_urls st' = visited_urls st
  /\ queue st' = queue st
  /\ fetched (log st') = fetched (log st)
  /\ pushed (log st') = job :: pushed (log st)
  /\ (scraped_jobs st' = scraped_jobs st /\ n' = n
      \/ scraped_jobs st' = scraped_jobs st ++ [job] /\ n' = n + 1).
Proof.
  unfold deliver, bind.
  pose proof (push_job_effect job st) as H.
  destruct (push_job_to_api job st) as [ok st1].
  cbn [snd] in H. destruct H as ((Hs & Hv & Hq) & Hf & Hp & _).
  destruct ok; exec; rewrite ?Hs, ?Hv, ?Hq, ?Hf, ?Hp; auto 10.
Qed.

Lemma enqueue_links_effect new_links (st : State W) :
  let st' := snd (enqueue_links new_links st) in
  scraped_jobs st' = scraped_jobs st
  /\ log st' = log st
  /\ exists added, enqueued st st' added.
Proof.
  revert st; induction new_links as [|link rest IH]; intros st.
  - cbn. repeat split. exists []. unfold enqueued.
    rewrite app_nil_r. repeat split; [set_solver | constructor | set_solver].
  - cbn [enqueue_links]. exec_prims.
    destruct (negb (bool_decide (link ∈ visited_urls st))
              && (length (queue st) <? 50)%nat) eqn:Hadd.
    + match goal with |- context [enqueue_links rest ?s] => specialize (IH s) end.
      cbv zeta in IH. destruct IH as (Hs & Hl & added & Hq & Hv & Hnd & Hfresh).
      cbn [scraped_jobs log queue visited_urls] in *.
      repeat split; [exact Hs | exact Hl |].
      apply andb_true_iff in Hadd. destruct Hadd as [Hnew _].
      apply negb_true_iff, bool_decide_eq_false in Hnew.
      exists (link :: added). unfold enqueued. repeat split.
      * rewrite Hq, <- app_assoc. reflexivity.
      * rewrite Hv. set_solver.
      * constructor; [|exact Hnd]. intros Hin. apply Hfresh in Hin. set_solver.
      * intros u Hu. apply elem_of_cons in Hu. destruct Hu as [->|Hu];
          [exact Hnew|]. apply Hfresh in Hu. set_solver.
    + match goal with |- context [enqueue_links rest ?s] => specialize (IH s) end.
      exact IH.
Qed.

Lemma enqueued_nil (st st' : State W) :
  queue st' = queue st -> visited_urls st' = visited_urls st ->
  enqueued st st' [].
Proof.
  intros Hq Hv. unfold enqueued. rewrite app_nil_r.
  repeat split; [exact Hq | rewrite Hv; set_solver | constructor | set_solver].
Qed.

Lemma crawl_body_turn url pc sj (st : State W) :
  let '((pc', sj'), st') := crawl_body url pc sj st in
  turn url pc sj st pc' sj' st'.
Proof.
  unfold crawl_body, bind at 1.
  pose proof (fetch_page_effect url st) as Hf.
  destruct (_fetch_page url st) as [html_content st1].
  cbn [snd] in Hf. destruct Hf as ((Hs1 & Hv1 & Hq1) & Hf1 & _ & _ & Hp1 & _).
  assert (Hskip : turn url pc sj st (pc + 1) sj st1).
  { unfold turn. repeat split; [exact Hf1 | |].
    - exists []. apply enqueued_nil; assumption.
    - exists []. repeat split; [exact Hp1 | constructor |].
      exists []. rewrite app_nil_r. split; [exact Hs1 | set_solver]. }
  destruct html_content as [html|]; [|exact Hskip].
  destruct (nonempty (Some html)); [|exact Hskip].
  clear Hskip. unfold bind at 1 2.
  pose proof (parse_job_page_effect html url st1) as Hp.
  pose proof (parse_job_page_complete html url st1) as Hc.
  destruct (_parse_job_page html url st1) as [job_data st2].
  cbn [snd fst] in Hp, Hc.
  destruct Hp as ((Hs2 & Hv2 & Hq2) & Hf2 & Hp2 & _).
  assert (Hd : exists sj3 st3 jobs kept,
             (match job_data with
              | Some job => deliver job sj
              | None => ret sj
              end) st2 = (sj3, st3)
             /\ visited_urls st3 = visited_urls st
             /\ queue st3 = queue st
             /\ fetched (log st3) = url :: fetched (log st)
             /\ pushed (log st3) = jobs ++ pushed (log st)
             /\ Forall (fun job => complete job = true) jobs
             /\ scraped_jobs st3 = scraped_jobs st ++ kept
             /\ kept ⊆ jobs).
  { destruct job_data as [job|].
    - pose proof (deliver_effect job sj st2) as Hd.
      destruct (deliver job sj st2) as [sj3 st3].
      destruct Hd as (Hv3 & Hq3 & Hf3 & Hp3 & Hkept).
      exists sj3, st3, [job].
      destruct Hkept as [[Hs3 _]|[Hs3 _]];
        [exists [] | exists [job]];
        (repeat split;
         [ congruence | congruence | congruence
         | rewrite Hp3, Hp2, Hp1; reflexivity
         | constructor; [apply Hc; reflexivity | constructor]
         | rewrite Hs3, Hs2, Hs1, ?app_nil_r; reflexivity
         | set_solver ]).
    - exists sj, st2, [], []. unfold ret. rewrite app_nil_r. cbn [app].
      repeat split; try congruence; try constructor; set_solver. }
  destruct Hd as (sj3 & st3 & jobs & kept & Hrun & Hv3 & Hq3 & Hf3 & Hp3 & Hc3 & Hs3 & Hk3).
  unfold bind at 1. rewrite Hrun. unfold bind at 1.
  pose proof (extract_links_reads_only html url st3) as He.
  destruct (_extract_links html url st3) as [new_links st4].
  cbn [snd] in He. subst st4.
  unfold bind, ret.
  pose proof (enqueue_links_effect new_links st3) as Hq.
  destruct (enqueue_links new_links st3) as [[] st5].
  cbn [snd] in Hq. destruct Hq as (Hs5 & Hl5 & added & Hq5 & Hv5 & Hnd & Hfresh).
  unfold turn. repeat split.
  - rewrite Hl5. exact Hf3.
  - exists added. unfold enqueued. repeat split;
      [congruence | congruence | exact Hnd | rewrite <- Hv3; exact Hfresh].
  - exists jobs. repeat split; [rewrite Hl5; exact Hp3 | exact Hc3 |].
    exists kept. split; [congruence | exact Hk3].
Qed.

End Effects.

(** ** The crawl loop *)

Section Loop.
Context {W : Type} `{Collab : Collaborators W}.

Lemma crawl_while_stopped fuel pc sj (st : State W) :
  stopped (pc, sj, st) -> crawl_while fuel pc sj st = Some (pc, sj, st).
Proof.
  unfold stopped; cbn [fst snd]. intros Hstop.
  destruct fuel; cbn [crawl_while]; destruct (queue st) as [|u rest];
    try reflexivity; destruct Hstop as [Hq|Hpc]; try discriminate Hq;
    (destruct (Nat.ltb_spec pc max_pages_per_domain); [lia | reflexivity]).
Qed.

Lemma crawl_while_turn fuel pc sj (st : State W) url rest :
  queue st = url :: rest -> pc < max_pages_per_domain ->
  crawl_while (S fuel) pc sj st
  = let '((pc', sj'), st') := crawl_body url pc sj (set_queue rest st) in
    crawl_while fuel pc' sj' st'.
Proof.
  intros Hq Hpc. cbn [crawl_while]. rewrite Hq.
  destruct (Nat.ltb_spec pc max_pages_per_domain); [reflexivity | lia].
Qed.

(** A result of the loop is reached by turns, and the loop condition is
    false there. *)
Lemma crawl_while_turns fuel pc sj (st : State W) c' :
  crawl_while fuel pc sj st = Some c' ->
  exists n, turns n (pc, sj, st) c' /\ stopped c' /\ n <= fuel.
Proof.
  revert pc sj st; induction fuel as [|fuel IH]; intros pc sj st Hrun.
  - cbn [crawl_while] in Hrun. exists 0.
    destruct (queue st) as [|u rest] eqn:Hq.
    + injection Hrun as <-. split; [constructor|]. split; [left; exact Hq | lia].
    + destruct (Nat.ltb_spec pc max_pages_per_domain); [discriminate Hrun|].
      injection Hrun as <-. split; [constructor|]. split; [right; exact H | lia].
  - destruct (queue st) as [|u rest] eqn:Hq.
    + cbn [crawl_while] in Hrun. rewrite Hq in Hrun. injection Hrun as <-.
      exists 0. split; [constructor|]. split; [left; exact Hq | lia].
    + destruct (Nat.ltb_spec pc max_pages_per_domain) as [Hlt|Hge].
      * rewrite (crawl_while_turn _ _ _ _ _ _ Hq Hlt) in Hrun.
        destruct (crawl_body u pc sj (set_queue rest st)) as [[pc1 sj1] st1] eqn:Hb.
        destruct (IH _ _ _ Hrun) as (n & Hn & Hstop & Hle).
        exists (S n). split; [|split; [exact Hstop | lia]].
        eapply turns_S; [exact Hq | exact Hlt | exact Hb | exact Hn].
      * rewrite crawl_while_stopped in Hrun by (right; exact Hge).
        injection Hrun as <-. exists 0.
        split; [constructor|]. split; [right; exact Hge | lia].
Qed.

(** The budget is enough fuel. *)
Lemma crawl_while_total fuel pc sj (st : State W) :
  max_pages_per_domain <= fuel + pc ->
  exists c', crawl_while fuel pc sj st = Some c'.
Proof.
  revert pc sj st; induction fuel as [|fuel IH]; intros pc sj st Hfuel.
  - eexists. apply crawl_while_stopped. right. cbn [fst]. lia.
  - destruct (queue st) as [|u rest] eqn:Hq.
    + eexists. apply crawl_while_stopped. left. exact Hq.
    + destruct (Nat.ltb_spec pc max_pages_per_domain) as [Hlt|Hge].
      * rewrite (crawl_while_turn _ _ _ _ _ _ Hq Hlt).
        pose proof (crawl_body_turn u pc sj (set_queue rest st)) as Ht.
        destruct (crawl_body u pc sj (set_queue rest st)) as [[pc1 sj1] st1].
        destruct Ht as (-> & _). apply IH. lia.
      * eexists. apply crawl_while_stopped. right. exact Hge.
Qed.

(** More fuel does not change a result. *)
Lemma crawl_while_more_fuel fuel fuel' pc sj (st : State W) c' :
  crawl_while fuel pc sj st = Some c' -> fuel <= fuel' ->
  crawl_while fuel' pc sj st = Some c'.
Proof.
  revert fuel' pc sj st; induction fuel as [|fuel IH]; intros fuel' pc sj st Hrun Hle.
  - cbn [crawl_while] in Hrun.
    destruct (queue st) as [|u rest] eqn:Hq.
    + injection Hrun as <-. apply crawl_while_stopped. left. exact Hq.
    + destruct (Nat.ltb_spec pc max_pages_per_domain); [discriminate Hrun|].
      injection Hrun as <-. apply crawl_while_stopped. right. exact H.
  - destruct fuel' as [|fuel']; [lia|].
    destruct (queue st) as [|u rest] eqn:Hq.
    + rewrite crawl_while_stopped in Hrun by (left; exact Hq).
      rewrite crawl_while_stopped by (left; exact Hq). exact Hrun.
    + destruct (Nat.ltb_spec pc max_pages_per_domain) as [Hlt|Hge].
      * rewrite (crawl_while_turn fuel _ _ _ _ _ Hq Hlt) in Hrun.
        rewrite (crawl_while_turn fuel' _ _ _ _ _ Hq Hlt).
        destruct (crawl_body u pc sj (set_queue rest st)) as [[pc1 sj1] st1].
        apply IH; [exact Hrun | lia].
      * rewrite crawl_while_stopped in Hrun by (right; exact Hge).
        rewrite crawl_while_stopped by (right; exact Hge). exact Hrun.
Qed.

Lemma pass_inv_start start_url (st : State W) :
  pass_inv (fetched (log st)) (0, 0, start_domain start_url st).
Proof.
  exists []. cbn. repeat split.
  - apply NoDup_singleton.
  - intros u Hu. set_solver.
Qed.

Lemma pass_inv_turn F0 pc sj (st : State W) url rest pc' sj' st' :
  pass_inv F0 (pc, sj, st) ->
  queue st = url :: rest ->
  turn url pc sj (set_queue rest st) pc' sj' st' ->
  pass_inv F0 (pc', sj', st').
Proof.
  intros (us & Hf & Hlen & Hnd & Hvis) Hq (-> & Hf' & (added & Hq' & Hv' & Hnd' & Hfresh) & _).
  cbn [set_queue log queue visited_urls] in *.
  rewrite Hq in Hnd, Hvis.
  exists (url :: us). repeat split.
  - rewrite Hf', Hf. reflexivity.
  - cbn [length]. lia.
  - rewrite Hq'. rewrite app_assoc. apply NoDup_app. repeat split.
    + eapply NoDup_Permutation_proper; [|exact Hnd].
      cbn [app]. apply Permutation_middle.
    + intros u Hu Hadd. apply Hfresh in Hadd. apply Hadd, Hvis.
      set_solver.
    + exact Hnd'.
  - intros u Hu. rewrite Hv', Hq' in *.
    assert (u ∈ added \/ u ∈ us ++ url :: rest) as [Ha|Hold] by set_solver.
    + set_solver.
    + apply Hvis in Hold. set_solver.
Qed.

Lemma turns_pass_inv F0 n (c c' : nat * nat * State W) :
  turns n c c' -> pass_inv F0 c ->
  pass_inv F0 c' /\ fst (fst c') = fst (fst c) + n.
Proof.
  induction 1 as [c|n pc sj st url rest c1 c2 Hq Hlt Hb Hturns IH]; intros Hinv.
  - split; [exact Hinv | lia].
  - pose proof (crawl_body_turn url pc sj (set_queue rest st)) as Ht.
    rewrite Hb in Ht. destruct c1 as [[pc1 sj1] st1].
    destruct (IH (pass_inv_turn _ _ _ _ _ _ _ _ _ Hinv Hq Ht)) as [Hinv' Hpc].
    split; [exact Hinv'|].
    destruct Ht as (-> & _). cbn [fst] in *. lia.
Qed.

Lemma records_inv_turn url pc sj (st : State W) pc' sj' st' :
  records_inv st -> turn url pc sj st pc' sj' st' -> records_inv st'.
Proof.
  intros [Hp Hs] (_ & _ & _ & jobs & Hp' & Hc & kept & Hs' & Hk).
  split.
  - rewrite Hp'. apply Forall_app. split; assumption.
  - rewrite Hs'. apply Forall_app. split; [assumption|].
    apply List.Forall_forall. intros job Hjob.
    apply list_elem_of_In in Hjob. apply Hk in Hjob.
    rewrite List.Forall_forall in Hc. apply Hc.
    apply list_elem_of_In. exact Hjob.
Qed.

Lemma turns_records_inv n (c c' : nat * nat * State W) :
  turns n c c' -> records_inv (snd c) -> records_inv (snd c').
Proof.
  induction 1 as [c|n pc sj st url rest c1 c2 Hq Hlt Hb Hturns IH]; intros Hinv.
  - exact Hinv.
  - apply IH.
    pose proof (crawl_body_turn url pc sj (set_queue rest st)) as Ht.
    rewrite Hb in Ht. destruct c1 as [[pc1 sj1] st1]. cbn [snd] in *.
    eapply records_inv_turn; [|exact Ht]. exact Hinv.
Qed.

Lemma crawl_total fuel start_urls (st : State W) :
  max_pages_per_domain <= fuel ->
  exists final, crawl fuel start_urls st = Some final.
Proof.
  intros Hfuel. revert st; induction start_urls as [|u rest IH]; intros st.
  - exists st. reflexivity.
  - cbn [crawl]. unfold crawl_domain.
    destruct (crawl_while_total fuel 0 0 (start_domain u st)) as [[[pc sj] st'] Hrun];
      [lia|].
    rewrite Hrun. apply IH.
Qed.

Lemma crawl_records_inv fuel start_urls (st final : State W) :
  crawl fuel start_urls st = Some final -> records_inv st -> records_inv final.
Proof.
  revert st; induction start_urls as [|u rest IH]; intros st Hrun Hinv.
  - injection Hrun as <-. exact Hinv.
  - cbn [crawl] in Hrun. unfold crawl_domain in Hrun.
    destruct (crawl_while fuel 0 0 (start_domain u st)) as [[[pc sj] st']|] eqn:Hw;
      [|discriminate Hrun].
    apply (IH _ Hrun).
    destruct (crawl_while_turns _ _ _ _ _ Hw) as (n & Hn & _).
    apply (turns_records_inv _ _ _ Hn). exact Hinv.
Qed.

End Loop.

(** ** The claims about the pipeline and the crawl *)

Section Claims.
Context {W : Type} `{Collab : Collaborators W}.

(** The structural description is cut at 2000 characters. *)
Lemma first_description_bounded soup selectors :
  py_len (first_description soup selectors) <= 2000.
Proof.
  induction selectors as [|sel rest IH]; cbn [first_description py_len]; [lia|].
  destruct (select_one soup sel) as [elem|]; [|exact IH].
  destruct (100 <? _)%nat; [|exact IH].
  cbn [py_len]. apply str_length_take.
Qed.

Lemma structural_description_bounded html url :
  py_len (job_description (structural_pass html url)) <= 2000.
Proof. apply first_description_bounded. Qed.

(** After the structural pass [apply_url] is set, so the merge never
    takes the guess of the model for it. *)
Lemma structural_apply_url_kept html url ollama_data :
  url <> "" ->
  apply_url (merge (structural_pass html url) ollama_data)
  = apply_url (structural_pass html url).
Proof.
  intros Hurl. unfold merge, fill; cbn [apply_url structural_pass].
  destruct (truthy (first_link _ _ _ _)) eqn:Hlink; cbn [negb].
  - rewrite Hlink. reflexivity.
  - cbn [truthy]. destruct (String.eqb_spec url ""); [contradiction|].
    reflexivity.
Qed.

(** C2: [_parse_job_page] returns the candidate of the two passes when
    its title and its description are both non-empty, and [None]
    otherwise; hence every record a crawl pushes or accumulates has a
    non-empty title and a non-empty description. *)
Theorem incomplete_page_rejected :
  (forall html url (st : State W),
      _parse_job_page html url st
      = let '(candidate, st') := extraction_passes html url st in
        (if truthy (job_title candidate) && truthy (job_description candidate)
         then Some candidate else None, st'))
  /\ (forall start_urls use_sel (w : W),
        exists final,
          crawl max_pages_per_domain start_urls (init use_sel w) = Some final
          /\ Forall (fun job => truthy (job_title job) = true
                                /\ truthy (job_description job) = true)
                    (pushed (log final) ++ scraped_jobs final)).
Proof.
  split.
  - intros html url st. unfold _parse_job_page, bind, ret, complete.
    destruct (extraction_passes html url st) as [candidate st'].
    destruct (truthy (job_title candidate) && truthy (job_description candidate));
      reflexivity.
  - intros start_urls use_sel w.
    destruct (crawl_total max_pages_per_domain start_urls (init use_sel w))
      as [final Hrun]; [lia|].
    exists final. split; [exact Hrun|].
    assert (Hinv : records_inv final).
    { apply (crawl_records_inv _ _ _ _ Hrun). split; constructor. }
    destruct Hinv as [Hp Hs]. apply Forall_app.
    split; eapply Forall_impl; try eassumption;
      intros job Hc; apply andb_true_iff; exact Hc.
Qed.

(** Where no call of urllib raises, a domain pass ends, with the
    budget as fuel or with more.  It takes [pages] turns, each while
    the frontier is non-empty and the count below 30, and stops where
    the frontier is empty or the count is 30; [pages] pages were
    fetched, at most 30, and exactly 30 when the frontier is not empty
    at the end. *)
Theorem crawl_domain_terminates (start_url : string) (st : State W) :
  exists pages jobs final,
    (forall fuel, max_pages_per_domain <= fuel ->
                  crawl_domain fuel start_url st = Some (pages, jobs, final))
    /\ turns pages (0, 0, start_domain start_url st) (pages, jobs, final)
    /\ (queue final = [] \/ pages = max_pages_per_domain)
    /\ pages <= max_pages_per_domain
    /\ (exists us, fetched (log final) = us ++ fetched (log st)
                   /\ length us = pages)
    /\ (queue final <> [] -> pages = max_pages_per_domain).
Proof.
  destruct (crawl_while_total max_pages_per_domain 0 0 (start_domain start_url st))
    as [[[pages jobs] final] Hrun]; [lia|].
  destruct (crawl_while_turns _ _ _ _ _ Hrun) as (n & Hn & Hstop & Hle).
  destruct (turns_pass_inv (fetched (log st)) _ _ _ Hn (pass_inv_start _ _))
    as [(us & Hf & Hlen & _) Hpc].
  cbn [fst snd] in Hpc. assert (Hpn : n = pages) by lia. clear Hpc. subst n.
  assert (Hexit : queue final = [] \/ pages = max_pages_per_domain).
  { destruct Hstop as [Hq|Hge]; [left; exact Hq | right; cbn [fst] in Hge; lia]. }
  exists pages, jobs, final. repeat split.
  - intros fuel Hfuel. unfold crawl_domain.
    apply (crawl_while_more_fuel _ _ _ _ _ _ Hrun Hfuel).
  - exact Hn.
  - exact Hexit.
  - exact Hle.
  - exists us. split; assumption.
  - intros Hq. destruct Hexit as [He|He]; [contradiction | exact He].
Qed.

(** C9: at every point of a domain pass, the pages fetched so far and
    the URLs in the frontier are pairwise different, and all of them
    are in the visited set: no page is fetched twice, no URL is queued
    twice. *)
Theorem no_url_fetched_twice (start_url : string) (st : State W)
    (n pages jobs : nat) (st' : State W) :
  turns n (0, 0, start_domain start_url st) (pages, jobs, st') ->
  exists us,
    fetched (log st') = us ++ fetched (log st)
    /\ NoDup us
    /\ NoDup (queue st')
    /\ NoDup (us ++ queue st')
    /\ (forall u, u ∈ us ++ queue st' -> u ∈ visited_urls st').
Proof.
  intros Hn.
  destruct (turns_pass_inv (fetched (log st)) _ _ _ Hn (pass_inv_start _ _))
    as [(us & Hf & _ & Hnd & Hvis) _].
  exists us. pose proof Hnd as Hnd'. apply NoDup_app in Hnd'.
  destruct Hnd' as (Hus & _ & Hq).
  repeat split; assumption.
Qed.

(** Where no call of urllib raises, a turn of the loop pops one URL
    and adds one to the page count, whatever [_fetch_page] returns;
    when it returns [None] the turn does nothing else. *)
Theorem failed_fetch_counts (fuel : nat) (url : string) (rest : list string)
    (pc sj : nat) (st : State W) :
  queue st = url :: rest ->
  pc < max_pages_per_domain ->
  exists sj' st',
    crawl_body url pc sj (set_queue rest st) = ((pc + 1, sj'), st')
    /\ crawl_while (S fuel) pc sj st = crawl_while fuel (pc + 1) sj' st'
    /\ (fst (_fetch_page url (set_queue rest st)) = None ->
        sj' = sj /\ st' = snd (_fetch_page url (set_queue rest st))).
Proof.
  intros Hq Hlt.
  pose proof (crawl_body_turn url pc sj (set_queue rest st)) as Ht.
  destruct (crawl_body url pc sj (set_queue rest st)) as [[pc1 sj1] st1] eqn:Hb.
  destruct Ht as (-> & _).
  exists sj1, st1. split; [reflexivity|]. split.
  - rewrite (crawl_while_turn _ _ _ _ _ _ Hq Hlt), Hb. reflexivity.
  - intros Hnone. unfold crawl_body, bind in Hb.
    destruct (_fetch_page url (set_queue rest st)) as [html st2].
    cbn [fst] in Hnone. subst html. unfold ret in Hb.
    injection Hb as <- <-. split; reflexivity.
Qed.

(** A push that returns [False], for whatever reason, leaves
    [scraped_jobs] as it was. *)
Lemma deliver_failed_push (job : JobData) (n : nat) (st : State W) :
  fst (push_job_to_api job st) = false ->
  fst (deliver job n st) = n
  /\ scraped_jobs (snd (deliver job n st)) = scraped_jobs st.
Proof.
  intros Hfalse. unfold deliver, bind.
  pose proof (push_job_effect job st) as ((Hs & _) & _).
  destruct (push_job_to_api job st) as [ok st1].
  cbn [fst snd] in *. subst ok. unfold ret. cbn [fst snd].
  split; [reflexivity | exact Hs].
Qed.

(** C6, as the code has it: when the post to the ingestion endpoint
    fails, [push_job_to_api] returns [False] after that one post, and
    the crawl leaves [scraped_jobs] and the count of jobs as they
    were: the record is pushed once, posted once, and not kept. *)
Theorem failed_push_not_accumulated (job : JobData) (n : nat) (st : State W)
    (api_job : JobPostingAPI) (e : exn) (w' : W) :
  JobPostingAPI_init (job_title job) (job_description job)
                     (py_str (apply_url job))
                     (company_image job) (date_posted job) = Ok api_job ->
  api_post api_job (world st) = (Raise e, w') ->
  fst (push_job_to_api job st) = false
  /\ let '(n', st') := deliver job n st in
     n' = n
     /\ scraped_jobs st' = scraped_jobs st
     /\ pushed (log st') = job :: pushed (log st)
     /\ posted (log st') = api_job :: posted (log st).
Proof.
  intros Hvalid Hpost.
  unfold deliver, push_job_to_api. rewrite Hvalid.
  exec_prims. rewrite Hpost. cbn. repeat split; reflexivity.
Qed.

End Claims.

(** ** Runs on the sample collaborators *)

(** The dates of the specification, on a calendar that knows
    2024-01-15 and a clock that shows midnight of that day. *)
Example parse_date_iso :
  @parse_date_string Z (Sample.collaborators Sample.dated_script)
     Sample.jan_15_2024 (PStr "2024-01-15")
  = Ok (Some Sample.jan_15_2024).
Proof. reflexivity. Qed.

Example parse_date_three_days_ago :
  @parse_date_string Z (Sample.collaborators Sample.dated_script)
     Sample.jan_15_2024 (PStr "Posted 3 days ago")
  = Ok (Some (Sample.jan_15_2024 - 3 * us_per_day)%Z).
Proof. vm_compute. reflexivity. Qed.

(** A count of years that no [timedelta] holds: the overflow is
    caught, the result is [None]. *)
Example parse_date_overflow :
  @parse_date_string Z (Sample.collaborators Sample.dated_script)
     Sample.jan_15_2024 (PStr "99999999999 years ago")
  = Ok None.
Proof. vm_compute. reflexivity. Qed.

(** The links of the listing page: the other host, the page about the
    company and the visited listing itself are left out. *)
Example listing_links :
  fst (@_extract_links Z (Sample.collaborators Sample.listing_script)
         "<listing>" Sample.listing_url
         (start_domain Sample.listing_url (init false 0%Z)))
  = ["https://example.com/jobs/1"; "https://example.com/careers?page=2";
     "https://example.com/team/we-are-hiring"].
Proof. vm_compute. reflexivity. Qed.

(** The model's guess for the posting, as [get_job_details_with_ollama]
    returns it: the relative apply URL has been resolved. *)
Example posting_guess_resolved :
  fst (@get_job_details_with_ollama Z (Sample.collaborators Sample.posting_script)
         "<posting>" Sample.job_url (init true 0%Z))
  = [("apply_url", PStr "https://example.com/apply/42")].
Proof. vm_compute. reflexivity. Qed.

(** C1 on the code: the posting at https://example.com/jobs/9 has no
    apply link, the model guesses /apply/42 and the guess is resolved
    to https://example.com/apply/42, yet the record keeps the URL of
    the page as its apply URL. *)
Theorem oracle_apply_url_not_merged :
  let collab := Sample.collaborators Sample.posting_script in
  let st := init true 0%Z in
  @first_link Z collab Sample.posting_soup Sample.job_url "href" apply_selectors = PNone
  /\ dict_get "apply_url"
       (fst (@get_job_details_with_ollama Z collab "<posting>" Sample.job_url st))
     = PStr "https://example.com/apply/42"
  /\ exists job st',
       @_parse_job_page Z collab "<posting>" Sample.job_url st = (Some job, st')
       /\ apply_url job = PStr "https://example.com/jobs/9".
Proof.
  cbv zeta. split; [vm_compute; reflexivity|].
  split; [vm_compute; reflexivity|].
  eexists. eexists. split; [vm_compute; reflexivity|].
  reflexivity.
Qed.

(** C5 on the code: the page has a heading and no description block,
    the model supplies a description of 2001 characters, and the record
    carries all 2001 of them. *)
Theorem oracle_description_not_truncated :
  let collab := Sample.collaborators Sample.heading_script in
  exists job st',
    @_parse_job_page Z collab "<heading>" Sample.job_url (init true 0%Z)
    = (Some job, st')
    /\ job_description (@structural_pass Z collab "<heading>" Sample.job_url) = PNone
    /\ py_len (job_description job) = 2001.
Proof.
  cbv zeta. eexists. eexists. split; [vm_compute; reflexivity|].
  split; vm_compute; reflexivity.
Qed.

(** C4 on the code: the static tier fails, the browser starts, the
    rendered tier returns a short page, and the rendered tier is tried
    a second time within the same call of [_fetch_page]. *)
Theorem rendered_tier_tried_twice :
  let collab := Sample.collaborators Sample.spinner_script in
  let '(html_content, st') := @_fetch_page Z collab Sample.job_url (init true 0%Z) in
  html_content = Some "<html>spinner</html>"
  /\ driver st' = true
  /\ statics (log st') = [Sample.job_url]
  /\ rendered (log st') = [Sample.job_url; Sample.job_url].
Proof. vm_compute. repeat split; reflexivity. Qed.

(** C6 as stated fails: the endpoint is down, the complete posting is
    pushed, the push returns [False], and the record is not in
    [scraped_jobs], neither after the delivery nor at the end of the
    crawl. *)
Lemma failed_push_record_dropped :
  let collab := Sample.collaborators Sample.endpoint_down_script in
  let st := init false 0%Z in
  fst (@push_job_to_api Z collab Sample.full_job st) = false
  /\ ~ In Sample.full_job (scraped_jobs (snd (@deliver Z collab Sample.full_job 0 st)))
  /\ exists final,
       @crawl Z collab max_pages_per_domain [Sample.job_url] st = Some final
       /\ pushed (log final) = [Sample.full_job]
       /\ scraped_jobs final = [].
Proof.
  cbv zeta. split; [vm_compute; reflexivity|].
  split; [vm_compute; intros []|].
  eexists. split; [vm_compute; reflexivity|].
  split; reflexivity.
Qed.

(** The amended C6 on the same run. *)
Lemma failed_push_not_accumulated_witness :
  let collab := Sample.collaborators Sample.endpoint_down_script in
  let st := init false 0%Z in
  fst (@push_job_to_api Z collab Sample.full_job st) = false
  /\ scraped_jobs (snd (@deliver Z collab Sample.full_job 0 st)) = [].
Proof.
  cbv zeta.
  pose proof (@failed_push_not_accumulated Z
                (Sample.collaborators Sample.endpoint_down_script)
                Sample.full_job 0 (init false 0%Z)
                (mkJobPostingAPI "Platform Engineer" Sample.duties Sample.job_url
                                 None None)
                RequestException 0%Z eq_refl eq_refl) as [Hfalse Hkept].
  split; [exact Hfalse|].
  destruct (@deliver Z (Sample.collaborators Sample.endpoint_down_script)
              Sample.full_job 0 (init false 0%Z)) as [n' st'].
  destruct Hkept as (_ & Hs & _). exact Hs.
Defined.

(** On the site without end the pass stops after exactly 30 pages,
    the frontier still holding a URL. *)
Lemma crawl_domain_terminates_witness :
  let collab := Sample.collaborators Sample.endless_script in
  exists jobs final,
    @crawl_domain Z collab max_pages_per_domain "https://example.com/jobs"
                  (init false 0%Z)
    = Some (30, jobs, final)
    /\ queue final <> []
    /\ length (fetched (log final)) = 30.
Proof.
  cbv zeta.
  destruct (@crawl_domain_terminates Z (Sample.collaborators Sample.endless_script)
              "https://example.com/jobs" (init false 0%Z))
    as (pages & jobs & final & Hrun & _ & _ & _ & (us & Hf & Hlen) & Hfull).
  specialize (Hrun max_pages_per_domain (le_n _)).
  assert (Hq : queue final <> []).
  { intros Hempty.
    assert (Hlenq : option_map (fun c => length (queue (snd c)))
                      (@crawl_domain Z (Sample.collaborators Sample.endless_script)
                         max_pages_per_domain "https://example.com/jobs"
                         (init false 0%Z)) = Some 1)
      by (vm_compute; reflexivity).
    rewrite Hrun in Hlenq. cbn in Hlenq. rewrite Hempty in Hlenq.
    discriminate Hlenq. }
  specialize (Hfull Hq). rewrite Hfull in Hrun, Hlen.
  exists jobs, final. split; [exact Hrun|]. split; [exact Hq|].
  rewrite Hf. cbn [init log fetched]. rewrite app_nil_r. exact Hlen.
Defined.

(** C9 on the same site, after the whole pass. *)
Lemma no_url_fetched_twice_witness :
  let collab := Sample.collaborators Sample.endless_script in
  exists n pages jobs final us,
    @turns Z collab n (0, 0, start_domain "https://example.com/jobs" (init false 0%Z))
           (pages, jobs, final)
    /\ fetched (log final) = us ++ []
    /\ NoDup (us ++ queue final).
Proof.
  cbv zeta.
  destruct (@crawl_while_total Z (Sample.collaborators Sample.endless_script)
              max_pages_per_domain 0 0
              (start_domain "https://example.com/jobs" (init false 0%Z)))
    as [[[pages jobs] final] Hrun]; [lia|].
  destruct (crawl_while_turns _ _ _ _ _ Hrun) as (n & Hturns & _).
  destruct (@no_url_fetched_twice Z (Sample.collaborators Sample.endless_script)
              "https://example.com/jobs" (init false 0%Z) n pages jobs final Hturns)
    as (us & Hf & _ & _ & Hnd & _).
  exists n, pages, jobs, final, us. split; [exact Hturns|].
  split; [exact Hf | exact Hnd].
Defined.

(** Where every site is down the page count goes from 0 to 1 on a
    page that could not be fetched. *)
Lemma failed_fetch_counts_witness :
  let collab := Sample.collaborators Sample.quiet in
  let st := start_domain Sample.job_url (init true 0%Z) in
  fst (@_fetch_page Z collab Sample.job_url (set_queue [] st)) = None
  /\ exists st',
       @crawl_body Z collab Sample.job_url 0 0 (set_queue [] st) = ((1, 0), st').
Proof.
  cbv zeta.
  assert (Hnone : fst (@_fetch_page Z (Sample.collaborators Sample.quiet) Sample.job_url
                         (set_queue [] (start_domain Sample.job_url (init true 0%Z))))
                  = None) by (vm_compute; reflexivity).
  split; [exact Hnone|].
  destruct (@failed_fetch_counts Z (Sample.collaborators Sample.quiet) 0
              Sample.job_url [] 0 0 (start_domain Sample.job_url (init true 0%Z))
              eq_refl ltac:(unfold max_pages_per_domain; lia))
    as (sj' & st' & Hb & _ & Hsame).
  destruct (Hsame Hnone) as [-> _].
  exists st'. exact Hb.
Defined.

(** * Further properties of the retrieval tiers *)

Section Tiers.
Context {W : Type} `{Collab : Collaborators W}.

Lemma fetch_page_off (url : string) (st : State W) :
  use_selenium st = false ->
  let '(html_content, st') := _fetch_page url st in
  html_content = fst (session_get url (world st))
  /\ world st' = snd (session_get url (world st))
  /\ rendered (log st') = rendered (log st)
  /\ use_selenium st' = false
  /\ driver st' = driver st.
Proof.
  intros Hoff.
  unfold _fetch_page, _fetch_page_requests. exec_prims. rewrite Hoff.
  destruct (session_get url (world st)) as [html w1].
  cbn [fst snd use_selenium driver world log rendered].
  rewrite !andb_false_r. cbn [use_selenium].
  destruct html as [html|]; cbn [fst snd use_selenium driver world log rendered];
    rewrite ?andb_false_r; cbn; repeat split; reflexivity.
Qed.

(** With the rendered tier switched off, [_fetch_page] is the static
    tier: it returns what the session returned, tries nothing else and
    leaves the browser alone. *)
Theorem fetch_page_static_only (url : string) (st : State W) :
  use_selenium st = false ->
  let '(html_content, st') := _fetch_page url st in
  html_content = fst (session_get url (world st))
  /\ world st' = snd (session_get url (world st))
  /\ rendered (log st') = rendered (log st)
  /\ use_selenium st' = false
  /\ driver st' = driver st.
Proof. apply fetch_page_off. Qed.

(** What the static tier returned is never replaced by less: a page
    that came back non-empty is kept, or superseded by a strictly
    longer rendered one. *)
Theorem fetch_page_never_shorter (url : string) (st : State W) (html : string) :
  fst (session_get url (world st)) = Some html ->
  html <> "" ->
  exists html',
    fst (_fetch_page url st) = Some html'
    /\ (html' = html \/ String.length html < String.length html').
Proof.
  intros Hget Hne.
  unfold _fetch_page, _fetch_page_requests, _fetch_page_selenium, _get_selenium_driver.
  exec_prims.
  destruct (session_get url (world st)) as [r w1]. cbn [fst] in Hget. subst r.
  assert (Hnon : nonempty (Some html) = true).
  { cbn [nonempty]. destruct (String.eqb_spec html ""); [contradiction | reflexivity]. }
  cbn [fst snd use_selenium driver world log]. rewrite Hnon. cbn [negb andb].
  exec; try (eexists; split; [reflexivity | left; reflexivity]).
  all: match goal with
       | H : nonempty ?o && (_ <? _)%nat = true |- _ =>
           apply andb_true_iff in H; destruct H as [Hn Hl];
           destruct o as [s|]; [|discriminate Hn];
           apply Nat.ltb_lt in Hl; cbn [olen] in Hl;
           eexists; split; [reflexivity | right; exact Hl]
       end.
Qed.

(** A static page of 1000 characters or more that does not mention
    "loading" is returned as it is, without a try of the rendered tier
    and without starting the browser. *)
Theorem fetch_page_substantial_static (url : string) (st : State W) (html : string) :
  fst (session_get url (world st)) = Some html ->
  seems_js_heavy html = false ->
  let '(html_content, st') := _fetch_page url st in
  html_content = Some html
  /\ rendered (log st') = rendered (log st)
  /\ driver st' = driver st
  /\ use_selenium st' = use_selenium st.
Proof.
  intros Hget Hheavy.
  assert (Hnon : nonempty (Some html) = true).
  { unfold seems_js_heavy in Hheavy. apply orb_false_iff in Hheavy.
    destruct Hheavy as [Hlen _]. apply Nat.ltb_ge in Hlen.
    cbn [nonempty]. destruct (String.eqb_spec html "") as [->|]; [|reflexivity].
    cbn in Hlen. lia. }
  unfold _fetch_page, _fetch_page_requests. exec_prims.
  destruct (session_get url (world st)) as [r w1]. cbn [fst] in Hget. subst r.
  cbn [fst snd use_selenium driver world log]. rewrite Hnon. cbn [negb andb].
  rewrite Hnon, Hheavy, andb_false_r.
  cbn. repeat split; reflexivity.
Qed.

(** One call of [_fetch_page] tries the static tier once and the
    rendered tier at most twice, and at most once when the static tier
    returned a non-empty page. *)
Theorem fetch_page_tier_counts (url : string) (st : State W) :
  let st' := snd (_fetch_page url st) in
  statics (log st') = url :: statics (log st)
  /\ length (rendered (log st')) <= 2 + length (rendered (log st))
  /\ (nonempty (fst (session_get url (world st))) = true ->
      length (rendered (log st')) <= 1 + length (rendered (log st))).
Proof.
  unfold _fetch_page, _fetch_page_requests, _fetch_page_selenium, _get_selenium_driver.
  exec_prims.
  destruct (session_get url (world st)) as [r w1].
  cbn [fst snd use_selenium driver world log].
  destruct (nonempty r) eqn:Hnon; cbn [negb andb].
  - destruct r as [html|]; [|discriminate Hnon]. rewrite Hnon. cbn [andb].
    exec; repeat split; try reflexivity; intros; cbn [length]; lia.
  - exec; repeat split; try reflexivity; try discriminate; cbn [length]; lia.
Qed.

(** The browser is started once: a scraper that has a driver hands it
    out without touching anything; a browser that fails to start makes
    [_fetch_page_selenium] return [None] and switches the rendered tier
    off. *)
Theorem selenium_driver_lifecycle (url : string) (st : State W) :
  (driver st = true -> _get_selenium_driver st = (true, st))
  /\ (driver st = false -> fst (uc_Chrome (world st)) = false ->
      let '(html_content, st') := _fetch_page_selenium url st in
      html_content = None /\ use_selenium st' = false /\ driver st' = false).
Proof.
  split.
  - intros Hd. unfold _get_selenium_driver. exec_prims. rewrite Hd.
    cbn. rewrite Hd. destruct st; reflexivity.
  - intros Hd Hfail. unfold _fetch_page_selenium, _get_selenium_driver.
    destruct (uc_Chrome (world st)) as [started w1] eqn:Hstart.
    cbn [fst] in Hfail. subst started.
    exec_prims. cbn. rewrite Hd. cbn. rewrite Hstart. cbn.
    repeat split; reflexivity.
Qed.

End Tiers.

(** * Further properties of the frontier and of the crawl *)

Section Frontier.
Context {W : Type} `{Collab : Collaborators W}.

(** The loop over [new_links], in full: what it appends, in which
    order, what it marks as visited, how long the frontier gets, and
    that it touches nothing else. *)
Lemma enqueue_links_shape (new_links : list string) (st : State W) :
  let st' := snd (enqueue_links new_links st) in
  exists added,
    queue st' = queue st ++ added
    /\ sublist added new_links
    /\ visited_urls st' = list_to_set added ∪ visited_urls st
    /\ length (queue st') <= Nat.max (length (queue st)) 50
    /\ (length (queue st) + length new_links <= 50 ->
        forall u, u ∈ new_links -> u ∈ visited_urls st')
    /\ scraped_jobs st' = scraped_jobs st
    /\ log st' = log st
    /\ world st' = world st
    /\ use_selenium st' = use_selenium st
    /\ driver st' = driver st.
Proof.
  revert st; induction new_links as [|link rest IH]; intros st.
  - cbn. exists []. rewrite app_nil_r.
    repeat split; try reflexivity; [set_solver | lia | set_solver].
  - cbn [enqueue_links]. exec_prims.
    destruct (negb (bool_decide (link ∈ visited_urls st))
              && (length (queue st) <? 50)%nat) eqn:Hadd.
    + match goal with |- context [enqueue_links rest ?s] => specialize (IH s) end.
      cbv zeta in IH.
      cbn [queue visited_urls scraped_jobs log world use_selenium driver] in IH.
      destruct IH as (added & Hq & Hsub & Hv & Hlen & Hall & Hrest).
      apply andb_true_iff in Hadd. destruct Hadd as [_ Hroom].
      apply Nat.ltb_lt in Hroom.
      exists (link :: added).
      split; [rewrite Hq, <- app_assoc; reflexivity|].
      split; [apply sublist_skip; exact Hsub|].
      split; [rewrite Hv; set_solver|].
      split; [rewrite length_app in Hlen; cbn [length] in Hlen; lia|].
      split; [|exact Hrest].
      intros Hfit u Hu. cbn [length] in Hfit.
      apply elem_of_cons in Hu. destruct Hu as [->|Hu].
      * rewrite Hv. set_solver.
      * apply Hall; [rewrite length_app; cbn [length]; lia | exact Hu].
    + specialize (IH st). cbv zeta in IH.
      destruct IH as (added & Hq & Hsub & Hv & Hlen & Hall & Hrest).
      exists added.
      split; [exact Hq|]. split; [apply sublist_cons; exact Hsub|].
      split; [exact Hv|]. split; [exact Hlen|]. split; [|exact Hrest].
      intros Hfit u Hu. cbn [length] in Hfit.
      apply elem_of_cons in Hu. destruct Hu as [->|Hu].
      * apply andb_false_iff in Hadd. destruct Hadd as [Hseen|Hfull].
        -- apply negb_false_iff, bool_decide_eq_true in Hseen.
           rewrite Hv. set_solver.
        -- apply Nat.ltb_ge in Hfull. lia.
      * apply Hall; [lia | exact Hu].
Qed.

(** The body of the loop ends with the loop over the links of the
    page; before it, the frontier and the visited set are as they
    were, and at most one record has been appended. *)
Lemma crawl_body_shape url pc sj (st : State W) :
  exists sj' st3 links,
    crawl_body url pc sj st = ((pc + 1, sj'), snd (enqueue_links links st3))
    /\ queue st3 = queue st
    /\ visited_urls st3 = visited_urls st
    /\ (scraped_jobs st3 = scraped_jobs st /\ sj' = sj
        \/ exists job, scraped_jobs st3 = scraped_jobs st ++ [job] /\ sj' = sj + 1).
Proof.
  unfold crawl_body, bind at 1.
  pose proof (fetch_page_effect url st) as Hf.
  destruct (_fetch_page url st) as [html_content st1].
  cbn [snd] in Hf. destruct Hf as ((Hs1 & Hv1 & Hq1) & _).
  assert (Hskip : exists sj' st3 links,
             ret (pc + 1, sj) st1 = ((pc + 1, sj'), snd (enqueue_links links st3))
             /\ queue st3 = queue st
             /\ visited_urls st3 = visited_urls st
             /\ (scraped_jobs st3 = scraped_jobs st /\ sj' = sj
                 \/ exists job, scraped_jobs st3 = scraped_jobs st ++ [job]
                                /\ sj' = sj + 1)).
  { exists sj, st1, []. repeat split; try assumption. left. split; [assumption|reflexivity]. }
  destruct html_content as [html|]; [|exact Hskip].
  destruct (nonempty (Some html)); [|exact Hskip].
  clear Hskip. unfold bind at 1 2.
  pose proof (parse_job_page_effect html url st1) as Hp.
  destruct (_parse_job_page html url st1) as [job_data st2].
  cbn [snd] in Hp. destruct Hp as ((Hs2 & Hv2 & Hq2) & _).
  assert (Hd : exists sj3 st3,
             (match job_data with
              | Some job => deliver job sj
              | None => ret sj
              end) st2 = (sj3, st3)
             /\ queue st3 = queue st
             /\ visited_urls st3 = visited_urls st
             /\ (scraped_jobs st3 = scraped_jobs st /\ sj3 = sj
                 \/ exists job, scraped_jobs st3 = scraped_jobs st ++ [job]
                                /\ sj3 = sj + 1)).
  { destruct job_data as [job|].
    - pose proof (deliver_effect job sj st2) as Hd.
      destruct (deliver job sj st2) as [sj3 st3].
      destruct Hd as (Hv3 & Hq3 & _ & _ & Hkept).
      exists sj3, st3. repeat split; try congruence.
      destruct Hkept as [[Hs3 ->]|[Hs3 ->]].
      + left. split; [congruence | reflexivity].
      + right. exists job. split; [congruence | reflexivity].
    - exists sj, st2. unfold ret. repeat split; try congruence.
      left. split; [congruence | reflexivity]. }
  destruct Hd as (sj3 & st3 & Hrun & Hq3 & Hv3 & Hkept).
  unfold bind at 1. rewrite Hrun. unfold bind at 1.
  pose proof (extract_links_reads_only html url st3) as He.
  destruct (_extract_links html url st3) as [new_links st4].
  cbn [snd] in He. subst st4.
  unfold bind, ret.
  exists sj3, st3, new_links.
  destruct (enqueue_links new_links st3) as [[] st5]. cbn [snd].
  repeat split; assumption.
Qed.

(** A property of the state that every operation of the loop body
    keeps is kept by the body. *)
Lemma crawl_body_preserves (P : State W -> Prop) :
  (forall url st, P st -> P (snd (_fetch_page url st))) ->
  (forall html url st, P st -> P (snd (_parse_job_page html url st))) ->
  (forall job n st, P st -> P (snd (deliver job n st))) ->
  (forall links st, P st -> P (snd (enqueue_links links st))) ->
  forall url pc sj st, P st -> P (snd (crawl_body url pc sj st)).
Proof.
  intros Hfetch Hparse Hdeliver Henqueue url pc sj st HP.
  unfold crawl_body, bind at 1.
  specialize (Hfetch url st HP).
  destruct (_fetch_page url st) as [html_content st1]. cbn [snd] in Hfetch.
  destruct html_content as [html|]; [|exact Hfetch].
  destruct (nonempty (Some html)); [|exact Hfetch].
  unfold bind at 1 2.
  specialize (Hparse html url st1 Hfetch).
  destruct (_parse_job_page html url st1) as [job_data st2]. cbn [snd] in Hparse.
  assert (Hd : P (snd ((match job_data with
                        | Some job => deliver job sj
                        | None => ret sj
                        end) st2))).
  { destruct job_data as [job|]; [apply Hdeliver; exact Hparse | exact Hparse]. }
  unfold bind at 1.
  destruct ((match job_data with
             | Some job => deliver job sj
             | None => ret sj
             end) st2) as [sj3 st3].
  cbn [snd] in Hd. unfold bind at 1.
  pose proof (extract_links_reads_only html url st3) as He.
  destruct (_extract_links html url st3) as [new_links st4].
  cbn [snd] in He. subst st4.
  unfold bind, ret.
  specialize (Henqueue new_links st3 Hd).
  destruct (enqueue_links new_links st3) as [[] st5]. exact Henqueue.
Qed.

End Frontier.

Section Passes.
Context {W : Type} `{Collab : Collaborators W}.

(** Discovered links are admitted in page order, each at most once and
    only if it was not visited; those admitted become visited; the
    frontier does not grow past 50; and when the frontier has room for
    all of them, every link of the page is visited afterwards. *)
Theorem enqueue_links_admission (new_links : list string) (st : State W) :
  let st' := snd (enqueue_links new_links st) in
  exists added,
    queue st' = queue st ++ added
    /\ sublist added new_links
    /\ NoDup added
    /\ (forall u, u ∈ added -> u ∉ visited_urls st)
    /\ visited_urls st' = list_to_set added ∪ visited_urls st
    /\ length (queue st') <= Nat.max (length (queue st)) 50
    /\ (length (queue st) + length new_links <= 50 ->
        forall u, u ∈ new_links -> u ∈ visited_urls st').
Proof.
  cbv zeta.
  destruct (enqueue_links_shape new_links st)
    as (added & Hq & Hsub & Hv & Hlen & Hall & _).
  destruct (enqueue_links_effect new_links st)
    as (_ & _ & added' & Hq' & _ & Hnd & Hfresh).
  assert (added' = added) as -> by (rewrite Hq in Hq'; eapply app_inv_head; symmetry; exact Hq').
  exists added. repeat split; assumption.
Qed.

Lemma turns_queue_bound n (c c' : nat * nat * State W) :
  turns n c c' -> length (queue (snd c)) <= 50 -> length (queue (snd c')) <= 50.
Proof.
  induction 1 as [c|n pc sj st url rest c1 c2 Hq Hlt Hb Hturns IH]; intros Hlen.
  - exact Hlen.
  - apply IH. cbn [snd] in Hlen. rewrite Hq in Hlen. cbn [length] in Hlen.
    destruct (crawl_body_shape url pc sj (set_queue rest st))
      as (sj' & st3 & links & Hrun & Hq3 & _).
    rewrite Hrun in Hb. subst c1. cbn [snd].
    destruct (enqueue_links_shape links st3) as (added & _ & _ & _ & Hbound & _).
    rewrite Hq3 in Hbound. cbn [set_queue queue] in Hbound. lia.
Qed.

(** Throughout a domain pass the frontier holds at most 50 URLs. *)
Theorem frontier_bounded (start_url : string) (st : State W)
    (n pages jobs : nat) (st' : State W) :
  turns n (0, 0, start_domain start_url st) (pages, jobs, st') ->
  length (queue st') <= 50.
Proof.
  intros Hn. apply (turns_queue_bound _ _ _ Hn). cbn. lia.
Qed.

(** The visited set only grows in the course of a pass. *)
Theorem visited_only_grows (n : nat) (c c' : nat * nat * State W) :
  turns n c c' -> visited_urls (snd c) ⊆ visited_urls (snd c').
Proof.
  induction 1 as [c|n pc sj st url rest c1 c2 Hq Hlt Hb Hturns IH].
  - reflexivity.
  - pose proof (crawl_body_turn url pc sj (set_queue rest st)) as Ht.
    rewrite Hb in Ht. destruct c1 as [[pc1 sj1] st1].
    destruct Ht as (_ & _ & (added & _ & Hv & _) & _).
    cbn [snd set_queue visited_urls] in *. set_solver.
Qed.

Lemma turns_order n (c c' : nat * nat * State W) :
  turns n c c' ->
  rev (fetched (log (snd c))) ++ queue (snd c)
    `prefix_of` rev (fetched (log (snd c'))) ++ queue (snd c').
Proof.
  induction 1 as [c|n pc sj st url rest c1 c2 Hq Hlt Hb Hturns IH].
  - reflexivity.
  - etransitivity; [|exact IH].
    pose proof (crawl_body_turn url pc sj (set_queue rest st)) as Ht.
    rewrite Hb in Ht. destruct c1 as [[pc1 sj1] st1].
    destruct Ht as (_ & Hf & (added & Hq1 & _) & _).
    cbn [set_queue log queue snd] in *.
    rewrite Hf, Hq1, Hq. cbn [rev]. rewrite <- !app_assoc. cbn [app].
    exists added. rewrite <- !app_assoc. reflexivity.
Qed.

(** Pages are fetched in the order in which they were queued: the
    pages fetched so far, oldest first, followed by the frontier, is a
    sequence that later turns only extend at its end. *)
Theorem breadth_first_order (n : nat) (pc sj pc' sj' : nat) (st st' : State W) :
  turns n (pc, sj, st) (pc', sj', st') ->
  rev (fetched (log st)) ++ queue st
    `prefix_of` rev (fetched (log st')) ++ queue st'.
Proof. intros Hn. exact (turns_order _ _ _ Hn). Qed.

Lemma turns_kept n (c c' : nat * nat * State W) :
  turns n c c' ->
  exists kept,
    scraped_jobs (snd c') = scraped_jobs (snd c) ++ kept
    /\ snd (fst c') = snd (fst c) + length kept.
Proof.
  induction 1 as [c|n pc sj st url rest c1 c2 Hq Hlt Hb Hturns IH].
  - exists []. rewrite app_nil_r. cbn [length]. split; [reflexivity | lia].
  - destruct IH as (kept & Hs & Hn).
    destruct (crawl_body_shape url pc sj (set_queue rest st))
      as (sj' & st3 & links & Hrun & _ & _ & Hone).
    rewrite Hrun in Hb. subst c1. cbn [fst snd] in *.
    destruct (enqueue_links_shape links st3) as (_ & _ & _ & _ & _ & _ & Hs3 & _).
    rewrite Hs3 in Hs.
    destruct Hone as [[Hs' ->]|(job & Hs' & ->)]; rewrite Hs' in Hs;
      cbn [set_queue scraped_jobs] in Hs.
    + exists kept. split; [exact Hs | exact Hn].
    + exists (job :: kept). split.
      * rewrite Hs, <- app_assoc. reflexivity.
      * cbn [length]. lia.
Qed.

(** The count of successful jobs of a domain pass is the number of
    records the pass appended to [scraped_jobs]; the records that were
    there before stay in front, in their order. *)
Theorem successful_jobs_counted (fuel : nat) (start_url : string) (st : State W)
    (pages jobs : nat) (final : State W) :
  crawl_domain fuel start_url st = Some (pages, jobs, final) ->
  exists kept,
    scraped_jobs final = scraped_jobs st ++ kept
    /\ length kept = jobs.
Proof.
  unfold crawl_domain. intros Hrun.
  destruct (crawl_while_turns _ _ _ _ _ Hrun) as (n & Hn & _).
  destruct (turns_kept _ _ _ Hn) as (kept & Hs & Hj).
  cbn [fst snd] in *. exists kept. split; [exact Hs | lia].
Qed.

(** A crawl over several seeds only appends to [scraped_jobs]: what a
    run has accumulated is a prefix of what it holds at the end. *)
Theorem crawl_only_appends (fuel : nat) (start_urls : list string) (st final : State W) :
  crawl fuel start_urls st = Some final ->
  scraped_jobs st `prefix_of` scraped_jobs final.
Proof.
  revert st; induction start_urls as [|u rest IH]; intros st Hrun.
  - injection Hrun as <-. reflexivity.
  - cbn [crawl] in Hrun.
    destruct (crawl_domain fuel u st) as [[[pc sj] st']|] eqn:Hd; [|discriminate Hrun].
    unfold crawl_domain in Hd.
    destruct (crawl_while_turns _ _ _ _ _ Hd) as (n & Hn & _).
    destruct (turns_kept _ _ _ Hn) as (kept & Hs & _). cbn [snd] in Hs.
    etransitivity; [|apply (IH _ Hrun)].
    exists kept. exact Hs.
Qed.

(** A crawl fetches at most 30 pages per seed. *)
Theorem crawl_page_budget (start_urls : list string) (st : State W) :
  exists final us,
    crawl max_pages_per_domain start_urls st = Some final
    /\ fetched (log final) = us ++ fetched (log st)
    /\ length us <= max_pages_per_domain * length start_urls.
Proof.
  revert st; induction start_urls as [|u rest IH]; intros st.
  - exists st, []. repeat split. cbn [length]. lia.
  - cbn [crawl]. unfold crawl_domain.
    destruct (crawl_while_total max_pages_per_domain 0 0 (start_domain u st))
      as [[[pc sj] st1] Hrun]; [lia|].
    rewrite Hrun.
    destruct (crawl_while_turns _ _ _ _ _ Hrun) as (n & Hn & _ & Hle).
    destruct (turns_pass_inv (fetched (log st)) _ _ _ Hn (pass_inv_start _ _))
      as [(us1 & Hf1 & Hlen1 & _) Hpc].
    cbn [fst] in Hpc.
    destruct (IH st1) as (final & us & Hfinal & Hf & Hlen).
    exists final, (us ++ us1). split; [exact Hfinal|]. split.
    + rewrite Hf, Hf1, app_assoc. reflexivity.
    + rewrite length_app. cbn [length]. lia.
Qed.

Lemma browser_off_body d R url pc sj (st : State W) :
  browser_off d R st -> browser_off d R (snd (crawl_body url pc sj st)).
Proof.
  apply (crawl_body_preserves (browser_off d R)).
  - intros u s (Hu & Hd & Hr).
    pose proof (fetch_page_off u s Hu) as H.
    destruct (_fetch_page u s) as [h s']. destruct H as (_ & _ & Hr' & Hu' & Hd').
    cbn [snd]. repeat split; congruence.
  - intros html u s (Hu & Hd & Hr).
    unfold _parse_job_page, extraction_passes, get_job_details_with_ollama.
    exec; repeat split; assumption.
  - intros job k s (Hu & Hd & Hr).
    unfold deliver, push_job_to_api. exec; repeat split; assumption.
  - intros links s (Hu & Hd & Hr).
    destruct (enqueue_links_shape links s)
      as (_ & _ & _ & _ & _ & _ & _ & Hl & _ & Hu' & Hd').
    repeat split; congruence.
Qed.

Lemma browser_off_turns d R n (c c' : nat * nat * State W) :
  turns n c c' -> browser_off d R (snd c) -> browser_off d R (snd c').
Proof.
  induction 1 as [c|n pc sj st url rest c1 c2 Hq Hlt Hb Hturns IH]; intros Hoff.
  - exact Hoff.
  - apply IH. rewrite <- Hb. apply browser_off_body. exact Hoff.
Qed.

Lemma crawl_browser_off d R fuel start_urls (st final : State W) :
  crawl fuel start_urls st = Some final ->
  browser_off d R st -> browser_off d R final.
Proof.
  revert st; induction start_urls as [|u rest IH]; intros st Hrun Hst.
  - injection Hrun as <-. exact Hst.
  - cbn [crawl] in Hrun.
    destruct (crawl_domain fuel u st) as [[[pc sj] st']|] eqn:Hd; [|discriminate Hrun].
    unfold crawl_domain in Hd.
    destruct (crawl_while_turns _ _ _ _ _ Hd) as (n & Hn & _).
    apply (IH st' Hrun).
    apply (browser_off_turns d R _ _ _ Hn). exact Hst.
Qed.

(** The rendered tier stays off: a crawl started with [use_selenium]
    false never tries the rendered tier and never starts a browser. *)
Theorem crawl_without_selenium (fuel : nat) (start_urls : list string)
    (st final : State W) :
  crawl fuel start_urls st = Some final ->
  use_selenium st = false ->
  rendered (log final) = rendered (log st)
  /\ use_selenium final = false
  /\ driver final = driver st.
Proof.
  intros Hrun Hoff.
  destruct (crawl_browser_off (driver st) (rendered (log st)) _ _ _ _ Hrun)
    as (Hu & Hd & Hr).
  - unfold browser_off. auto.
  - auto.
Qed.

End Passes.

(** * Further properties of the extraction *)

Section Extraction.
Context {W : Type} `{Collab : Collaborators W}.

Lemma fill_found key v ollama_data :
  truthy v = true -> fill key v ollama_data = v.
Proof. intros Hv. unfold fill. rewrite Hv. reflexivity. Qed.

Lemma fill_nothing key v : fill key v [] = v.
Proof. unfold fill. cbn. rewrite andb_false_r. reflexivity. Qed.

Lemma merge_nothing (extracted_data : JobData) : merge extracted_data [] = extracted_data.
Proof. destruct extracted_data. unfold merge. rewrite !fill_nothing. reflexivity. Qed.

(** The candidate of the two passes is the structural record merged
    with some guess, the empty one when the model is not asked. *)
Lemma extraction_passes_merge html url (st : State W) :
  exists ollama_data,
    fst (extraction_passes html url st)
    = merge (structural_pass html url) ollama_data.
Proof.
  unfold extraction_passes. destruct (mandatory_missing _).
  - unfold bind, ret.
    destruct (get_job_details_with_ollama html url st) as [guess st1].
    exists guess. reflexivity.
  - exists []. rewrite merge_nothing. reflexivity.
Qed.

Lemma parse_job_page_candidate html url (st : State W) job :
  fst (_parse_job_page html url st) = Some job ->
  job = fst (extraction_passes html url st).
Proof.
  unfold _parse_job_page, bind, ret.
  destruct (extraction_passes html url st) as [d st1].
  destruct (negb (complete d)); cbn [fst]; intros H; [discriminate H|].
  injection H as <-. reflexivity.
Qed.



(** What the structural pass found is what the record carries: the
    guess of the model never replaces a field that was found. *)
Theorem structural_fields_kept (html url : string) (st : State W) (job : JobData) :
  fst (_parse_job_page html url st) = Some job ->
  let found := structural_pass html url in
  (truthy (job_title found) = true -> job_title job = job_title found)
  /\ (truthy (job_description found) = true ->
      job_description job = job_description found)
  /\ (truthy (job_location found) = true -> job_location job = job_location found)
  /\ (truthy (apply_url found) = true -> apply_url job = apply_url found)
  /\ (truthy (company_image found) = true ->
      company_image job = company_image found).
Proof.
  intros Hjob. apply parse_job_page_candidate in Hjob.
  destruct (extraction_passes_merge html url st) as [guess Hm].
  rewrite Hm in Hjob. subst job. cbv zeta. unfold merge.
  cbn [job_title job_description job_location apply_url company_image].
  repeat split; intros Hv; apply fill_found; exact Hv.
Qed.

Lemma str_length_take_min n s :
  String.length (Str.take n s) = Nat.min n (String.length s).
Proof.
  revert s; induction n as [|n IH]; intros [|c s]; cbn; try reflexivity.
  rewrite IH. reflexivity.
Qed.

(** A description found by the structural pass has more than 100 and
    at most 2000 characters; a shorter block is passed over. *)
Theorem structural_description_length (html url : string) :
  job_description (structural_pass html url) = PNone
  \/ exists s, job_description (structural_pass html url) = PStr s
               /\ 100 < String.length s <= 2000.
Proof.
  cbn [structural_pass job_description].
  generalize (BeautifulSoup html). intros soup.
  induction desc_selectors as [|sel rest IH]; cbn [first_description];
    [left; reflexivity|].
  destruct (select_one soup sel) as [elem|]; [|exact IH].
  destruct (100 <? String.length (get_text_lines elem))%nat eqn:Hlong; [|exact IH].
  apply Nat.ltb_lt in Hlong.
  right. eexists. split; [reflexivity|].
  rewrite str_length_take_min. lia.
Qed.

End Extraction.

(** * Further properties of the model's guess *)

Section Guess.
Context {W : Type} `{Collab : Collaborators W}.

Lemma dict_get_set_same k v d : dict_get k (dict_set k v d) = v.
Proof.
  unfold dict_get. induction d as [|[k' v'] d IH]; cbn.
  - rewrite String.eqb_refl. reflexivity.
  - destruct (String.eqb k k') eqn:Hk; cbn.
    + rewrite String.eqb_refl. reflexivity.
    + rewrite Hk. exact IH.
Qed.

Lemma dict_get_set_other k k' v d :
  k <> k' -> dict_get k (dict_set k' v d) = dict_get k d.
Proof.
  intros Hne. unfold dict_get. induction d as [|[k0 v0] d IH]; cbn.
  - destruct (String.eqb_spec k k'); [contradiction | reflexivity].
  - destruct (String.eqb_spec k' k0) as [->|Hk0]; cbn.
    + destruct (String.eqb_spec k k0); [contradiction | reflexivity].
    + destruct (String.eqb k k0); [reflexivity | exact IH].
Qed.

Lemma py_getitem_in v k x : py_getitem v k = Ok x -> py_in k v = Ok true.
Proof.
  destruct v; cbn; try discriminate.
  destruct (dict_lookup k d) eqn:Hl; [|discriminate].
  intros _; f_equal; try (apply bool_decide_eq_true; eexists; reflexivity).
Qed.

(** The decoding of a response, up to the parsed guess. *)
Lemma ollama_decode_parsed (w : W) url response message content d :
  py_getitem response "message" = Ok message ->
  py_getitem message "content" = Ok (PStr content) ->
  json_loads (strip_fences content) = Ok (PDict d) ->
  ollama_decode w url response
  = (try! parsed_data := absolutize_apply_url url d in
     try! parsed_data := parse_date_posted w parsed_data in
     Ok parsed_data).
Proof.
  intros Hm Hc Hj. unfold ollama_decode.
  rewrite (py_getitem_in _ _ _ Hm). cbn [rbind]. rewrite Hm. cbn [rbind].
  rewrite (py_getitem_in _ _ _ Hc). cbn [rbind]. rewrite Hc. cbn [rbind py_as_str].
  rewrite Hj. cbn [rbind py_as_dict]. reflexivity.
Qed.

(** An apply URL that is not a string costs the whole guess: the
    other fields the model gave are lost with it. *)
Theorem malformed_apply_url_discards_guess (html url : string) (st : State W)
    (response message : pyval) (content : string) (d : list (string * pyval)) (w' : W) :
  ollama_chat url (Str.take 8000 html) (world st) = (Ok response, w') ->
  py_getitem response "message" = Ok message ->
  py_getitem message "content" = Ok (PStr content) ->
  json_loads (strip_fences content) = Ok (PDict d) ->
  truthy (dict_get "apply_url" d) = true ->
  (forall s, dict_get "apply_url" d <> PStr s) ->
  fst (get_job_details_with_ollama html url st) = [].
Proof.
  intros Hchat Hm Hc Hj Ht Hns.
  unfold get_job_details_with_ollama. exec_prims. rewrite Hchat.
  cbn [fst snd world rbind].
  rewrite (ollama_decode_parsed _ _ _ _ _ _ Hm Hc Hj).
  unfold absolutize_apply_url. rewrite Ht.
  destruct (dict_get "apply_url" d) as [| | |s| | |]; cbn; try reflexivity.
  exfalso. apply (Hns s). reflexivity.
Qed.

(** A guess without apply URL and without date comes back as the
    model gave it. *)
Theorem plain_guess_returned (html url : string) (st : State W)
    (response message : pyval) (content : string) (d : list (string * pyval)) (w' : W) :
  ollama_chat url (Str.take 8000 html) (world st) = (Ok response, w') ->
  py_getitem response "message" = Ok message ->
  py_getitem message "content" = Ok (PStr content) ->
  json_loads (strip_fences content) = Ok (PDict d) ->
  truthy (dict_get "apply_url" d) = false ->
  truthy (dict_get "date_posted" d) = false ->
  fst (get_job_details_with_ollama html url st) = d.
Proof.
  intros Hchat Hm Hc Hj Ha Hd.
  unfold get_job_details_with_ollama. exec_prims. rewrite Hchat.
  cbn [fst snd world rbind].
  rewrite (ollama_decode_parsed _ _ _ _ _ _ Hm Hc Hj).
  unfold absolutize_apply_url, parse_date_posted. rewrite Ha. cbn [rbind].
  rewrite Hd. reflexivity.
Qed.

Lemma str_take_take n s : Str.take n (Str.take n s) = Str.take n s.
Proof.
  revert s; induction n as [|n IH]; intros [|c s]; cbn; try reflexivity.
  rewrite IH. reflexivity.
Qed.

(** The model is shown the first 8000 characters of the page and
    nothing else of it: cutting the page there changes nothing. *)
Lemma oracle_sees_prefix (html url : string) (st : State W) :
  get_job_details_with_ollama html url st
  = get_job_details_with_ollama (Str.take 8000 html) url st.
Proof.
  unfold get_job_details_with_ollama. rewrite str_take_take. reflexivity.
Qed.

End Guess.

(** * Further properties of the normalizer *)

Lemma str_app_cons c a b : (String c a ++ b)%string = String c (a ++ b)%string.
Proof. reflexivity. Qed.

Lemma str_app_nil b : (EmptyString ++ b)%string = b.
Proof. reflexivity. Qed.

Lemma str_length_app a b :
  String.length (a ++ b)%string = String.length a + String.length b.
Proof.
  induction a as [|c a IH]; [reflexivity|].
  rewrite str_app_cons. cbn [String.length]. rewrite IH. reflexivity.
Qed.

Lemma str_drop_app a b : Str.drop (String.length a) (a ++ b)%string = b.
Proof.
  induction a as [|c a IH]; [destruct b; reflexivity|].
  rewrite str_app_cons. exact IH.
Qed.

Lemma str_take_app a b : Str.take (String.length a) (a ++ b)%string = a.
Proof.
  induction a as [|c a IH]; [destruct b; reflexivity|].
  rewrite str_app_cons. cbn [String.length Str.take]. rewrite IH. reflexivity.
Qed.

Lemma str_app_assoc a b c : ((a ++ b) ++ c = a ++ (b ++ c))%string.
Proof.
  induction a as [|x a IH]; [reflexivity|].
  rewrite !str_app_cons, IH. reflexivity.
Qed.

Lemma str_endswith_app a p : Str.endswith p (a ++ p)%string = true.
Proof.
  unfold Str.endswith. rewrite str_length_app.
  replace (String.length a + String.length p - String.length p) with (String.length a)
    by lia.
  rewrite str_drop_app, String.eqb_refl, andb_true_r.
  apply Nat.leb_le. lia.
Qed.

Lemma str_prefix_app_app a p s :
  String.prefix (a ++ p) (a ++ s) = String.prefix p s.
Proof.
  induction a as [|c a IH]; [reflexivity|].
  rewrite !str_app_cons. cbn -[ascii_dec].
  destruct (ascii_dec c c); [exact IH | congruence].
Qed.

Lemma str_prefix_nil s : String.prefix "" s = true.
Proof. destruct s; reflexivity. Qed.

Lemma str_prefix_app p s : String.prefix p (p ++ s) = true.
Proof.
  rewrite <- (str_prefix_nil s). rewrite <- (str_prefix_app_app p "" s).
  f_equal. induction p as [|c p IH]; [reflexivity|].
  rewrite str_app_cons, <- IH. reflexivity.
Qed.

Lemma str_prefix_app_l a b s :
  String.prefix (a ++ b) s = true -> String.prefix a s = true.
Proof.
  revert s; induction a as [|c a IH]; intros s; [intros _; apply str_prefix_nil|].
  rewrite str_app_cons. destruct s as [|c' s]; cbn -[ascii_dec]; [discriminate|].
  destruct (ascii_dec c c'); [apply IH | discriminate].
Qed.

(** An answer wrapped in a markdown fence, tagged json or not, is
    unwrapped and stripped; an answer that does not start with a fence
    is left as it is. *)
Theorem strip_fences_unwraps (body : string) :
  strip_fences ("```json" ++ body ++ "```") = Str.strip body
  /\ (Str.startswith "json" (body ++ "```") = false ->
      strip_fences ("```" ++ body ++ "```") = Str.strip body)
  /\ (Str.startswith "```" body = false -> strip_fences body = body).
Proof.
  split; [|split].
  - unfold strip_fences, Str.startswith.
    rewrite str_prefix_app.
    rewrite <- str_app_assoc, str_endswith_app, str_app_assoc.
    cbn [andb]. f_equal.
    unfold Str.slice. rewrite str_length_app, str_length_app.
    change (String.length "```json") with 7. change (String.length "```") with 3.
    replace (7 + (String.length body + 3) - 3 - 7) with (String.length body) by lia.
    change 7 with (String.length "```json") at 1.
    rewrite str_drop_app. apply str_take_app.
  - intros Hjson. unfold strip_fences, Str.startswith in *.
    change "```json" with ("```" ++ "json")%string at 1.
    rewrite str_prefix_app_app, Hjson. cbn [andb].
    rewrite str_prefix_app.
    rewrite <- str_app_assoc, str_endswith_app, str_app_assoc.
    cbn [andb]. f_equal.
    unfold Str.slice. rewrite str_length_app, str_length_app.
    change (String.length "```") with 3.
    replace (3 + (String.length body + 3) - 3 - 3) with (String.length body) by lia.
    change 3 with (String.length "```") at 1.
    rewrite str_drop_app. apply str_take_app.
  - intros Hplain. unfold strip_fences, Str.startswith in *.
    destruct (String.prefix "```json" body) eqn:Hjson.
    + change "```json" with ("```" ++ "json")%string in Hjson.
      apply str_prefix_app_l in Hjson. congruence.
    + rewrite Hplain. reflexivity.
Qed.

Section Dates.
Context {W : Type} `{Collab : Collaborators W}.

Lemma int_of_digits_nonneg s acc : (0 <= acc)%Z -> (0 <= Str.int_of_digits acc s)%Z.
Proof.
  revert acc; induction s as [|c s IH]; intros acc Hacc; cbn [Str.int_of_digits];
    [exact Hacc|].
  apply IH. lia.
Qed.

Lemma str_lower_take n s : Str.lower (Str.take n s) = Str.take n (Str.lower s).
Proof.
  revert s; induction n as [|n IH]; intros [|c s]; cbn [Str.take Str.lower];
    try reflexivity.
  rewrite IH. reflexivity.
Qed.

Lemma str_prefix_take p s : String.prefix p s = true -> Str.take (String.length p) s = p.
Proof.
  revert s; induction p as [|c p IH]; intros s; [destruct s; reflexivity|].
  destruct s as [|c' s]; cbn -[ascii_dec]; [discriminate|].
  destruct (ascii_dec c c') as [->|]; [|discriminate].
  intros Hp. rewrite (IH _ Hp). reflexivity.
Qed.

(** The unit a match reports is one of the five, up to case. *)
Lemma unit_at_known units s m r :
  Re.unit_at units s = Some (m, r) -> In (Str.lower m) units.
Proof.
  induction units as [|u us IH]; cbn [Re.unit_at]; [discriminate|].
  destruct (String.prefix u (Str.lower s)) eqn:Hp.
  - intros H; injection H as <- <-. left.
    rewrite str_lower_take. symmetry. apply str_prefix_take. exact Hp.
  - intros H. right. apply IH. exact H.
Qed.

Lemma search_time_ago_unit s ds u :
  Re.search_time_ago s = Some (ds, u) -> In (Str.lower u) Re.time_units.
Proof.
  assert (Hat : forall t, Re.time_ago_at t = Some (ds, u) -> In (Str.lower u) Re.time_units).
  { intros t. unfold Re.time_ago_at.
    destruct (Str.span Str.is_digit t) as [ds' r1].
    destruct (String.eqb ds' ""); [discriminate|].
    destruct (Str.span Str.is_space r1) as [ws r2].
    destruct (String.eqb ws ""); [discriminate|].
    destruct (Re.unit_at Re.time_units r2) as [[m r3]|] eqn:Hu; [|discriminate].
    destruct (_ || _); [|discriminate].
    intros H; injection H as <- <-. apply (unit_at_known _ _ _ _ Hu). }
  induction s as [|c s IH]; cbn [Re.search_time_ago].
  - destruct (Re.time_ago_at "") as [m|] eqn:Hm; [|discriminate].
    intros H; injection H as ->. apply (Hat _ Hm).
  - destruct (Re.time_ago_at (String c s)) as [m|] eqn:Hm.
    + intros H; injection H as ->. apply (Hat _ Hm).
    + exact IH.
Qed.

(** The branches on the unit, as one subtraction. *)
Lemma time_ago_delta (w : W) (num : Z) (unit : string) :
  In unit Re.time_units ->
  (0 <= num)%Z ->
  time_ago w num unit
  = let delta := (num * unit_microseconds unit)%Z in
    if (delta / us_per_day <=? timedelta_max_days)%Z
    then try! t := datetime_sub (now w) delta in Ok (Some t)
    else Raise OverflowError.
Proof.
  intros Hunit Hnum. cbv zeta.
  assert (Hpos : (0 <= num * unit_microseconds unit)%Z).
  { apply Z.mul_nonneg_nonneg; [exact Hnum|].
    cbn in Hunit. destruct Hunit as [<-|[<-|[<-|[<-|[<-|[]]]]]]; vm_compute; discriminate. }
  assert (Hdiv : (0 <= num * unit_microseconds unit / us_per_day)%Z)
    by (apply Z.div_pos; [exact Hpos | reflexivity]).
  unfold time_ago, timedelta.
  cbn in Hunit. destruct Hunit as [<-|[<-|[<-|[<-|[<-|[]]]]]];
    cbn [String.eqb Ascii.eqb Bool.eqb andb] in *;
    match goal with
    | Hp : (0 <= num * unit_microseconds ?U)%Z
      |- context [Z.abs (?us / us_per_day)] =>
        replace us with (num * unit_microseconds U)%Z
        by (unfold unit_microseconds; cbn [String.eqb Ascii.eqb Bool.eqb andb]; ring)
    end;
    unfold unit_microseconds in *; cbn [String.eqb Ascii.eqb Bool.eqb andb] in *;
    rewrite Z.abs_eq by exact Hdiv;
    destruct (_ <=? timedelta_max_days)%Z; reflexivity.
Qed.

Lemma try_formats_value_errors (fmts : list string) (s : string) :
  (forall fmt, In fmt fmts -> strptime s fmt = Raise ValueError) ->
  try_formats fmts (PStr s) = Ok None.
Proof.
  induction fmts as [|fmt rest IH]; intros Hall; cbn [try_formats py_strptime];
    [reflexivity|].
  rewrite (Hall fmt) by (left; reflexivity).
  apply IH. intros f Hf. apply Hall. right. exact Hf.
Qed.

(** A string that no format parses and in which the relative pattern is
    found is handled by the branches on the unit. *)
Lemma parse_date_string_relative (w : W) (s ds u : string) :
  (forall fmt, In fmt date_formats -> strptime s fmt = Raise ValueError) ->
  Re.search_time_ago s = Some (ds, u) ->
  parse_date_string w (PStr s)
  = except_Exception (time_ago w (Str.int_of_digits 0 ds) (Str.lower u))
                     (fun _ => Ok None).
Proof.
  intros Hfmt Hre. unfold parse_date_string.
  destruct s as [|c s]; [discriminate Hre|]. cbn [truthy String.eqb negb].
  unfold parse_date_body. rewrite (try_formats_value_errors _ _ Hfmt).
  cbn [rbind py_search_time_ago]. rewrite Hre. reflexivity.
Qed.

(** A relative date is the clock minus the count times the unit, a
    month being 30 days and a year 365, whenever that moment exists. *)
Theorem parse_date_relative (w : W) (s ds u : string) :
  (forall fmt, In fmt date_formats -> strptime s fmt = Raise ValueError) ->
  Re.search_time_ago s = Some (ds, u) ->
  let delta := (Str.int_of_digits 0 ds * unit_microseconds (Str.lower u))%Z in
  (delta / us_per_day <= timedelta_max_days)%Z ->
  (delta <= now w)%Z ->
  (now w < datetime_end)%Z ->
  parse_date_string w (PStr s) = Ok (Some (now w - delta)%Z).
Proof.
  intros Hfmt Hre delta Hmax Hpast Hnow.
  rewrite (parse_date_string_relative _ _ _ _ Hfmt Hre).
  pose proof (int_of_digits_nonneg ds 0 (Z.le_refl 0)) as Hnum.
  rewrite (time_ago_delta _ _ _ (search_time_ago_unit _ _ _ Hre) Hnum).
  cbv zeta. fold delta.
  assert (Hdelta : (0 <= delta)%Z).
  { apply Z.mul_nonneg_nonneg; [exact Hnum|].
    pose proof (search_time_ago_unit _ _ _ Hre) as Hunit. cbn in Hunit.
    destruct Hunit as [<-|[<-|[<-|[<-|[<-|[]]]]]]; vm_compute; discriminate. }
  destruct (Z.leb_spec (delta / us_per_day) timedelta_max_days); [|lia].
  unfold datetime_sub.
  destruct (Z.leb_spec 0 (now w - delta)); [|lia].
  destruct (Z.ltb_spec (now w - delta) datetime_end); [|lia].
  reflexivity.
Qed.

(** A relative date too far back, for [timedelta] or for the calendar,
    gives no date: the overflow is caught. *)
Theorem parse_date_out_of_range (w : W) (s ds u : string) :
  (forall fmt, In fmt date_formats -> strptime s fmt = Raise ValueError) ->
  Re.search_time_ago s = Some (ds, u) ->
  let delta := (Str.int_of_digits 0 ds * unit_microseconds (Str.lower u))%Z in
  (timedelta_max_days < delta / us_per_day \/ now w < delta)%Z ->
  parse_date_string w (PStr s) = Ok None.
Proof.
  intros Hfmt Hre delta Hfar.
  rewrite (parse_date_string_relative _ _ _ _ Hfmt Hre).
  pose proof (int_of_digits_nonneg ds 0 (Z.le_refl 0)) as Hnum.
  rewrite (time_ago_delta _ _ _ (search_time_ago_unit _ _ _ Hre) Hnum).
  cbv zeta. fold delta.
  destruct (Z.leb_spec (delta / us_per_day) timedelta_max_days); [|reflexivity].
  unfold datetime_sub.
  destruct (Z.leb_spec 0 (now w - delta)); [lia|].
  reflexivity.
Qed.

(** The formats are tried in their order and the first that parses
    decides: a later format is not looked at. *)
Theorem parse_date_first_format (w : W) (s : string) (tried : list string)
    (fmt : string) (later : list string) (t : datetime) :
  date_formats = tried ++ fmt :: later ->
  (forall f, In f tried -> strptime s f = Raise ValueError) ->
  strptime s fmt = Ok t ->
  s <> "" ->
  parse_date_string w (PStr s) = Ok (Some t).
Proof.
  intros Hsplit Htried Hfmt Hs.
  unfold parse_date_string. cbn [truthy].
  destruct (String.eqb_spec s ""); [contradiction|]. cbn [negb].
  unfold parse_date_body. rewrite Hsplit.
  assert (Hrun : try_formats (tried ++ fmt :: later) (PStr s) = Ok (Some t)).
  { clear Hsplit. induction tried as [|f0 rest IH]; cbn [app try_formats py_strptime].
    - rewrite Hfmt. reflexivity.
    - rewrite (Htried f0) by (left; reflexivity).
      apply IH. intros f Hf. apply Htried. right. exact Hf. }
  rewrite Hrun. reflexivity.
Qed.

End Dates.

(** * Further properties of the link classifier and of the sink *)

Section LinksAndSink.
Context {W : Type} `{Collab : Collaborators W}.

(** A link that [_extract_links] returns is an anchor of the page,
    resolved against the base URL, and has not been visited. *)
Theorem extract_links_fresh (html_content base_url : string) (st : State W) :
  Forall (fun u => (u ∉ visited_urls st)
                   /\ (exists href, In href (find_all_a_href (BeautifulSoup html_content))
                                    /\ u = urljoin base_url href))
         (fst (_extract_links html_content base_url st)).
Proof.
  unfold _extract_links, bind, get, ret; cbn [fst snd].
  rewrite extract_links_fold; cbn [app].
  apply Forall_take. apply List.Forall_forall. intros u Hu.
  apply List.filter_In in Hu. destruct Hu as [Hin Hacc].
  split.
  - unfold link_accepted in Hacc.
    apply andb_true_iff in Hacc. destruct Hacc as [Hacc _].
    apply andb_true_iff in Hacc. destruct Hacc as [_ Hnew].
    apply negb_true_iff, bool_decide_eq_false in Hnew. exact Hnew.
  - apply List.in_map_iff in Hin. destruct Hin as (href & <- & Hhref).
    exists href. split; [exact Hhref | reflexivity].
Qed.

(** A record that validation refuses is not posted: the push returns
    [False] without a call to the endpoint. *)
Theorem invalid_record_not_posted (job : JobData) (st : State W) (e : exn) :
  JobPostingAPI_init (job_title job) (job_description job)
                     (py_str (apply_url job))
                     (company_image job) (date_posted job) = Raise e ->
  let '(pushed_ok, st') := push_job_to_api job st in
  pushed_ok = false
  /\ world st' = world st
  /\ posted (log st') = posted (log st).
Proof.
  intros Hinvalid. unfold push_job_to_api. rewrite Hinvalid.
  exec_prims. cbn. repeat split; reflexivity.
Qed.

End LinksAndSink.

(** * The further properties on the sample collaborators *)

Lemma fetch_page_static_only_witness :
  let collab := Sample.collaborators Sample.endpoint_down_script in
  let '(html_content, st') := @_fetch_page Z collab Sample.job_url (init false 0%Z) in
  html_content = Some "<posting>" /\ rendered (log st') = [].
Proof.
  cbv zeta.
  pose proof (@fetch_page_static_only Z
                (Sample.collaborators Sample.endpoint_down_script)
                Sample.job_url (init false 0%Z) eq_refl) as H.
  destruct (@_fetch_page Z (Sample.collaborators Sample.endpoint_down_script)
              Sample.job_url (init false 0%Z)) as [html_content st'].
  destruct H as (Hh & _ & Hr & _). split; [exact Hh | exact Hr].
Defined.

Lemma fetch_page_never_shorter_witness :
  let collab := Sample.collaborators Fixtures.placeholder_script in
  exists html',
    fst (@_fetch_page Z collab Sample.job_url (init true 0%Z)) = Some html'
    /\ (html' = "<html>loading</html>"
        \/ String.length "<html>loading</html>" < String.length html').
Proof.
  cbv zeta.
  apply (@fetch_page_never_shorter Z (Sample.collaborators Fixtures.placeholder_script)
           Sample.job_url (init true 0%Z) "<html>loading</html>").
  - reflexivity.
  - discriminate.
Defined.

Lemma fetch_page_substantial_static_witness :
  let collab := Sample.collaborators Fixtures.substantial_script in
  let '(html_content, st') := @_fetch_page Z collab Sample.job_url (init true 0%Z) in
  html_content = Some Fixtures.substantial_page /\ driver st' = false.
Proof.
  cbv zeta.
  pose proof (@fetch_page_substantial_static Z
                (Sample.collaborators Fixtures.substantial_script)
                Sample.job_url (init true 0%Z) Fixtures.substantial_page
                eq_refl ltac:(vm_compute; reflexivity)) as H.
  destruct (@_fetch_page Z (Sample.collaborators Fixtures.substantial_script)
              Sample.job_url (init true 0%Z)) as [html_content st'].
  destruct H as (Hh & _ & Hd & _). split; [exact Hh | exact Hd].
Defined.

Lemma fetch_page_tier_counts_witness :
  let collab := Sample.collaborators Fixtures.placeholder_script in
  length (rendered (log (snd (@_fetch_page Z collab Sample.job_url (init true 0%Z)))))
  <= 1.
Proof.
  cbv zeta.
  destruct (@fetch_page_tier_counts Z (Sample.collaborators Fixtures.placeholder_script)
              Sample.job_url (init true 0%Z)) as (_ & _ & Hone).
  apply Hone. reflexivity.
Defined.

Lemma selenium_driver_lifecycle_witness :
  let collab := Sample.collaborators Fixtures.no_browser_script in
  let '(html_content, st') :=
    @_fetch_page_selenium Z collab Sample.job_url (init true 0%Z) in
  html_content = None /\ use_selenium st' = false.
Proof.
  cbv zeta.
  destruct (@selenium_driver_lifecycle Z (Sample.collaborators Fixtures.no_browser_script)
              Sample.job_url (init true 0%Z)) as [_ Hfail].
  specialize (Hfail eq_refl eq_refl).
  destruct (@_fetch_page_selenium Z (Sample.collaborators Fixtures.no_browser_script)
              Sample.job_url (init true 0%Z)) as [html_content st'].
  destruct Hfail as (Hh & Hu & _). split; [exact Hh | exact Hu].
Defined.

Lemma enqueue_links_admission_witness :
  let collab := Sample.collaborators Sample.listing_script in
  let st := start_domain Sample.listing_url (init false 0%Z) in
  let links := ["https://example.com/jobs/1"; "https://example.com/jobs/2";
                "https://example.com/jobs/1"] in
  "https://example.com/jobs/2" ∈ visited_urls (snd (@enqueue_links Z links st)).
Proof.
  cbv zeta.
  destruct (@enqueue_links_admission Z
              ["https://example.com/jobs/1"; "https://example.com/jobs/2";
               "https://example.com/jobs/1"]
              (start_domain Sample.listing_url (init false 0%Z)))
    as (added & _ & _ & _ & _ & _ & _ & Hroom).
  apply Hroom; [cbn; lia|].
  set_solver.
Defined.

(** A pass over the listing site, as turns of the loop. *)
Lemma listing_pass_turns :
  exists n pages jobs final,
    @turns Z (Sample.collaborators Sample.listing_script) n
           (0, 0, start_domain Sample.listing_url (init false 0%Z))
           (pages, jobs, final).
Proof.
  destruct (@crawl_while_total Z (Sample.collaborators Sample.listing_script)
              max_pages_per_domain 0 0
              (start_domain Sample.listing_url (init false 0%Z)))
    as [[[pages jobs] final] Hrun]; [lia|].
  destruct (crawl_while_turns _ _ _ _ _ Hrun) as (n & Hturns & _).
  exists n, pages, jobs, final. exact Hturns.
Defined.

Lemma frontier_bounded_witness :
  exists n pages jobs final,
    @turns Z (Sample.collaborators Sample.listing_script) n
           (0, 0, start_domain Sample.listing_url (init false 0%Z))
           (pages, jobs, final)
    /\ length (queue final) <= 50.
Proof.
  destruct listing_pass_turns as (n & pages & jobs & final & Hturns).
  exists n, pages, jobs, final. split; [exact Hturns|].
  exact (@frontier_bounded Z (Sample.collaborators Sample.listing_script)
           Sample.listing_url (init false 0%Z) n pages jobs final Hturns).
Defined.

Lemma visited_only_grows_witness :
  exists n pages jobs final,
    @turns Z (Sample.collaborators Sample.listing_script) n
           (0, 0, start_domain Sample.listing_url (init false 0%Z))
           (pages, jobs, final)
    /\ Sample.listing_url ∈ visited_urls final.
Proof.
  destruct listing_pass_turns as (n & pages & jobs & final & Hturns).
  exists n, pages, jobs, final. split; [exact Hturns|].
  apply (@visited_only_grows Z (Sample.collaborators Sample.listing_script)
           n _ _ Hturns).
  cbn. set_solver.
Defined.

Lemma breadth_first_order_witness :
  exists n pages jobs final,
    @turns Z (Sample.collaborators Sample.listing_script) n
           (0, 0, start_domain Sample.listing_url (init false 0%Z))
           (pages, jobs, final)
    /\ [Sample.listing_url] `prefix_of` rev (fetched (log final)) ++ queue final.
Proof.
  destruct listing_pass_turns as (n & pages & jobs & final & Hturns).
  exists n, pages, jobs, final. split; [exact Hturns|].
  exact (@breadth_first_order Z (Sample.collaborators Sample.listing_script)
           n 0 0 pages jobs _ final Hturns).
Defined.

Lemma successful_jobs_counted_witness :
  exists pages jobs final kept,
    @crawl_domain Z (Sample.collaborators Sample.posting_script)
                  max_pages_per_domain Sample.job_url (init false 0%Z)
    = Some (pages, jobs, final)
    /\ scraped_jobs final = kept
    /\ length kept = jobs.
Proof.
  destruct (@crawl_while_total Z (Sample.collaborators Sample.posting_script)
              max_pages_per_domain 0 0
              (start_domain Sample.job_url (init false 0%Z)))
    as [[[pages jobs] final] Hrun]; [lia|].
  destruct (@successful_jobs_counted Z (Sample.collaborators Sample.posting_script)
              max_pages_per_domain Sample.job_url (init false 0%Z) pages jobs final Hrun)
    as (kept & Hs & Hlen).
  exists pages, jobs, final, kept. split; [exact Hrun|]. split; [exact Hs | exact Hlen].
Defined.

Lemma crawl_only_appends_witness :
  exists final,
    @crawl Z (Sample.collaborators Sample.posting_script) max_pages_per_domain
           [Sample.job_url; Sample.listing_url] (init false 0%Z) = Some final
    /\ [] `prefix_of` scraped_jobs final.
Proof.
  destruct (@crawl_total Z (Sample.collaborators Sample.posting_script)
              max_pages_per_domain [Sample.job_url; Sample.listing_url]
              (init false 0%Z) (le_n _)) as [final Hrun].
  exists final. split; [exact Hrun|].
  exact (@crawl_only_appends Z (Sample.collaborators Sample.posting_script)
           _ _ _ _ Hrun).
Defined.

Lemma crawl_without_selenium_witness :
  exists final,
    @crawl Z (Sample.collaborators Sample.listing_script) max_pages_per_domain
           [Sample.listing_url] (init false 0%Z) = Some final
    /\ rendered (log final) = []
    /\ driver final = false.
Proof.
  destruct (@crawl_total Z (Sample.collaborators Sample.listing_script)
              max_pages_per_domain [Sample.listing_url]
              (init false 0%Z) (le_n _)) as [final Hrun].
  exists final. split; [exact Hrun|].
  destruct (@crawl_without_selenium Z (Sample.collaborators Sample.listing_script)
              _ _ _ _ Hrun eq_refl) as (Hr & _ & Hd).
  split; [exact Hr | exact Hd].
Defined.



Lemma structural_fields_kept_witness :
  let collab := Sample.collaborators Sample.posting_script in
  exists job,
    fst (@_parse_job_page Z collab "<posting>" Sample.job_url (init true 0%Z)) = Some job
    /\ job_title job = PStr "Platform Engineer".
Proof.
  cbv zeta.
  destruct (fst (@_parse_job_page Z (Sample.collaborators Sample.posting_script)
                   "<posting>" Sample.job_url (init true 0%Z)))
    as [job|] eqn:Hjob; [|vm_compute in Hjob; discriminate Hjob].
  exists job. split; [reflexivity|].
  destruct (@structural_fields_kept Z (Sample.collaborators Sample.posting_script)
              "<posting>" Sample.job_url (init true 0%Z) job Hjob) as (Htitle & _).
  rewrite Htitle by (vm_compute; reflexivity).
  vm_compute. reflexivity.
Defined.

Lemma malformed_apply_url_discards_guess_witness :
  let collab := Sample.collaborators Fixtures.numbered_guess_script in
  fst (@get_job_details_with_ollama Z collab "<empty>" Sample.job_url (init true 0%Z))
  = [].
Proof.
  cbv zeta.
  apply (@malformed_apply_url_discards_guess Z
           (Sample.collaborators Fixtures.numbered_guess_script)
           "<empty>" Sample.job_url (init true 0%Z)
           (Sample.chat_response "guess")
           (PDict [("role", PStr "assistant"); ("content", PStr "guess")])
           "guess" Fixtures.numbered_guess 0%Z);
    try reflexivity.
  intros s. discriminate.
Defined.

Lemma plain_guess_returned_witness :
  let collab := Sample.collaborators Sample.heading_script in
  fst (@get_job_details_with_ollama Z collab "<heading>" Sample.job_url (init true 0%Z))
  = [("job_description", PStr Sample.long_description)].
Proof.
  cbv zeta.
  apply (@plain_guess_returned Z (Sample.collaborators Sample.heading_script)
           "<heading>" Sample.job_url (init true 0%Z)
           (Sample.chat_response "guess")
           (PDict [("role", PStr "assistant"); ("content", PStr "guess")])
           "guess" [("job_description", PStr Sample.long_description)] 0%Z);
    reflexivity.
Defined.

Lemma strip_fences_unwraps_witness :
  strip_fences ("```" ++ " {} " ++ "```") = "{}" /\ strip_fences "{}" = "{}".
Proof.
  destruct (strip_fences_unwraps " {} ") as (_ & Hbare & _).
  destruct (strip_fences_unwraps "{}") as (_ & _ & Hplain).
  split.
  - rewrite (Hbare eq_refl). reflexivity.
  - apply Hplain. reflexivity.
Defined.

Lemma parse_date_relative_witness :
  @parse_date_string Z (Sample.collaborators Sample.dated_script)
     Sample.jan_15_2024 (PStr "Posted 2 Weeks ago")
  = Ok (Some (Sample.jan_15_2024 - 14 * us_per_day)%Z).
Proof.
  rewrite (@parse_date_relative Z (Sample.collaborators Sample.dated_script)
             Sample.jan_15_2024 "Posted 2 Weeks ago" "2" "Week").
  - vm_compute. reflexivity.
  - intros fmt _. reflexivity.
  - reflexivity.
  - vm_compute. discriminate.
  - vm_compute. discriminate.
  - vm_compute. reflexivity.
Defined.

Lemma parse_date_out_of_range_witness :
  @parse_date_string Z (Sample.collaborators Sample.dated_script)
     Sample.jan_15_2024 (PStr "3000 years ago")
  = Ok None.
Proof.
  apply (@parse_date_out_of_range Z (Sample.collaborators Sample.dated_script)
           Sample.jan_15_2024 "3000 years ago" "3000" "year").
  - intros fmt _. reflexivity.
  - reflexivity.
  - right. vm_compute. reflexivity.
Defined.

Lemma parse_date_first_format_witness :
  @parse_date_string Z (Sample.collaborators Fixtures.ambiguous_script)
     0%Z (PStr "01/02/2024")
  = Ok (Some Fixtures.jan_2_2024).
Proof.
  apply (@parse_date_first_format Z (Sample.collaborators Fixtures.ambiguous_script)
           0%Z "01/02/2024" ["%Y-%m-%d"; "%B %d, %Y"; "%d %B %Y"] "%m/%d/%Y"
           ["%d/%m/%Y"]).
  - reflexivity.
  - intros f Hf. cbn in Hf. destruct Hf as [<-|[<-|[<-|[]]]]; reflexivity.
  - reflexivity.
  - discriminate.
Defined.

Lemma invalid_record_not_posted_witness :
  let collab := Sample.collaborators Sample.posting_script in
  let '(pushed_ok, st') := @push_job_to_api Z collab Fixtures.numbered_job (init true 0%Z) in
  pushed_ok = false /\ posted (log st') = [].
Proof.
  cbv zeta.
  pose proof (@invalid_record_not_posted Z (Sample.collaborators Sample.posting_script)
                Fixtures.numbered_job (init true 0%Z) ValidationError eq_refl) as H.
  destruct (@push_job_to_api Z (Sample.collaborators Sample.posting_script)
              Fixtures.numbered_job (init true 0%Z)) as [pushed_ok st'].
  destruct H as (Hok & _ & Hposted). split; [exact Hok | exact Hposted].
Defined.

(** * Runs in which urllib raises *)

Section RaisingFacts.
Context {W : Type} `{Collab : Collaborators W} `{Errors : UrlErrors}.

(** What the loop over link selectors returns: nothing when no
    selector finds a link; otherwise the link of the first selector
    that finds one, resolved, or the exception of resolving it. *)
Lemma first_link_x_spec soup url attr selectors :
  (first_link_x soup url attr selectors = Ok PNone
   /\ forall t v, In t selectors -> ~ links_to soup attr t v)
  \/ exists selector v,
       first_linking soup attr selectors selector v
       /\ first_link_x soup url attr selectors
          = (try! absolute := py_urljoin url v in Ok (PStr absolute)).
Proof.
  induction selectors as [|sel rest IH]; cbn [first_link_x].
  - left. split; [reflexivity|]. intros t v [].
  - assert (Hnext : (forall v, ~ links_to soup attr sel v) ->
                    (first_link_x soup url attr rest = Ok PNone
                     /\ forall t v, In t (sel :: rest) -> ~ links_to soup attr t v)
                    \/ exists selector v,
                         first_linking soup attr (sel :: rest) selector v
                         /\ first_link_x soup url attr rest
                            = (try! absolute := py_urljoin url v in Ok (PStr absolute))).
    { intros Hnone. destruct IH as [[Hr Hall]|(selector & v & Hfirst & Hr)].
      - left. split; [exact Hr|]. intros t v [<-|Ht]; [apply Hnone | apply Hall; exact Ht].
      - right. exists selector, v. split; [|exact Hr].
        destruct Hfirst as (tried & later & -> & Htried & Hlink).
        exists (sel :: tried), later. split; [reflexivity|]. split; [|exact Hlink].
        intros t v' [<-|Ht]; [apply Hnone | apply Htried; exact Ht]. }
    destruct (select_one soup sel) as [elem|] eqn:Hsel.
    2:{ apply Hnext. intros v (e & He & _). congruence. }
    destruct (tag_get attr (tag_attrs elem)) as [v|] eqn:Hattr.
    2:{ apply Hnext. intros v (e & He & Ha & _). congruence. }
    destruct (String.eqb_spec v "") as [->|Hv]; cbn [negb].
    + apply Hnext. intros v (e & He & Ha & Hne). apply Hne. congruence.
    + right. exists sel, v. split; [|reflexivity].
      exists [], rest. split; [reflexivity|]. split; [intros t v' []|].
      exists elem. repeat split; assumption.
Qed.

(** A record comes out of the structural pass and a merge. *)
Lemma parse_job_page_x_record html url (st st' : State W) job :
  _parse_job_page_x html url st = (Ok (Some job), st') ->
  exists found ollama_data,
    structural_pass_x html url = Ok found
    /\ job = merge found ollama_data.
Proof.
  unfold _parse_job_page_x, extraction_passes_x, bind, ret.
  destruct (structural_pass_x html url) as [found|e]; [|discriminate].
  destruct (mandatory_missing found).
  - destruct (get_job_details_with_ollama_x html url st) as [guess st1].
    destruct (negb (complete (merge found guess))); [discriminate|].
    intros H; injection H as <- <-. exists found, guess. split; reflexivity.
  - destruct (negb (complete found)); [discriminate|].
    intros H; injection H as <- <-. exists found, []. rewrite merge_nothing.
    split; reflexivity.
Qed.

(** For a page with a URL, the apply URL of a returned record is a
    non-empty string: the URL of the page when no apply selector finds
    a link, and otherwise the link of the first apply selector that
    finds one, resolved against the page URL (the page URL again should
    it resolve to the empty string). *)
Theorem apply_url_is_page_or_link (html url : string) (st st' : State W)
    (job : JobData) :
  url <> "" ->
  _parse_job_page_x html url st = (Ok (Some job), st') ->
  exists s,
    apply_url job = PStr s
    /\ s <> ""
    /\ ((s = url
         /\ forall t v, In t apply_selectors ->
                        ~ links_to (BeautifulSoup html) "href" t v)
        \/ exists selector href,
             first_linking (BeautifulSoup html) "href" apply_selectors selector href
             /\ urljoin_raises url href = None
             /\ s = (if String.eqb (urljoin url href) "" then url
                     else urljoin url href)).
Proof.
  intros Hurl Hjob.
  destruct (parse_job_page_x_record _ _ _ _ _ Hjob) as (found & guess & Hfound & ->).
  unfold structural_pass_x in Hfound.
  destruct (first_link_x_spec (BeautifulSoup html) url "href" apply_selectors)
    as [[Hr Hall]|(selector & href & Hfirst & Hr)]; rewrite Hr in Hfound;
    cbn [rbind] in Hfound.
  - destruct (first_link_x (BeautifulSoup html) url "src" img_selectors) as [image|];
      cbn [rbind] in Hfound; [|discriminate Hfound].
    injection Hfound as <-. unfold merge, fill. cbn [apply_url truthy negb].
    destruct (String.eqb_spec url ""); [contradiction|]. cbn [negb andb].
    exists url. split; [reflexivity|]. split; [exact Hurl|]. left.
    split; [reflexivity | exact Hall].
  - unfold py_urljoin in Hfound.
    destruct (urljoin_raises url href) eqn:Hraise; cbn [rbind] in Hfound;
      [discriminate Hfound|].
    destruct (first_link_x (BeautifulSoup html) url "src" img_selectors) as [image|];
      cbn [rbind] in Hfound; [|discriminate Hfound].
    injection Hfound as <-. unfold merge, fill. cbn [apply_url truthy].
    destruct (String.eqb_spec (urljoin url href) "") as [Hempty|Hfull]; cbn [negb].
    + cbn [truthy]. destruct (String.eqb_spec url ""); [contradiction|]. cbn [negb andb].
      exists url. split; [reflexivity|]. split; [exact Hurl|]. right.
      exists selector, href. split; [exact Hfirst|]. split; [exact Hraise|].
      rewrite Hempty. reflexivity.
    + cbn [truthy]. destruct (String.eqb_spec (urljoin url href) ""); [contradiction|].
      cbn [negb andb].
      exists (urljoin url href). split; [reflexivity|]. split; [exact Hfull|]. right.
      exists selector, href. split; [exact Hfirst|]. split; [exact Hraise|].
      destruct (String.eqb_spec (urljoin url href) ""); [contradiction|reflexivity].
Qed.

End RaisingFacts.

(** ** Where urllib does not raise

    With no call of urllib raising, the functions that let the
    exception through compute what the functions above compute. *)

Section NoUrlErrors.
Context {W : Type} `{Collab : Collaborators W} `{Errors : UrlErrors}.
Hypothesis join_returns : forall base url, urljoin_raises base url = None.
Hypothesis parse_returns : forall url, urlparse_raises url = None.

Lemma py_urljoin_returns base url : py_urljoin base url = Ok (urljoin base url).
Proof. unfold py_urljoin. rewrite join_returns. reflexivity. Qed.

Lemma py_urlparse_returns url : py_urlparse url = Ok (urlparse url).
Proof. unfold py_urlparse. rewrite parse_returns. reflexivity. Qed.

Lemma first_link_x_returns soup url attr selectors :
  first_link_x soup url attr selectors = Ok (first_link soup url attr selectors).
Proof.
  induction selectors as [|sel rest IH]; cbn [first_link_x first_link]; [reflexivity|].
  destruct (select_one soup sel) as [elem|]; [|exact IH].
  destruct (tag_get attr (tag_attrs elem)) as [v|]; [|exact IH].
  destruct (negb (String.eqb v "")); [|exact IH].
  rewrite py_urljoin_returns. reflexivity.
Qed.

Lemma structural_pass_x_returns html url :
  structural_pass_x html url = Ok (structural_pass html url).
Proof.
  unfold structural_pass_x, structural_pass.
  rewrite !first_link_x_returns. reflexivity.
Qed.

Lemma absolutize_apply_url_x_returns url parsed_data :
  absolutize_apply_url_x url parsed_data = absolutize_apply_url url parsed_data.
Proof.
  unfold absolutize_apply_url_x, absolutize_apply_url.
  destruct (truthy (dict_get "apply_url" parsed_data)); [|reflexivity].
  destruct (py_as_str (dict_get "apply_url" parsed_data)) as [s|e]; [|reflexivity].
  cbn [rbind]. destruct (negb _); [|reflexivity].
  rewrite py_urljoin_returns. reflexivity.
Qed.

Lemma ollama_decode_x_returns w url response_data :
  ollama_decode_x w url response_data = ollama_decode w url response_data.
Proof.
  unfold ollama_decode_x, ollama_decode.
  repeat match goal with
         | |- rbind ?r _ = rbind ?r _ => destruct r; cbn [rbind]; [|reflexivity]
         | |- (if ?b then _ else _) = (if ?b then _ else _) => destruct b; [|reflexivity]
         end.
  rewrite absolutize_apply_url_x_returns. reflexivity.
Qed.

Lemma get_job_details_with_ollama_x_returns html url (st : State W) :
  get_job_details_with_ollama_x html url st = get_job_details_with_ollama html url st.
Proof.
  unfold get_job_details_with_ollama_x, get_job_details_with_ollama. exec_prims.
  destruct (ollama_chat url (Str.take 8000 html) (world st)) as [[response|e] w'];
    cbn [rbind world]; [|reflexivity].
  rewrite ollama_decode_x_returns. reflexivity.
Qed.

Lemma parse_job_page_x_returns html url (st : State W) :
  _parse_job_page_x html url st
  = (Ok (fst (_parse_job_page html url st)), snd (_parse_job_page html url st)).
Proof.
  unfold _parse_job_page_x, _parse_job_page, extraction_passes_x, extraction_passes.
  rewrite structural_pass_x_returns. unfold bind, ret.
  destruct (mandatory_missing (structural_pass html url)).
  - rewrite get_job_details_with_ollama_x_returns.
    destruct (get_job_details_with_ollama html url st) as [guess st1].
    destruct (negb (complete (merge (structural_pass html url) guess))); reflexivity.
  - destruct (negb (complete (structural_pass html url))); reflexivity.
Qed.

Lemma extract_links_loop_x_returns visited base_url base_domain hrefs links :
  extract_links_loop_x visited base_url base_domain hrefs links
  = Ok (fold_left (extract_links_step visited base_url base_domain) hrefs links).
Proof.
  revert links; induction hrefs as [|href rest IH]; intros links;
    cbn [extract_links_loop_x fold_left]; [reflexivity|].
  unfold extract_links_step_x at 1.
  rewrite py_urljoin_returns. cbn [rbind].
  rewrite py_urlparse_returns. cbn [rbind].
  apply IH.
Qed.

Lemma extract_links_x_returns html base_url (st : State W) :
  _extract_links_x html base_url st
  = (Ok (fst (_extract_links html base_url st)), st).
Proof.
  unfold _extract_links_x, _extract_links. rewrite py_urlparse_returns.
  unfold bind, get, ret. rewrite extract_links_loop_x_returns. reflexivity.
Qed.

Lemma crawl_body_x_returns url pc sj (st : State W) :
  crawl_body_x url pc sj st
  = (let '((pc', sj'), st') := crawl_body url pc sj st in ((None, pc', sj'), st')).
Proof.
  unfold crawl_body_x, crawl_body, bind, ret.
  destruct (_fetch_page url st) as [[html|] st1]; [|reflexivity].
  destruct (nonempty (Some html)); [|reflexivity].
  rewrite parse_job_page_x_returns.
  destruct (_parse_job_page html url st1) as [job_data st2]. cbn [fst snd].
  destruct (match job_data with
            | Some job => deliver job sj
            | None => fun st => (sj, st)
            end st2) as [sj' st3].
  rewrite extract_links_x_returns.
  destruct (_extract_links html url st3) as [new_links st4] eqn:Hlinks.
  assert (st4 = st3) as ->.
  { change st4 with (snd (new_links, st4)). rewrite <- Hlinks. reflexivity. }
  cbn [fst]. destruct (enqueue_links new_links st3) as [[] st5]. reflexivity.
Qed.

(** The loop that lets the exception through is the loop above. *)
Lemma crawl_while_x_returns fuel pc sj (st : State W) :
  crawl_while_x fuel pc sj st
  = match crawl_while fuel pc sj st with
    | Some (pc', sj', st') => Some (None, pc', sj', st')
    | None => None
    end.
Proof.
  revert pc sj st; induction fuel as [|fuel IH]; intros pc sj st;
    cbn [crawl_while_x crawl_while];
    destruct (queue st) as [|url rest]; try reflexivity;
    destruct (pc <? max_pages_per_domain)%nat; try reflexivity.
  rewrite crawl_body_x_returns.
  destruct (crawl_body url pc sj (set_queue rest st)) as [[pc' sj'] st'].
  apply IH.
Qed.

Lemma crawl_domain_x_returns fuel start_url (st : State W) :
  crawl_domain_x fuel start_url st
  = match crawl_domain fuel start_url st with
    | Some (pc', sj', st') => Some (None, pc', sj', st')
    | None => None
    end.
Proof.
  unfold crawl_domain_x, crawl_domain. rewrite py_urlparse_returns.
  apply crawl_while_x_returns.
Qed.

End NoUrlErrors.

(** ** The loop that an exception can leave *)

Section RaisingLoop.
Context {W : Type} `{Collab : Collaborators W} `{Errors : UrlErrors}.

Lemma ollama_x_fetched html url (st : State W) :
  fetched (log (snd (get_job_details_with_ollama_x html url st))) = fetched (log st).
Proof.
  unfold get_job_details_with_ollama_x. exec_prims.
  destruct (ollama_chat url (Str.take 8000 html) (world st)) as [response w'].
  cbn [world].
  destruct (try! response_data := response in ollama_decode_x w' url response_data);
    reflexivity.
Qed.

Lemma parse_job_page_x_fetched html url (st : State W) :
  fetched (log (snd (_parse_job_page_x html url st))) = fetched (log st).
Proof.
  unfold _parse_job_page_x, extraction_passes_x, bind, ret.
  destruct (structural_pass_x html url) as [found|e]; [|reflexivity].
  destruct (mandatory_missing found).
  - pose proof (ollama_x_fetched html url st) as Ho.
    destruct (get_job_details_with_ollama_x html url st) as [guess st1].
    destruct (negb (complete (merge found guess))); exact Ho.
  - destruct (negb (complete found)); reflexivity.
Qed.

Lemma extract_links_x_reads_only html base_url (st : State W) :
  snd (_extract_links_x html base_url st) = st.
Proof.
  unfold _extract_links_x. destruct (py_urlparse base_url); reflexivity.
Qed.

(** One turn: the popped URL is fetched, and counted unless an
    exception leaves the turn. *)
Lemma crawl_body_x_effect url pc sj (st : State W) raised pc' sj' st' :
  crawl_body_x url pc sj st = ((raised, pc', sj'), st') ->
  fetched (log st') = url :: fetched (log st)
  /\ pc' = match raised with Some _ => pc | None => pc + 1 end.
Proof.
  unfold crawl_body_x, bind, ret.
  pose proof (fetch_page_effect url st) as Hf. cbv zeta in Hf.
  destruct (_fetch_page url st) as [[html|] st1]; cbn [snd] in Hf;
    destruct Hf as (_ & Hf & _).
  2:{ intros H; injection H as <- <- <- <-. split; [exact Hf | reflexivity]. }
  destruct (nonempty (Some html)).
  2:{ intros H; injection H as <- <- <- <-. split; [exact Hf | reflexivity]. }
  pose proof (parse_job_page_x_fetched html url st1) as Hp.
  destruct (_parse_job_page_x html url st1) as [[job_data|e] st2]; cbn [snd] in Hp.
  2:{ intros H; injection H as <- <- <- <-. split; [congruence | reflexivity]. }
  assert (Hd : forall sj2 st3,
             match job_data with
             | Some job => deliver job sj
             | None => fun st => (sj, st)
             end st2 = (sj2, st3) ->
             fetched (log st3) = fetched (log st2)).
  { destruct job_data as [job|]; intros sj2 st3 H.
    - pose proof (deliver_effect job sj st2) as Hd. rewrite H in Hd.
      destruct Hd as (_ & _ & Hd & _). exact Hd.
    - injection H as <- <-. reflexivity. }
  destruct (match job_data with
            | Some job => deliver job sj
            | None => fun st => (sj, st)
            end st2) as [sj2 st3].
  specialize (Hd sj2 st3 eq_refl).
  pose proof (extract_links_x_reads_only html url st3) as Hx.
  destruct (_extract_links_x html url st3) as [[new_links|e] st4]; cbn [snd] in Hx;
    subst st4.
  2:{ intros H; injection H as <- <- <- <-. split; [congruence | reflexivity]. }
  pose proof (enqueue_links_effect new_links st3) as He. cbv zeta in He.
  destruct (enqueue_links new_links st3) as [[] st5]; cbn [snd] in He.
  destruct He as (_ & He & _).
  intros H; injection H as <- <- <- <-. split; [congruence | reflexivity].
Qed.

(** The loop returns once the fuel covers what is left of the budget. *)
Lemma crawl_while_x_total fuel pc sj (st : State W) :
  max_pages_per_domain <= fuel + pc ->
  exists r, crawl_while_x fuel pc sj st = Some r.
Proof.
  revert pc sj st; induction fuel as [|fuel IH]; intros pc sj st Hfuel;
    cbn [crawl_while_x];
    destruct (queue st) as [|url rest]; try (eexists; reflexivity);
    destruct (Nat.ltb_spec pc max_pages_per_domain) as [Hlt|Hge];
    try (eexists; reflexivity).
  - lia.
  - destruct (crawl_body_x url pc sj (set_queue rest st)) as [[[raised pc'] sj'] st']
      eqn:Hbody.
    destruct (crawl_body_x_effect _ _ _ _ _ _ _ _ Hbody) as (_ & Hpc).
    destruct raised as [e|]; [eexists; reflexivity|].
    apply IH. lia.
Qed.

(** How the loop is left: the count has not passed the budget; the
    pages fetched are the pages counted, and one more when an exception
    left the loop; without exception the frontier is empty or the
    budget spent. *)
Lemma crawl_while_x_exit fuel pc sj (st : State W) raised pc' sj' st' :
  crawl_while_x fuel pc sj st = Some (raised, pc', sj', st') ->
  pc <= pc'
  /\ (pc <= max_pages_per_domain -> pc' <= max_pages_per_domain)
  /\ length (fetched (log st')) + pc
     = length (fetched (log st)) + pc'
       + match raised with Some _ => 1 | None => 0 end
  /\ (raised = None -> queue st' = [] \/ pc' >= max_pages_per_domain).
Proof.
  revert pc sj st; induction fuel as [|fuel IH]; intros pc sj st;
    cbn [crawl_while_x];
    destruct (queue st) as [|url rest] eqn:Hq;
    try (intros H; injection H as <- <- <- <-;
         repeat split; try lia; intros _; left; exact Hq);
    destruct (Nat.ltb_spec pc max_pages_per_domain) as [Hlt|Hge];
    try discriminate;
    try (intros H; injection H as <- <- <- <-;
         repeat split; try lia; intros _; right; exact Hge).
  destruct (crawl_body_x url pc sj (set_queue rest st)) as [[[raised1 pc1] sj1] st1]
    eqn:Hbody.
  destruct (crawl_body_x_effect _ _ _ _ _ _ _ _ Hbody) as (Hf & Hpc).
  cbn [log set_queue] in Hf.
  destruct raised1 as [e|].
  - intros H; injection H as <- <- <- <-. subst pc1. rewrite Hf. cbn [length].
    repeat split; try lia. discriminate.
  - intros H. destruct (IH _ _ _ H) as (Hle & Hmax & Hlen & Hstop).
    subst pc1. rewrite Hf in Hlen. cbn [length] in Hlen.
    repeat split; try lia. exact Hstop.
Qed.

(** A URL whose fetch fails is counted like any other. *)
Lemma failed_fetch_turn fuel pc sj (st : State W) url rest :
  queue st = url :: rest ->
  pc < max_pages_per_domain ->
  fst (_fetch_page url (set_queue rest st)) = None ->
  crawl_while_x (S fuel) pc sj st
  = crawl_while_x fuel (pc + 1) sj (snd (_fetch_page url (set_queue rest st))).
Proof.
  intros Hq Hlt Hfail. cbn [crawl_while_x]. rewrite Hq.
  destruct (Nat.ltb_spec pc max_pages_per_domain) as [_|Hge]; [|lia].
  unfold crawl_body_x, bind, ret.
  destruct (_fetch_page url (set_queue rest st)) as [[html|] st1]; cbn [fst snd] in *;
    [discriminate Hfail | reflexivity].
Qed.

(** It takes the last place of the budget: after it the pass is over,
    whatever is left in the frontier. *)
Lemma failed_fetch_ends_pass fuel pc sj (st : State W) url rest :
  queue st = url :: rest ->
  pc + 1 = max_pages_per_domain ->
  fst (_fetch_page url (set_queue rest st)) = None ->
  crawl_while_x (S fuel) pc sj st
  = Some (None, max_pages_per_domain, sj, snd (_fetch_page url (set_queue rest st)))
  /\ queue (snd (_fetch_page url (set_queue rest st))) = rest.
Proof.
  intros Hq Hpc Hfail.
  rewrite (failed_fetch_turn fuel pc sj st url rest Hq ltac:(lia) Hfail).
  rewrite Hpc.
  pose proof (fetch_page_effect url (set_queue rest st)) as Hf. cbv zeta in Hf.
  destruct Hf as ((_ & _ & Hqueue) & _). cbn [queue set_queue] in Hqueue.
  split; [|exact Hqueue].
  destruct fuel; cbn [crawl_while_x]; rewrite Hqueue; destruct rest; reflexivity.
Qed.

(** Every domain pass whose seed parses returns within the budget of
    turns.  It counts at most [max_pages_per_domain] pages.  The pages
    it fetched are the pages it counted, and one more, left uncounted,
    when an exception ended the pass.  A pass that ends without
    exception ends on an empty frontier or a spent budget. *)
Theorem domain_pass_accounting start_url (st : State W) :
  urlparse_raises start_url = None ->
  exists raised pc sj st',
    crawl_domain_x max_pages_per_domain start_url st = Some (raised, pc, sj, st')
    /\ pc <= max_pages_per_domain
    /\ length (fetched (log st'))
       = length (fetched (log st)) + pc
         + match raised with Some _ => 1 | None => 0 end
    /\ (raised = None -> queue st' = [] \/ pc = max_pages_per_domain).
Proof.
  intros Hseed. unfold crawl_domain_x, py_urlparse. rewrite Hseed.
  destruct (crawl_while_x_total max_pages_per_domain 0 0 (start_domain start_url st)
              ltac:(lia)) as ([[[raised pc] sj] st'] & Hrun).
  exists raised, pc, sj, st'. split; [exact Hrun|].
  destruct (crawl_while_x_exit _ _ _ _ _ _ _ _ Hrun) as (_ & Hmax & Hlen & Hstop).
  cbn [log start_domain set_visited set_queue] in Hlen.
  split; [lia|]. split; [lia|].
  intros Hnone. destruct (Hstop Hnone) as [Hq|Hge]; [left; exact Hq | right; lia].
Qed.

End RaisingLoop.

(** ** The model's guess, with urljoin allowed to raise *)

Section RaisingGuess.
Context {W : Type} `{Collab : Collaborators W} `{Errors : UrlErrors}.

(** The decoding of a response, up to the parsed guess. *)
Lemma ollama_decode_x_parsed (w : W) url response message content d :
  py_getitem response "message" = Ok message ->
  py_getitem message "content" = Ok (PStr content) ->
  json_loads (strip_fences content) = Ok (PDict d) ->
  ollama_decode_x w url response
  = (try! parsed_data := absolutize_apply_url_x url d in
     try! parsed_data := parse_date_posted w parsed_data in
     Ok parsed_data).
Proof.
  intros Hm Hc Hj. unfold ollama_decode_x.
  rewrite (py_getitem_in _ _ _ Hm). cbn [rbind]. rewrite Hm. cbn [rbind].
  rewrite (py_getitem_in _ _ _ Hc). cbn [rbind]. rewrite Hc. cbn [rbind py_as_str].
  rewrite Hj. cbn [rbind py_as_dict]. reflexivity.
Qed.

(** The date step leaves the other keys as they are. *)
Lemma parse_date_posted_other (w : W) k d :
  k <> "date_posted" ->
  exists d', parse_date_posted w d = Ok d' /\ dict_get k d' = dict_get k d.
Proof.
  intros Hk. unfold parse_date_posted.
  destruct (truthy (dict_get "date_posted" d)); [|exists d; split; reflexivity].
  destruct (parse_date_string_never_raises w (dict_get "date_posted" d)) as (t & ->).
  cbn [rbind]. eexists. split; [reflexivity|].
  apply dict_get_set_other. exact Hk.
Qed.

(** The apply URL the model gave decides the apply URL of the guess: an
    answer that starts with http:// or https:// is kept; any other
    non-empty answer is resolved against the page URL; and when that
    call of urljoin raises, the whole guess is lost. *)
Theorem guess_apply_url_absolute (html url : string) (st : State W)
    (response message : pyval) (content : string) (d : list (string * pyval))
    (a : string) (w' : W) :
  ollama_chat url (Str.take 8000 html) (world st) = (Ok response, w') ->
  py_getitem response "message" = Ok message ->
  py_getitem message "content" = Ok (PStr content) ->
  json_loads (strip_fences content) = Ok (PDict d) ->
  dict_get "apply_url" d = PStr a ->
  a <> "" ->
  let guess := fst (get_job_details_with_ollama_x html url st) in
  if Str.startswith "http://" a || Str.startswith "https://" a
  then dict_get "apply_url" guess = PStr a
  else match urljoin_raises url a with
       | None => dict_get "apply_url" guess = PStr (urljoin url a)
       | Some _ => guess = []
       end.
Proof.
  intros Hchat Hm Hc Hj Ha Hne guess. subst guess.
  unfold get_job_details_with_ollama_x. exec_prims. rewrite Hchat.
  cbn [fst snd world rbind].
  rewrite (ollama_decode_x_parsed _ _ _ _ _ _ Hm Hc Hj).
  unfold absolutize_apply_url_x. rewrite Ha. cbn [truthy py_as_str rbind].
  destruct (String.eqb_spec a ""); [contradiction|]. cbn [negb].
  destruct (Str.startswith "http://" a || Str.startswith "https://" a); cbn [negb rbind].
  - destruct (parse_date_posted_other w' "apply_url" d ltac:(discriminate))
      as (d' & Hparse & Hd'). rewrite Hparse. cbn [rbind fst].
      rewrite Hd'. exact Ha.
  - unfold py_urljoin. destruct (urljoin_raises url a); cbn [rbind fst]; [reflexivity|].
    destruct (parse_date_posted_other w' "apply_url"
                (dict_set "apply_url" (PStr (urljoin url a)) d) ltac:(discriminate))
      as (d' & Hparse & Hd'). rewrite Hparse. cbn [rbind fst].
    rewrite Hd'. apply dict_get_set_same.
Qed.

(** A truthy date the model gave is replaced by what
    [parse_date_string] returns on it, a datetime or [None], in the
    guess as the apply URL step left it. *)
Theorem guess_date_normalised (html url : string) (st : State W)
    (response message : pyval) (content : string) (d d1 : list (string * pyval))
    (w' : W) :
  ollama_chat url (Str.take 8000 html) (world st) = (Ok response, w') ->
  py_getitem response "message" = Ok message ->
  py_getitem message "content" = Ok (PStr content) ->
  json_loads (strip_fences content) = Ok (PDict d) ->
  absolutize_apply_url_x url d = Ok d1 ->
  truthy (dict_get "date_posted" d) = true ->
  exists t,
    parse_date_string w' (dict_get "date_posted" d) = Ok t
    /\ fst (get_job_details_with_ollama_x html url st)
       = dict_set "date_posted" (pyval_of_date t) d1
    /\ dict_get "date_posted" (fst (get_job_details_with_ollama_x html url st))
       = pyval_of_date t.
Proof.
  intros Hchat Hm Hc Hj Habs Hdate.
  assert (Hsame : dict_get "date_posted" d1 = dict_get "date_posted" d).
  { revert Habs. unfold absolutize_apply_url_x.
    destruct (truthy (dict_get "apply_url" d)); [|congruence].
    destruct (py_as_str (dict_get "apply_url" d)) as [s|]; cbn [rbind]; [|discriminate].
    destruct (negb _); [|congruence].
    destruct (py_urljoin url s); cbn [rbind]; [|discriminate].
    intros H; injection H as <-. apply dict_get_set_other. discriminate. }
  destruct (parse_date_string_never_raises w' (dict_get "date_posted" d)) as (t & Ht).
  exists t. split; [exact Ht|].
  assert (Hguess : fst (get_job_details_with_ollama_x html url st)
                   = dict_set "date_posted" (pyval_of_date t) d1).
  { unfold get_job_details_with_ollama_x. exec_prims. rewrite Hchat.
    cbn [fst snd world rbind].
    rewrite (ollama_decode_x_parsed _ _ _ _ _ _ Hm Hc Hj), Habs. cbn [rbind].
    unfold parse_date_posted. rewrite Hsame, Hdate, Ht. reflexivity. }
  split; [exact Hguess|]. rewrite Hguess. apply dict_get_set_same.
Qed.

End RaisingGuess.

(** ** A crawl that a malformed link ends

    The board at [Malformed.board_url] links to two postings.  The
    first posting carries the anchor [<a href="http://[bad">], on which
    [urljoin] raises [ValueError] inside [_extract_links]; nothing
    between there and the caller of [crawl] catches it. *)

(** C3: the loop over a domain is left otherwise than by an empty
    frontier or a spent budget.  On the board the pass ends with
    [ValueError] after one page counted, with a posting still in the
    frontier: the loop condition holds where the loop is left. *)
Theorem crawl_aborted_by_malformed_link :
  exists st',
    Malformed.pass = Some (Some ValueError, 1, 0, st')
    /\ queue st' = [Malformed.second_url]
    /\ 1 < max_pages_per_domain
    /\ ~ stopped (1, 0, st').
Proof.
  eexists. split; [vm_compute; reflexivity|].
  split; [reflexivity|]. split; [unfold max_pages_per_domain; lia|].
  unfold stopped, max_pages_per_domain. cbn [fst snd queue].
  intros [Hq|Hpc]; [discriminate Hq | lia].
Qed.

(** C10: a URL is popped from the frontier and fetched without the
    page counter moving.  On the board two URLs are popped and fetched,
    the board and the first posting, and the counter stands at one when
    the pass is left: the exception raised while the links of the
    posting are read passes over [pages_crawled += 1]. *)
Theorem popped_url_not_counted :
  exists pages_crawled st',
    Malformed.pass = Some (Some ValueError, pages_crawled, 0, st')
    /\ rev (fetched (log st')) = [Malformed.board_url; Malformed.first_url]
    /\ pages_crawled = 1
    /\ pages_crawled < length (fetched (log st')).
Proof.
  eexists _, _. split; [vm_compute; reflexivity|].
  split; [reflexivity|]. split; [reflexivity|]. cbn. lia.
Qed.

(** The exception leaves [crawl] as well: the seeds after the board
    are never fetched. *)
Example later_seeds_not_crawled :
  exists st',
    Malformed.run = Some (Some ValueError, st')
    /\ ~ In Malformed.other_seed (fetched (log st')).
Proof.
  eexists. split; [vm_compute; reflexivity|].
  cbn. intros [H|[H|[]]]; discriminate H.
Qed.

(** Where the same bracket comes from the model, the [try] of
    [get_job_details_with_ollama] catches the exception. *)
Example bracket_guess_caught :
  fst (@get_job_details_with_ollama_x Z
         (Sample.collaborators Malformed.bracket_guess_script) Malformed.url_errors
         "<empty>" Sample.job_url (init true 0%Z))
  = [].
Proof. vm_compute. reflexivity. Qed.

(** ** Instances on the sample pages *)

Lemma apply_url_is_page_or_link_witness :
  let collab := Sample.collaborators Fixtures.linked_script in
  exists job st',
    @_parse_job_page_x Z collab Malformed.url_errors "<linked>" Sample.job_url
                       (init true 0%Z)
    = (Ok (Some job), st')
    /\ exists s,
         apply_url job = PStr s
         /\ s <> ""
         /\ ((s = Sample.job_url
              /\ forall t v, In t apply_selectors ->
                             ~ links_to (@BeautifulSoup Z collab "<linked>") "href" t v)
             \/ exists selector href,
                  first_linking (@BeautifulSoup Z collab "<linked>") "href"
                                apply_selectors selector href
                  /\ @urljoin_raises Malformed.url_errors Sample.job_url href = None
                  /\ s = (if String.eqb (@urljoin Z collab Sample.job_url href) ""
                          then Sample.job_url
                          else @urljoin Z collab Sample.job_url href)).
Proof.
  cbv zeta.
  destruct (@_parse_job_page_x Z (Sample.collaborators Fixtures.linked_script)
              Malformed.url_errors "<linked>" Sample.job_url (init true 0%Z))
    as [[[job|]|e] st'] eqn:Hrun; try (vm_compute in Hrun; discriminate Hrun).
  exists job, st'. split; [reflexivity|].
  exact (@apply_url_is_page_or_link Z (Sample.collaborators Fixtures.linked_script)
           Malformed.url_errors "<linked>" Sample.job_url (init true 0%Z) st' job
           ltac:(discriminate) Hrun).
Defined.

Lemma guess_apply_url_absolute_witness :
  let collab := Sample.collaborators Sample.posting_script in
  dict_get "apply_url"
    (fst (@get_job_details_with_ollama_x Z collab Malformed.url_errors
            "<posting>" Sample.job_url (init true 0%Z)))
  = PStr (@urljoin Z collab Sample.job_url "/apply/42").
Proof.
  cbv zeta.
  exact (@guess_apply_url_absolute Z (Sample.collaborators Sample.posting_script)
           Malformed.url_errors "<posting>" Sample.job_url (init true 0%Z)
           (Sample.chat_response "guess")
           (PDict [("role", PStr "assistant"); ("content", PStr "guess")])
           "guess" [("apply_url", PStr "/apply/42")] "/apply/42" 0%Z
           eq_refl eq_refl eq_refl eq_refl eq_refl ltac:(discriminate)).
Defined.

Lemma guess_date_normalised_witness :
  let collab := Sample.collaborators Fixtures.dated_guess_script in
  exists t,
    @parse_date_string Z collab 0%Z (dict_get "date_posted" Fixtures.dated_guess) = Ok t
    /\ fst (@get_job_details_with_ollama_x Z collab Malformed.url_errors
              "<empty>" Sample.job_url (init true 0%Z))
       = dict_set "date_posted" (pyval_of_date t) Fixtures.dated_guess
    /\ dict_get "date_posted"
         (fst (@get_job_details_with_ollama_x Z collab Malformed.url_errors
                 "<empty>" Sample.job_url (init true 0%Z)))
       = pyval_of_date t.
Proof.
  cbv zeta.
  apply (@guess_date_normalised Z (Sample.collaborators Fixtures.dated_guess_script)
           Malformed.url_errors "<empty>" Sample.job_url (init true 0%Z)
           (Sample.chat_response "guess")
           (PDict [("role", PStr "assistant"); ("content", PStr "guess")])
           "guess" Fixtures.dated_guess Fixtures.dated_guess 0%Z);
    reflexivity.
Defined.

Lemma domain_pass_accounting_witness :
  exists raised pc sj st',
    Malformed.pass = Some (raised, pc, sj, st')
    /\ pc <= max_pages_per_domain
    /\ length (fetched (log st'))
       = length (fetched (log (init true 0%Z))) + pc
         + match raised with Some _ => 1 | None => 0 end
    /\ (raised = None -> queue st' = [] \/ pc = max_pages_per_domain).
Proof.
  apply (@domain_pass_accounting Z (Sample.collaborators Malformed.script)
           Malformed.url_errors Malformed.board_url (init true 0%Z)).
  reflexivity.
Defined.
